(** * Package / repository metadata tracker: the snapshot diff and its I/O shell

    A shallow embedding of [test_data.py] and [Get_Date.py].

    - Python [str] values are sequences of Unicode code points ([list N]).
    - A Python [dict] is an insertion-ordered association list with unique
      keys: iteration order is observable ([new_dict.items()], the key order
      of the JSON output), so the order is part of the model.
    - Field values are [None], strings and integers.
    - Code that can raise returns a [result]; on such values the only
      exceptions the diff can raise are [KeyError]s of the subscript
      operator.
    - [datetime.now()] is an oracle: the n-th reading taken during a call.
    - Files are a finite map from paths to contents. *)

From Stdlib Require Import ZArith NArith String Ascii DecimalString Lia.
From stdpp Require Import base decidable option list numbers gmap.

Local Open Scope N_scope.

(** ** Values *)

Abbreviation pystr := (list N) (only parsing).

(** A [str] literal of the source whose characters are all ASCII. *)
Definition lit (s : string) : pystr :=
  map N_of_ascii (list_ascii_of_string s).

(** The values a record field or an event field holds: [None], a [str], an
    [int]. These are the values the fetchers store when the services answer
    with JSON scalars; fields holding a list, an object, a float or a boolean
    are outside the model, and so is every statement below about them. *)
Inductive pyval : Type :=
  | VNone
  | VStr (s : pystr)
  | VInt (z : Z).

#[global] Instance pyval_eq_dec : EqDecision pyval.
Proof. solve_decision. Defined.

(** Python truthiness, as used by [or] and [if x:]. *)
Definition truthy (v : pyval) : bool :=
  match v with
  | VNone => false
  | VStr s => negb (bool_decide (s = []))
  | VInt z => negb (bool_decide (z = 0%Z))
  end.

(** [a or b] *)
Definition py_or (a b : pyval) : pyval := if truthy a then a else b.

(** [a == b] on [None], [str] and [int] values. *)
Definition py_eq (a b : pyval) : bool := bool_decide (a = b).

(** ** Exceptions *)

Inductive exn : Type :=
  | KeyError (k : pystr)
  | KeyErrorTuple (k : pyval * pyval)
  | ValueError
  | AttributeError
  | UnboundLocalError
  | OSError.

Inductive result (A : Type) : Type :=
  | Ok (a : A)
  | Raise (e : exn).
Arguments Ok {A} a.
Arguments Raise {A} e.

#[global] Instance result_ret : MRet result := fun _ a => Ok a.
#[global] Instance result_bind : MBind result := fun _ _ f m =>
  match m with
  | Ok a => f a
  | Raise e => Raise e
  end.

(** ** Insertion-ordered dictionaries *)

Section dict.
Context {K V : Type} `{EqDecision K}.

(** The value stored under [k], if any. *)
Fixpoint dict_lookup (d : list (K * V)) (k : K) : option V :=
  match d with
  | [] => None
  | (k', v) :: d' => if decide (k = k') then Some v else dict_lookup d' k
  end.

(** [k in d] *)
Definition dict_mem (k : K) (d : list (K * V)) : bool :=
  match dict_lookup d k with
  | Some _ => true
  | None => false
  end.

(** [d[k] = v]: an existing key keeps its position, a new key goes last. *)
Fixpoint dict_set (d : list (K * V)) (k : K) (v : V) : list (K * V) :=
  match d with
  | [] => [(k, v)]
  | (k', v') :: d' =>
      if decide (k = k') then (k', v) :: d' else (k', v') :: dict_set d' k v
  end.
End dict.

(** A record or an event: a [dict] with [str] keys. *)
Abbreviation pydict := (list (list N * pyval)) (only parsing).

(** [d[k]] *)
Definition getitem (d : pydict) (k : pystr) : result pyval :=
  match dict_lookup d k with
  | Some v => Ok v
  | None => Raise (KeyError k)
  end.

(** [d.get(k)] *)
Definition get (d : pydict) (k : pystr) : pyval :=
  match dict_lookup d k with
  | Some v => v
  | None => VNone
  end.

(** ** Field names and constants of the source *)

Definition k_source : pystr := Eval vm_compute in lit "source".
Definition k_name : pystr := Eval vm_compute in lit "name".
Definition k_version : pystr := Eval vm_compute in lit "version".
Definition k_author : pystr := Eval vm_compute in lit "author".
Definition k_home_page : pystr := Eval vm_compute in lit "home_page".
Definition k_stars : pystr := Eval vm_compute in lit "stars".
Definition k_forks : pystr := Eval vm_compute in lit "forks".
Definition k_last_updated : pystr := Eval vm_compute in lit "last_updated".
Definition k_license : pystr := Eval vm_compute in lit "license".
Definition k_checked_at : pystr := Eval vm_compute in lit "checked_at".
Definition k_change_type : pystr := Eval vm_compute in lit "change_type".
Definition k_old_value : pystr := Eval vm_compute in lit "old_value".
Definition k_new_value : pystr := Eval vm_compute in lit "new_value".
Definition k_check_time : pystr := Eval vm_compute in lit "check_time".

Definition s_pypi : pystr := Eval vm_compute in lit "pypi".
Definition s_github : pystr := Eval vm_compute in lit "github".

(** The four [change_type] strings, by code point. *)
Definition ct_added : pystr := [0x65B0; 0x589E].
Definition ct_version_update : pystr := [0x7248; 0x672C; 0x66F4; 0x65B0].
Definition ct_repo_update : pystr := [0x4ED3; 0x5E93; 0x66F4; 0x65B0].
Definition ct_removed : pystr := [0x79FB; 0x9664].

(** The record literals returned by the two fetchers of [test_data.py]. *)
Definition pypi_record (name version author home_page checked_at : pyval)
    : pydict :=
  [ (k_source, VStr s_pypi); (k_name, name); (k_version, version);
    (k_author, author); (k_home_page, home_page);
    (k_checked_at, checked_at) ].

Definition github_record (name stars forks last_updated license checked_at
    : pyval) : pydict :=
  [ (k_source, VStr s_github); (k_name, name); (k_stars, stars);
    (k_forks, forks); (k_last_updated, last_updated); (k_license, license);
    (k_checked_at, checked_at) ].

(** The event literal appended to [updates]. *)
Definition mk_event (source name : pyval) (change_type : pystr)
    (old_value new_value check_time : pyval) : pydict :=
  [ (k_source, source); (k_name, name); (k_change_type, VStr change_type);
    (k_old_value, old_value); (k_new_value, new_value);
    (k_check_time, check_time) ].

(** ** [compare_metadata] *)

Abbreviation key := (pyval * pyval)%type (only parsing).
Abbreviation keyed := (list ((pyval * pyval) * list (list N * pyval)))
  (only parsing).

(** [(item["source"], item["name"])] *)
Definition item_key (item : pydict) : result key :=
  s ← getitem item k_source;
  n ← getitem item k_name;
  mret (s, n).

(** [{(item["source"], item["name"]): item for item in data}] *)
Fixpoint build_dict (data : list pydict) (acc : keyed) : result keyed :=
  match data with
  | [] => Ok acc
  | item :: rest =>
      k ← item_key item;
      build_dict rest (dict_set acc k item)
  end.

(** [d[key]] on the lookup dictionaries. *)
Definition getitem_key (d : keyed) (k : key) : result pydict :=
  match dict_lookup d k with
  | Some v => Ok v
  | None => Raise (KeyErrorTuple k)
  end.

(** The body of the first loop: what one [(key, new_item)] appends. *)
Definition visit_new (old_dict : keyed) (k : key) (new_item : pydict)
    : result (list pydict) :=
  if negb (dict_mem k old_dict) then
    s ← getitem new_item k_source;
    n ← getitem new_item k_name;
    let nv := py_or (get new_item k_version) (get new_item k_last_updated) in
    t ← getitem new_item k_checked_at;
    mret [mk_event s n ct_added VNone nv t]
  else
    old_item ← getitem_key old_dict k;
    s ← getitem new_item k_source;
    c ← (if py_eq s (VStr s_pypi) then
           ov ← getitem old_item k_version;
           nv ← getitem new_item k_version;
           mret (negb (py_eq ov nv))
         else mret false);
    if c : bool then
      n ← getitem new_item k_name;
      ov ← getitem old_item k_version;
      nv ← getitem new_item k_version;
      t ← getitem new_item k_checked_at;
      mret [mk_event (VStr s_pypi) n ct_version_update ov nv t]
    else
      s ← getitem new_item k_source;
      c ← (if py_eq s (VStr s_github) then
             ov ← getitem old_item k_last_updated;
             nv ← getitem new_item k_last_updated;
             mret (negb (py_eq ov nv))
           else mret false);
      if c : bool then
        n ← getitem new_item k_name;
        ov ← getitem old_item k_last_updated;
        nv ← getitem new_item k_last_updated;
        t ← getitem new_item k_checked_at;
        mret [mk_event (VStr s_github) n ct_repo_update ov nv t]
      else mret [].

(** [for key, new_item in new_dict.items(): ...] *)
Fixpoint update_loop (old_dict : keyed) (items : keyed)
    : result (list pydict) :=
  match items with
  | [] => Ok []
  | (k, new_item) :: rest =>
      evs ← visit_new old_dict k new_item;
      more ← update_loop old_dict rest;
      mret (evs ++ more)
  end.

(** [for key in old_dict: if key not in new_dict: ...]; [tick] counts the
    clock readings taken so far. *)
Fixpoint removed_loop (now : nat → pystr) (tick : nat)
    (old_dict new_dict : keyed) (keys : list key) : result (list pydict) :=
  match keys with
  | [] => Ok []
  | k :: rest =>
      if negb (dict_mem k new_dict) then
        i1 ← getitem_key old_dict k;
        s ← getitem i1 k_source;
        i2 ← getitem_key old_dict k;
        n ← getitem i2 k_name;
        i3 ← getitem_key old_dict k;
        i4 ← getitem_key old_dict k;
        let ov := py_or (get i3 k_version) (get i4 k_last_updated) in
        let t := VStr (now tick) in
        more ← removed_loop now (S tick) old_dict new_dict rest;
        mret (mk_event s n ct_removed ov VNone t :: more)
      else removed_loop now tick old_dict new_dict rest
  end.

Definition compare_metadata (now : nat → pystr)
    (old_data new_data : list pydict) : result (list pydict) :=
  old_dict ← build_dict old_data [];
  new_dict ← build_dict new_data [];
  ups ← update_loop old_dict new_dict;
  rems ← removed_loop now 0 old_dict new_dict (map fst old_dict);
  mret (ups ++ rems).

(** ** The data model: well-formed records and snapshots *)

Inductive source_kind : Type := PyPI | GitHub.

Definition source_name (sk : source_kind) : pystr :=
  match sk with PyPI => s_pypi | GitHub => s_github end.

(** The comparison field of a source kind, and the field of the other kind. *)
Definition cmp_key (sk : source_kind) : pystr :=
  match sk with PyPI => k_version | GitHub => k_last_updated end.

Definition other_key (sk : source_kind) : pystr :=
  match sk with PyPI => k_last_updated | GitHub => k_version end.

Definition source_of (r : pydict) : option source_kind :=
  match dict_lookup r k_source with
  | Some (VStr s) =>
      if decide (s = s_pypi) then Some PyPI
      else if decide (s = s_github) then Some GitHub
      else None
  | _ => None
  end.

Definition is_str (v : pyval) : bool :=
  match v with VStr _ => true | _ => false end.

(** A string that may be absent: the field is there and holds [None]. *)
Definition is_opt_str (v : pyval) : bool :=
  match v with VNone | VStr _ => true | VInt _ => false end.

(** What the diff reads of a record the fetchers return: a known source, a
    string name, the comparison field of its kind stored under its key
    (possibly holding [None]) and no field of the other kind. A record whose
    comparison key is missing is not well-formed in this sense; see
    [data_model_record] below. *)
Definition wf_coreb (r : pydict) : bool :=
  match source_of r, dict_lookup r k_name with
  | Some sk, Some (VStr _) =>
      match dict_lookup r (cmp_key sk), dict_lookup r (other_key sk) with
      | Some v, None => is_opt_str v
      | _, _ => false
      end
  | _, _ => false
  end.

Definition wf_recordb (r : pydict) : bool :=
  wf_coreb r &&
  match dict_lookup r k_checked_at with
  | Some v => is_str v
  | None => false
  end.

Definition wf_core (r : pydict) : Prop := wf_coreb r = true.
Definition wf_record (r : pydict) : Prop := wf_recordb r = true.

(** The identity [(source, name)] of a record or of an event. *)
Definition dkey (d : pydict) : key := (get d k_source, get d k_name).

(** A snapshot: well-formed records with pairwise distinct identities. *)
Definition wf_snapshot (S : list pydict) : Prop :=
  Forall wf_record S ∧ NoDup (map dkey S).

(** ** The diff, as the specification words it *)

Definition cmp_field (r : pydict) : pyval :=
  match source_of r with
  | Some sk => get r (cmp_key sk)
  | None => VNone
  end.

Definition update_type (r : pydict) : pystr :=
  match source_of r with
  | Some GitHub => ct_repo_update
  | _ => ct_version_update
  end.

(** The value the code reports for an added or removed record. *)
Definition reported_value (r : pydict) : pyval :=
  py_or (get r k_version) (get r k_last_updated).

Definition added_event (n : pydict) : pydict :=
  [ (k_source, (get n k_source)); (k_name, (get n k_name));
    (k_change_type, VStr ct_added);
    (k_old_value, VNone); (k_new_value, (reported_value n));
    (k_check_time, (get n k_checked_at)) ].

Definition updated_event (o n : pydict) : pydict :=
  [ (k_source, (get n k_source)); (k_name, (get n k_name));
    (k_change_type, VStr (update_type n));
    (k_old_value, (cmp_field o)); (k_new_value, (cmp_field n));
    (k_check_time, (get n k_checked_at)) ].

Definition removed_event (t : pystr) (o : pydict) : pydict :=
  [ (k_source, (get o k_source)); (k_name, (get o k_name));
    (k_change_type, VStr ct_removed);
    (k_old_value, (reported_value o)); (k_new_value, VNone);
    (k_check_time, (VStr t)) ].

(** The lookup dictionary of a snapshot, without the error plumbing. *)
Definition index (data : list pydict) (acc : keyed) : keyed :=
  fold_left (fun d r => dict_set d (dkey r) r) data acc.

Definition classify (old_dict : keyed) (n : pydict) : list pydict :=
  match dict_lookup old_dict (dkey n) with
  | None => [added_event n]
  | Some o =>
      if decide (cmp_field o = cmp_field n) then [] else [updated_event o n]
  end.

Fixpoint removed_events (now : nat → pystr) (tick : nat) (new_dict : keyed)
    (entries : keyed) : list pydict :=
  match entries with
  | [] => []
  | (k, o) :: rest =>
      if dict_mem k new_dict then removed_events now tick new_dict rest
      else removed_event (now tick) o
             :: removed_events now (S tick) new_dict rest
  end.

Definition diff_spec (now : nat → pystr) (old_data new_data : list pydict)
    : list pydict :=
  flat_map (classify (index old_data [])) (map snd (index new_data []))
  ++ removed_events now 0 (index new_data []) (index old_data []).

(** The events of an output that concern one identity. *)
Definition events_for (k : key) (evs : list pydict) : list pydict :=
  filter (fun e => dkey e = k) evs.

(** ** [json.dump(data, f, indent=2, ensure_ascii=...)]

    The output of the standard library's encoder on a list of dictionaries
    with [str] keys and [None], [str] or [int] values. *)

Definition hex_digit (n : N) : N := if n <? 10 then 48 + n else 87 + n.

Definition hex4 (n : N) : pystr :=
  [ hex_digit ((n / 4096) mod 16); hex_digit ((n / 256) mod 16);
    hex_digit ((n / 16) mod 16); hex_digit (n mod 16) ].

(** A backslash, a [u] and four lower-case hexadecimal digits. *)
Definition u_escape (n : N) : pystr := [92; 117] ++ hex4 n.

(** The two-character escapes: quote, backslash, newline, carriage return,
    tab, backspace, form feed. *)
Definition short_escape (c : N) : option pystr :=
  if c =? 34 then Some [92; 34]
  else if c =? 92 then Some [92; 92]
  else if c =? 10 then Some [92; 110]
  else if c =? 13 then Some [92; 114]
  else if c =? 9 then Some [92; 116]
  else if c =? 8 then Some [92; 98]
  else if c =? 12 then Some [92; 102]
  else None.

(** With [ensure_ascii] everything outside the printable ASCII range is
    escaped, through a surrogate pair beyond the basic plane; without it only
    the control characters are. *)
Definition encode_char (ensure_ascii : bool) (c : N) : pystr :=
  match short_escape c with
  | Some e => e
  | None =>
      if ensure_ascii then
        if (32 <=? c) && (c <=? 126) then [c]
        else if c <? 0x10000 then u_escape c
        else
          let v := c - 0x10000 in
          u_escape (N.lor 0xd800 (N.land (N.shiftr v 10) 0x3ff))
          ++ u_escape (N.lor 0xdc00 (N.land v 0x3ff))
      else if c <? 32 then u_escape c
      else [c]
  end.

Definition encode_str (ensure_ascii : bool) (s : pystr) : pystr :=
  [34] ++ flat_map (encode_char ensure_ascii) s ++ [34].

(** [repr] of an [int]. *)
Definition repr_int (z : Z) : pystr :=
  lit (NilZero.string_of_int (Z.to_int z)).

Definition json_null : pystr := Eval vm_compute in lit "null".
Definition key_separator : pystr := Eval vm_compute in lit ": ".
Definition empty_object : pystr := Eval vm_compute in lit "{}".
Definition empty_array : pystr := Eval vm_compute in lit "[]".

Definition encode_value (ensure_ascii : bool) (v : pyval) : pystr :=
  match v with
  | VNone => json_null
  | VStr s => encode_str ensure_ascii s
  | VInt z => repr_int z
  end.

Definition newline_indent (level : nat) : pystr :=
  10 :: repeat 32 (2 * level)%nat.

Fixpoint join (sep : pystr) (parts : list pystr) : pystr :=
  match parts with
  | [] => []
  | [p] => p
  | p :: rest => p ++ sep ++ join sep rest
  end.

Definition encode_item (ensure_ascii : bool) (kv : list N * pyval) : pystr :=
  encode_str ensure_ascii kv.1 ++ key_separator
  ++ encode_value ensure_ascii kv.2.

Definition encode_dict (ensure_ascii : bool) (level : nat) (d : pydict)
    : pystr :=
  match d with
  | [] => empty_object
  | _ =>
      [123] ++ newline_indent (S level)
      ++ join ([44] ++ newline_indent (S level))
           (map (encode_item ensure_ascii) d)
      ++ newline_indent level ++ [125]
  end.

Definition json_dumps (ensure_ascii : bool) (data : list pydict) : pystr :=
  match data with
  | [] => empty_array
  | _ =>
      [91] ++ newline_indent 1
      ++ join ([44] ++ newline_indent 1) (map (encode_dict ensure_ascii 1) data)
      ++ newline_indent 0 ++ [93]
  end.

(** The characters of the keys and string values of the data, in order. *)
Definition text_of_value (v : pyval) : pystr :=
  match v with
  | VStr s => s
  | _ => []
  end.

Definition text_of (data : list pydict) : pystr :=
  flat_map (flat_map (fun kv : list N * pyval => kv.1 ++ text_of_value kv.2))
    data.

Definition non_ascii (c : N) : Prop := 128 ≤ c.

#[global] Instance non_ascii_dec c : Decision (non_ascii c).
Proof. unfold non_ascii. apply _. Defined.

(** [needle in haystack] on strings. *)
Fixpoint starts_with (prefix s : pystr) : bool :=
  match prefix, s with
  | [], _ => true
  | p :: prefix', c :: s' => (p =? c) && starts_with prefix' s'
  | _ :: _, [] => false
  end.

Fixpoint occurs (needle haystack : pystr) : bool :=
  starts_with needle haystack
  || match haystack with
     | [] => false
     | _ :: rest => occurs needle rest
     end.

(** ** Files *)

(** The files of the machine: contents by path. Directories are not
    modelled. A write either fails when the file is opened, or stores the
    whole text: a write that fails half-way (a character the platform
    encoding cannot store, a full disk) and leaves a truncated file is not
    modelled: a lemma about the content of a file written with
    [ensure_ascii=False] holds for a platform whose encoding stores every
    character of the data. *)
Abbreviation filesystem := (gmap (list N) (list N)) (only parsing).

(** [os.path.join(a, b)] on a POSIX system. *)
Definition path_join (a b : pystr) : pystr :=
  match b with
  | 47 :: _ => b
  | _ =>
      match last a with
      | None | Some 47 => a ++ b
      | Some _ => a ++ [47] ++ b
      end
  end.

(** [s.split(sep)] for a one-character separator. *)
Fixpoint split_on (sep : N) (s : pystr) : list pystr :=
  match s with
  | [] => [[]]
  | c :: s' =>
      if c =? sep then [] :: split_on sep s'
      else
        match split_on sep s' with
        | p :: ps => (c :: p) :: ps
        | [] => [[c]]
        end
  end.

Definition output_dir : pystr := Eval vm_compute in lit "./output".

(** The monitored targets, both scripts. *)
Definition targets : list pydict :=
  [ [(k_source, VStr s_pypi); (k_name, VStr (lit "numpy"))];
    [(k_source, VStr s_pypi); (k_name, VStr (lit "pandas"))];
    [(k_source, VStr s_github); (k_name, VStr (lit "torvalds/linux"))];
    [(k_source, VStr s_github); (k_name, VStr (lit "python/cpython"))] ].

Section io.
(** Whether [open(path, "w")] succeeds. *)
Variable openable : list N → bool.
(** What [csv.DictWriter] with the given field names leaves in the file. *)
Variable csv_text : list (list N) → list (list (list N * pyval)) → list N.
(** [json.load]: the parsed content, or nothing when it raises. *)
Variable json_load : list N → option (list (list (list N * pyval))).
(** The two fetchers: a record, or [None] after a caught exception. *)
Variable get_pypi_metadata : pyval → option (list (list N * pyval)).
Variable get_github_metadata :
  list N → list N → option (list (list N * pyval)).
(** Whether [os.makedirs] succeeds, the readings of [isoformat()] taken by
    the diff, and the reading of [strftime('%Y%m%d%H%M')]. *)
Variable makedirs_ok : bool.
Variable now_iso : nat → list N.
Variable now_stamp : list N.

(** [with open(path, "w") as f: f.write(content)] *)
Definition write_file (fs : filesystem) (path content : pystr)
    : result filesystem :=
  if openable path then Ok (<[path := content]> fs) else Raise OSError.

(** [save_to_json] of [test_data.py]: [ensure_ascii=False]; an exception is
    caught and reported. *)
Definition save_to_json (data : list pydict) (output_path : pystr)
    (fs : filesystem) : filesystem :=
  match write_file fs output_path (json_dumps false data) with
  | Ok fs' => fs'
  | Raise _ => fs
  end.

(** [save_to_csv], the same in both scripts. *)
Definition save_to_csv (data : list pydict) (output_path : pystr)
    (fs : filesystem) : filesystem :=
  match data with
  | [] => fs
  | first :: _ =>
      let keys := map fst first in
      match write_file fs output_path (csv_text keys data) with
      | Ok fs' => fs'
      | Raise _ => fs
      end
  end.

Definition load_previous_metadata (fs : filesystem) (file_path : pystr)
    : list pydict :=
  match fs !! file_path with
  | None => []
  | Some content =>
      match json_load content with
      | Some data => data
      | None => []
      end
  end.

(** [if metadata:] *)
Definition truthy_metadata (m : option (list (list N * pyval))) : bool :=
  match m with
  | Some (_ :: _) => true
  | _ => false
  end.

(** The [try] block of the collecting loop up to the test of [metadata]:
    the new binding of [metadata], where [None] stands for unbound. *)
Definition fetch_target (metadata : option (option (list (list N * pyval))))
    (target : pydict) : result (option (list (list N * pyval))) :=
  s ← getitem target k_source;
  m ← (if py_eq s (VStr s_pypi) then
         n ← getitem target k_name;
         Ok (Some (get_pypi_metadata n))
       else
         s' ← getitem target k_source;
         if py_eq s' (VStr s_github) then
           n ← getitem target k_name;
           match n with
           | VStr name =>
               match split_on 47 name with
               | [owner; repo] => Ok (Some (get_github_metadata owner repo))
               | _ => Raise ValueError
               end
           | _ => Raise AttributeError
           end
         else Ok metadata);
  match m with
  | Some md => Ok md
  | None => Raise UnboundLocalError
  end.

(** The collecting loop of [test_data.main], for targets that carry a
    [name], as the four targets of the script do: every exception of the
    [try] block is caught, and the messages, which read [target['name']],
    can then be formatted. *)
Fixpoint collect (metadata : option (option (list (list N * pyval))))
    (current_data : list pydict) (ts : list pydict) : list pydict :=
  match ts with
  | [] => current_data
  | target :: rest =>
      match fetch_target metadata target with
      | Ok md =>
          collect (Some md)
            (if truthy_metadata md
             then current_data ++ option_list md
             else current_data)
            rest
      | Raise _ => collect metadata current_data rest
      end
  end.

Definition metadata_json : pystr := path_join output_dir (lit "metadata.json").
Definition metadata_csv : pystr := path_join output_dir (lit "metadata.csv").
Definition report_path : pystr :=
  path_join output_dir (lit "update_report_" ++ now_stamp ++ lit ".json").

(** [main] of [test_data.py]: the files it leaves, and whether it ends with
    an uncaught exception of [os.makedirs] or of the diff. Console output is
    left out, and with it a [print] that fails. *)
Definition main (fs : filesystem) : filesystem * result unit :=
  if negb makedirs_ok then (fs, Raise OSError)
  else
    let previous_data := load_previous_metadata fs metadata_json in
    let current_data := collect None [] targets in
    let fs1 :=
      match current_data with
      | [] => fs
      | _ :: _ =>
          save_to_csv current_data metadata_csv
            (save_to_json current_data metadata_json fs)
      end in
    match compare_metadata now_iso previous_data current_data with
    | Raise e => (fs1, Raise e)
    | Ok update_report =>
        match update_report with
        | [] => (fs1, Ok tt)
        | _ :: _ => (save_to_json update_report report_path fs1, Ok tt)
        end
    end.
End io.

Module Get_Date.
(** [save_to_json] of [Get_Date.py]: [json.dump(data, f, indent=2)], hence
    with the default [ensure_ascii=True]. *)
Definition save_to_json (openable : list N → bool) (data : list pydict)
    (output_path : pystr) (fs : filesystem) : filesystem :=
  match write_file openable fs output_path (json_dumps true data) with
  | Ok fs' => fs'
  | Raise _ => fs
  end.
End Get_Date.

(** ** Records that differ only in descriptive fields *)

(** The fields carried along without a role in the diff. *)
Definition noncmp_fields : list pystr :=
  [k_stars; k_forks; k_license; k_author; k_home_page].

(** [r] and [r'] agree on every field other than the descriptive ones. *)
Definition same_cmp (r r' : pydict) : Prop :=
  ∀ k, k ∉ noncmp_fields → dict_lookup r k = dict_lookup r' k.

(** Lookup dictionaries with the same keys, in the same order, whose records
    agree up to descriptive fields. *)
Definition keyed_rel (D D' : keyed) : Prop :=
  Forall2 (fun a b => a.1 = b.1 ∧ same_cmp a.2 b.2) D D'.

(** The entries of a dictionary are filed under their own identity and
    satisfy [P]. *)
Definition entries_ok (P : list (list N * pyval) → Prop) (D : keyed) : Prop :=
  ∀ k r, (k, r) ∈ D → dkey r = k ∧ P r.

(** ** Observing a result up to the clock *)

(** An event without its [check_time]. *)
Definition without_check_time (e : pydict) : pydict :=
  filter (fun kv => kv.1 ≠ k_check_time) e.

Definition result_map {A B} (f : A → B) (m : result A) : result B :=
  match m with
  | Ok a => Ok (f a)
  | Raise e => Raise e
  end.

(** ** Sample data *)

(** The scenario of the specification: two previous records, two current
    ones; the fields the scenario leaves open are parameters. *)
Definition scenario_previous (author home_page stars forks license ta tb
    : pyval) : list pydict :=
  [ pypi_record (VStr (lit "numpy")) (VStr (lit "1.0")) author home_page ta;
    github_record (VStr (lit "torvalds/linux")) stars forks
      (VStr (lit "2023-01-01")) license tb ].

Definition scenario_current (author home_page author' home_page' tc td
    : pyval) : list pydict :=
  [ pypi_record (VStr (lit "numpy")) (VStr (lit "1.1")) author home_page tc;
    pypi_record (VStr (lit "pandas")) (VStr (lit "2.0")) author' home_page'
      td ].

Definition numpy : pyval := VStr (lit "numpy").
Definition pandas : pyval := VStr (lit "pandas").
Definition linux : pyval := VStr (lit "torvalds/linux").
Definition t0 : pyval := VStr (lit "2024-05-01T10:00:00").
Definition t1 : pyval := VStr (lit "2024-05-02T10:00:00").

(** A PyPI record without a known version, and the same package once the
    version is known. *)
Definition numpy_unversioned : pydict := pypi_record numpy VNone VNone VNone t0.
Definition numpy_1_0 : pydict :=
  pypi_record numpy (VStr (lit "1.0")) VNone VNone t1.

(** A PyPI record whose version is the empty string. *)
Definition numpy_empty_version : pydict :=
  pypi_record numpy (VStr []) VNone VNone t1.

(** One repository seen twice with the same [last_updated] and different
    stars, forks and license. *)
Definition linux_then : pydict :=
  github_record linux (VInt 100) (VInt 10) (VStr (lit "2023-01-01")) VNone t0.
Definition linux_now : pydict :=
  github_record linux (VInt 250) (VInt 30) (VStr (lit "2023-01-01"))
    (VStr (lit "GPL-2.0")) t1.
Definition linux_now' : pydict :=
  github_record linux (VInt 999) (VInt 0) (VStr (lit "2023-01-01")) VNone t1.

(** A PyPI record whose author has a non-ASCII letter (e with acute accent,
    code point 233). *)
Definition jose : pydict :=
  pypi_record (VStr (lit "requests")) (VStr (lit "2.31.0"))
    (VStr [74; 111; 115; 233]) VNone t0.

(** ** Records the diff can read *)

(** The fields [compare_metadata] subscripts are there, whatever they hold:
    a known source, a name, and the comparison field of the source kind. *)
Definition readable_coreb (r : pydict) : bool :=
  match source_of r, dict_lookup r k_name with
  | Some sk, Some _ =>
      match dict_lookup r (cmp_key sk) with
      | Some _ => true
      | None => false
      end
  | _, _ => false
  end.

Definition readableb (r : pydict) : bool :=
  readable_coreb r &&
  match dict_lookup r k_checked_at with
  | Some _ => true
  | None => false
  end.

Definition readable_core (r : pydict) : Prop := readable_coreb r = true.
Definition readable (r : pydict) : Prop := readableb r = true.

(** ** The diff in closed form *)

(** The previous record with the identity of [n], if any. *)
Definition previous_record (old_data : list pydict) (n : pydict)
    : option (list (list N * pyval)) :=
  head (filter (fun o => dkey o = dkey n) old_data).

(** What one current record contributes. *)
Definition diff_current (old_data : list pydict) (n : pydict)
    : list pydict :=
  match previous_record old_data n with
  | None => [added_event n]
  | Some o =>
      if decide (cmp_field o = cmp_field n) then [] else [updated_event o n]
  end.

(** The previous records whose identity the current snapshot lacks. *)
Definition removed_records (old_data new_data : list pydict) : list pydict :=
  filter (fun o => dkey o ∉ map dkey new_data) old_data.

Definition diff_closed (now : nat → pystr) (old_data new_data : list pydict)
    : list pydict :=
  flat_map (diff_current old_data) new_data
  ++ imap (fun i o => removed_event (now i) o)
       (removed_records old_data new_data).

(** A current record that carries the identity and the comparison field of
    a previous one. *)
Definition unchanged (o n : pydict) : Prop :=
  dkey o = dkey n ∧ cmp_field o = cmp_field n.

(** The field names [compare_metadata] may fail to find. *)
Definition read_fields : list pystr :=
  [k_source; k_name; k_version; k_last_updated; k_checked_at].

(** ** The fetchers *)

(** [str(v)], as an f-string formats a value. *)
Definition py_str (v : pyval) : pystr :=
  match v with
  | VNone => [78; 111; 110; 101]
  | VStr s => s
  | VInt z => repr_int z
  end.

(** A member of a JSON object: a scalar, or an object of scalars. *)
Inductive jfield : Type :=
  | JScalar (v : pyval)
  | JObject (d : list (list N * pyval)).

(** The body of the GitHub answer, as far as the fetcher reads it: the scalar
    members, and the member [license] if there is one. *)
Record github_response : Type := {
  repo_fields : list (list N * pyval);
  repo_license : option jfield
}.

Definition k_stargazers_count : pystr :=
  Eval vm_compute in lit "stargazers_count".
Definition k_forks_count : pystr := Eval vm_compute in lit "forks_count".
Definition k_updated_at : pystr := Eval vm_compute in lit "updated_at".
Definition k_spdx_id : pystr := Eval vm_compute in lit "spdx_id".
Definition k_authorization : pystr := Eval vm_compute in lit "Authorization".

Definition pypi_url (package_name : pyval) : pystr :=
  lit "https://pypi.org/pypi/" ++ py_str package_name ++ lit "/json".

Definition github_url (owner repo : pystr) : pystr :=
  lit "https://api.github.com/repos/" ++ owner ++ [47] ++ repo.

(** [{"Authorization": f"Bearer {token}"} if token else {}] *)
Definition auth_headers (token : pyval) : pydict :=
  if truthy token
  then [(k_authorization, VStr (lit "Bearer " ++ py_str token))]
  else [].

(** [data.get("license", {}).get("spdx_id")] *)
Definition license_spdx_id (data : github_response) : result pyval :=
  match repo_license data with
  | None => Ok (get [] k_spdx_id)
  | Some (JObject d) => Ok (get d k_spdx_id)
  | Some (JScalar _) => Raise AttributeError
  end.

(** What [except Exception] makes of the body of a fetcher. *)
Definition caught {A} (m : result A) : option A :=
  match m with
  | Ok a => Some a
  | Raise _ => None
  end.

Section fetchers.
(** [requests.get(url, timeout=10)] followed by [raise_for_status()],
    [json()] and, for PyPI, [["info"]]: the object, or nothing when any of
    them raises. *)
Variable requests_pypi : list N → option (list (list N * pyval)).
Variable requests_github :
  list N → list (list N * pyval) → option github_response.
(** The reading of [datetime.now().isoformat()] taken for the answer of a
    URL. *)
Variable clock : list N → list N.

(** [get_pypi_metadata] of [test_data.py]. *)
Definition get_pypi_metadata (package_name : pyval)
    : option (list (list N * pyval)) :=
  let url := pypi_url package_name in
  match requests_pypi url with
  | None => None
  | Some data =>
      caught (name ← getitem data k_name;
              version ← getitem data k_version;
              mret (pypi_record name version (get data k_author)
                      (get data k_home_page) (VStr (clock url))))
  end.

(** [get_github_metadata] of [test_data.py]. *)
Definition get_github_metadata (owner repo : pystr) (token : pyval)
    : option (list (list N * pyval)) :=
  let url := github_url owner repo in
  match requests_github url (auth_headers token) with
  | None => None
  | Some data =>
      caught (stars ← getitem (repo_fields data) k_stargazers_count;
              forks ← getitem (repo_fields data) k_forks_count;
              updated ← getitem (repo_fields data) k_updated_at;
              spdx ← license_spdx_id data;
              mret (github_record (VStr (owner ++ [47] ++ repo)) stars forks
                      updated spdx (VStr (clock url))))
  end.
End fetchers.

(** ** Targets *)

Definition pypi_target (name : pyval) : pydict :=
  [(k_source, VStr s_pypi); (k_name, name)].

Definition github_target (owner repo : pystr) : pydict :=
  [(k_source, VStr s_github); (k_name, VStr (owner ++ [47] ++ repo))].

(** A target the loop can serve, with the answer of its fetcher: a PyPI
    package, or a repository whose owner and name hold no slash. *)
Inductive target_fetch
    (get_pypi : pyval → option (list (list N * pyval)))
    (get_github : list N → list N → option (list (list N * pyval)))
    : list (list N * pyval) → option (list (list N * pyval)) → Prop :=
  | fetch_pypi name :
      target_fetch get_pypi get_github (pypi_target name) (get_pypi name)
  | fetch_github owner repo :
      47 ∉ owner → 47 ∉ repo →
      target_fetch get_pypi get_github (github_target owner repo)
        (get_github owner repo).

(** What [if metadata: current_data.append(metadata)] keeps of an answer. *)
Definition kept (m : option (list (list N * pyval))) : list pydict :=
  if truthy_metadata m then option_list m else [].

(** ** [Get_Date.py] *)

Module Get_Date_py.
(** The record literals of the fetchers of [Get_Date.py]: no [checked_at]. *)
Definition pypi_record (name version author home_page : pyval) : pydict :=
  [ (k_source, VStr s_pypi); (k_name, name); (k_version, version);
    (k_author, author); (k_home_page, home_page) ].

Definition github_record (name stars forks last_updated license : pyval)
    : pydict :=
  [ (k_source, VStr s_github); (k_name, name); (k_stars, stars);
    (k_forks, forks); (k_last_updated, last_updated); (k_license, license) ].

Definition get_pypi_metadata
    (requests_pypi : list N → option (list (list N * pyval)))
    (package_name : pyval) : option (list (list N * pyval)) :=
  match requests_pypi (pypi_url package_name) with
  | None => None
  | Some data =>
      caught (name ← getitem data k_name;
              version ← getitem data k_version;
              mret (pypi_record name version (get data k_author)
                      (get data k_home_page)))
  end.

Definition get_github_metadata
    (requests_github : list N → list (list N * pyval) → option github_response)
    (owner repo : pystr) (token : pyval) : option (list (list N * pyval)) :=
  match requests_github (github_url owner repo) (auth_headers token) with
  | None => None
  | Some data =>
      caught (stars ← getitem (repo_fields data) k_stargazers_count;
              forks ← getitem (repo_fields data) k_forks_count;
              updated ← getitem (repo_fields data) k_updated_at;
              spdx ← license_spdx_id data;
              mret (github_record (VStr (owner ++ [47] ++ repo)) stars forks
                      updated spdx))
  end.

(** The collecting loop of [Get_Date.main]: nothing is caught. *)
Fixpoint collect
    (get_pypi : pyval → option (list (list N * pyval)))
    (get_github : list N → list N → option (list (list N * pyval)))
    (result_var : option (option (list (list N * pyval))))
    (metadata : list pydict) (ts : list pydict) : result (list pydict) :=
  match ts with
  | [] => Ok metadata
  | target :: rest =>
      r ← fetch_target get_pypi get_github result_var target;
      collect get_pypi get_github (Some r)
        (if truthy_metadata r then metadata ++ option_list r else metadata)
        rest
  end.

(** [main] of [Get_Date.py]: an exception of the loop ends it before any
    file is touched; otherwise both files are saved, whatever was
    collected. *)
Definition main (openable : list N → bool)
    (csv_text : list (list N) → list (list (list N * pyval)) → list N)
    (get_pypi : pyval → option (list (list N * pyval)))
    (get_github : list N → list N → option (list (list N * pyval)))
    (makedirs_ok : bool) (fs : filesystem) : filesystem * result unit :=
  match collect get_pypi get_github None [] targets with
  | Raise e => (fs, Raise e)
  | Ok metadata =>
      if negb makedirs_ok then (fs, Raise OSError)
      else
        (save_to_csv openable csv_text metadata metadata_csv
           (Get_Date.save_to_json openable metadata metadata_json fs),
         Ok tt)
  end.
End Get_Date_py.

(** A record one of the two fetchers of [test_data.py] can return. *)
Definition fetched (r : pydict) : Prop :=
  (∃ requests_pypi clock package_name,
     get_pypi_metadata requests_pypi clock package_name = Some r)
  ∨ (∃ requests_github clock owner repo token,
       get_github_metadata requests_github clock owner repo token = Some r).

(** A record one of the two fetchers of [Get_Date.py] can return. *)
Definition fetched_by_get_date (r : pydict) : Prop :=
  (∃ requests_pypi package_name,
     Get_Date_py.get_pypi_metadata requests_pypi package_name = Some r)
  ∨ (∃ requests_github owner repo token,
       Get_Date_py.get_github_metadata requests_github owner repo token
       = Some r).

(** An exception for a field [compare_metadata] failed to find. *)
Definition missing_field (e : exn) : Prop :=
  ∃ f, f ∈ read_fields ∧ e = KeyError f.

(** ** The shape of an event *)

(** An event as the docstring of [compare_metadata] describes it: the six
    fields in order, one of the four labels, no old value for an addition, no
    new value for a removal, two different values for an update. *)
Definition event_ok (e : pydict) : Prop :=
  ∃ s n ct o nv t,
    e = [ (k_source, s); (k_name, n);
          (k_change_type, VStr ct);
          (k_old_value, o); (k_new_value, nv);
          (k_check_time, t) ] ∧
    ((ct = ct_added ∧ o = VNone)
     ∨ (ct = ct_version_update ∧ s = VStr s_pypi ∧ o ≠ nv)
     ∨ (ct = ct_repo_update ∧ s = VStr s_github ∧ o ≠ nv)
     ∨ (ct = ct_removed ∧ nv = VNone)).

(** The events of one label. *)
Definition with_type (ct : pystr) (evs : list pydict) : list pydict :=
  filter (fun e => get e k_change_type = VStr ct) evs.

#[global] Instance source_kind_eq_dec : EqDecision source_kind.
Proof. solve_decision. Defined.

(** ** More sample data *)

Definition sample_previous : list pydict :=
  scenario_previous VNone VNone (VInt 100) (VInt 10) VNone t0 t0.
Definition sample_current : list pydict :=
  scenario_current VNone VNone VNone VNone t1 t1.


(** A PyPI service that knows numpy only, a GitHub service that is down. *)
Definition sample_get_pypi (name : pyval) : option (list (list N * pyval)) :=
  if decide (name = numpy) then Some numpy_1_0 else None.
Definition sample_get_github (owner repo : pystr)
    : option (list (list N * pyval)) := None.

(** Answers of the two services. *)
Definition sample_info : pydict :=
  [ (k_name, numpy); (k_version, VStr (lit "1.0"));
    (k_author, VStr (lit "NumPy Developers")) ].
Definition sample_repo : github_response :=
  {| repo_fields :=
       [ (k_stargazers_count, VInt 100); (k_forks_count, VInt 10);
         (k_updated_at, VStr (lit "2023-01-01")) ];
     repo_license := Some (JScalar VNone) |}.
Definition sample_clock (url : pystr) : pystr := lit "2024-05-02T10:00:00".

(** A record without its source. *)
Definition nameless : pydict := [(k_version, VStr (lit "1.0"))].

(** A target of a kind the loop does not know. *)
Definition npm_target : pydict :=
  [(k_source, VStr (lit "npm")); (k_name, VStr (lit "left-pad"))].

(** A machine on which every file can be opened; nothing is rendered for the
    CSV file; whatever is stored parses to numpy at 1.0. *)
Definition sample_openable (path : pystr) : bool := true.
Definition sample_csv_text (keys : list pystr) (data : list pydict) : pystr :=
  [].
Definition sample_json_load (content : pystr)
    : option (list (list (list N * pyval))) := Some [numpy_1_0].
Definition malformed_json_load (content : pystr)
    : option (list (list (list N * pyval))) := Some [nameless].
Definition sample_now (i : nat) : pystr := lit "2024-05-03T10:00:00".
Definition sample_stamp : pystr := Eval vm_compute in lit "202405031000".
Definition stored_fs : gmap (list N) (list N) :=
  {[ metadata_json := lit "[stored snapshot]" ]}.

(** ** Records whose comparison field may be missing *)



(** The fields the branch for a new identity subscripts: [source], [name]
    and [checked_at]. *)
Definition stampedb (r : pydict) : bool :=
  match dict_lookup r k_source, dict_lookup r k_name,
        dict_lookup r k_checked_at with
  | Some _, Some _, Some _ => true
  | _, _, _ => false
  end.

Definition stamped (r : pydict) : Prop := stampedb r = true.


(** * Proofs *)

(** ** The error monad *)

Lemma bind_Ok {A B} (f : A → result B) (a : A) : (Ok a ≫= f) = f a.
Proof. reflexivity. Qed.

Lemma bind_Raise {A B} (f : A → result B) (e : exn) :
  (Raise e ≫= f) = Raise e.
Proof. reflexivity. Qed.

(** ** Dictionaries *)

Section dict_facts.
Context {K V : Type} `{EqDecision K}.
Implicit Types (d : list (K * V)) (k : K) (v : V).

Lemma dict_lookup_set_eq d k v : dict_lookup (dict_set d k v) k = Some v.
Proof.
  induction d as [|[k' v'] d IH]; simpl.
  - by rewrite decide_True.
  - destruct (decide (k = k')) as [->|Hne]; simpl.
    + by rewrite decide_True.
    + by rewrite decide_False.
Qed.

Lemma dict_lookup_set_ne d k k' v :
  k ≠ k' → dict_lookup (dict_set d k v) k' = dict_lookup d k'.
Proof.
  intros Hne. induction d as [|[k0 v0] d IH]; simpl.
  - rewrite decide_False; [done|congruence].
  - destruct (decide (k = k0)) as [->|Hne0]; simpl.
    + rewrite !decide_False; [done|congruence..].
    + destruct (decide (k' = k0)); [done|apply IH].
Qed.

Lemma dict_lookup_None d k : dict_lookup d k = None ↔ k ∉ map fst d.
Proof.
  induction d as [|[k' v'] d IH]; simpl.
  - split; [intros _; apply not_elem_of_nil|done].
  - rewrite not_elem_of_cons. destruct (decide (k = k')) as [->|Hne].
    + split; [done|]. by intros [? _].
    + rewrite IH. tauto.
Qed.

Lemma dict_mem_true d k : dict_mem k d = true ↔ k ∈ map fst d.
Proof.
  unfold dict_mem. destruct (dict_lookup d k) eqn:E.
  - split; [intros _|done].
    destruct (decide (k ∈ map fst d)) as [|Hn]; [done|].
    apply dict_lookup_None in Hn. congruence.
  - split; [done|]. intros Hin. by apply dict_lookup_None in E.
Qed.

Lemma dict_mem_false d k : dict_mem k d = false ↔ k ∉ map fst d.
Proof.
  rewrite <- dict_mem_true. destruct (dict_mem k d); naive_solver.
Qed.

Lemma dict_lookup_Some_elem d k v : dict_lookup d k = Some v → (k, v) ∈ d.
Proof.
  induction d as [|[k' v'] d IH]; simpl; [done|].
  destruct (decide (k = k')) as [->|Hne].
  - intros [= ->]. apply elem_of_cons; auto.
  - intros Hl. apply elem_of_cons; auto.
Qed.

Lemma dict_lookup_elem d k v :
  NoDup (map fst d) → (k, v) ∈ d → dict_lookup d k = Some v.
Proof.
  induction d as [|[k' v'] d IH]; simpl.
  - intros _ Hin. by apply elem_of_nil in Hin.
  - intros Hnd Hin. apply NoDup_cons in Hnd as [Hnotin Hnd].
    apply elem_of_cons in Hin as [[= -> ->]|Hin].
    + by rewrite decide_True.
    + destruct (decide (k = k')) as [->|Hne]; [|by apply IH].
      exfalso. apply Hnotin. apply list_elem_of_fmap.
      by exists (k', v).
Qed.

(** Setting a key appends it unless it is there already. *)
Lemma dict_set_keys d k v :
  map fst (dict_set d k v)
  = if dict_mem k d then map fst d else map fst d ++ [k].
Proof.
  induction d as [|[k' v'] d IH]; simpl; [done|].
  unfold dict_mem in *. simpl.
  destruct (decide (k = k')) as [->|Hne]; simpl; [done|].
  rewrite IH. by destruct (dict_lookup d k).
Qed.

Lemma dict_set_NoDup d k v :
  NoDup (map fst d) → NoDup (map fst (dict_set d k v)).
Proof.
  intros Hnd. rewrite dict_set_keys.
  destruct (dict_mem k d) eqn:E; [done|].
  apply dict_mem_false in E.
  apply NoDup_app. split_and!; [done| |apply NoDup_singleton].
  intros x Hx Hx'. apply list_elem_of_singleton in Hx'. by subst.
Qed.

Lemma dict_set_elem d k v k' v' :
  (k', v') ∈ dict_set d k v → (k' = k ∧ v' = v) ∨ (k', v') ∈ d.
Proof.
  induction d as [|[k0 v0] d IH]; simpl.
  - intros Hin. apply list_elem_of_singleton in Hin as [= -> ->]. auto.
  - destruct (decide (k = k0)) as [->|Hne]; rewrite !elem_of_cons.
    + intros [[= -> ->]|Hin]; auto.
    + intros [[= -> ->]|Hin]; auto. destruct (IH Hin); auto.
Qed.

(** A fresh key goes to the end. *)
Lemma dict_set_fresh d k v : k ∉ map fst d → dict_set d k v = d ++ [(k, v)].
Proof.
  induction d as [|[k0 v0] d IH]; simpl; [done|].
  rewrite not_elem_of_cons. intros [Hne Hnotin].
  rewrite decide_False by done. by rewrite IH.
Qed.
End dict_facts.

(** ** Well-formed records *)

Lemma getitem_lookup (r : pydict) k v :
  dict_lookup r k = Some v → getitem r k = Ok v ∧ get r k = v.
Proof. intros E. unfold getitem, get. by rewrite E. Qed.

Lemma source_of_Some (r : pydict) sk :
  source_of r = Some sk → dict_lookup r k_source = Some (VStr (source_name sk)).
Proof.
  unfold source_of. destruct (dict_lookup r k_source) as [[|s|]|]; try done.
  destruct (decide (s = s_pypi)) as [->|]; [by intros [= <-]|].
  destruct (decide (s = s_github)) as [->|]; [by intros [= <-]|done].
Qed.

Lemma source_of_lookup (r : pydict) sk :
  dict_lookup r k_source = Some (VStr (source_name sk)) → source_of r = Some sk.
Proof. unfold source_of. intros ->. by destruct sk. Qed.

(** What a well-formed record holds, field by field. *)
Lemma wf_core_inv (r : pydict) :
  wf_core r →
  ∃ sk nm v,
    source_of r = Some sk ∧
    dict_lookup r k_source = Some (VStr (source_name sk)) ∧
    dict_lookup r k_name = Some (VStr nm) ∧
    dict_lookup r (cmp_key sk) = Some v ∧
    dict_lookup r (other_key sk) = None.
Proof.
  unfold wf_core, wf_coreb. intros Hwf.
  destruct (source_of r) as [sk|] eqn:Esk; [|done].
  destruct (dict_lookup r k_name) as [[|nm|]|] eqn:En; try done.
  destruct (dict_lookup r (cmp_key sk)) as [v|] eqn:Ec; [|done].
  destruct (dict_lookup r (other_key sk)) eqn:Eo; [done|].
  exists sk, nm, v. split_and!; try done. by apply source_of_Some.
Qed.

Lemma wf_record_core (r : pydict) : wf_record r → wf_core r.
Proof.
  unfold wf_record, wf_recordb, wf_core. intros H.
  by apply andb_prop in H as [? _].
Qed.

Lemma wf_record_checked_at (r : pydict) :
  wf_record r → ∃ t, dict_lookup r k_checked_at = Some (VStr t).
Proof.
  unfold wf_record, wf_recordb. intros H. apply andb_prop in H as [_ H].
  destruct (dict_lookup r k_checked_at) as [[|t|]|]; try done. by exists t.
Qed.

Lemma wf_core_item_key (r : pydict) : wf_core r → item_key r = Ok (dkey r).
Proof.
  intros (sk & nm & v & _ & Hs & Hn & _)%wf_core_inv.
  unfold item_key, dkey.
  destruct (getitem_lookup _ _ _ Hs) as [-> ->].
  by destruct (getitem_lookup _ _ _ Hn) as [-> ->].
Qed.

(** The identity of a well-formed record fixes its source kind. *)
Lemma dkey_source_of (o n : pydict) :
  wf_core o → wf_core n → dkey o = dkey n → source_of o = source_of n.
Proof.
  intros (sko & ? & ? & Eo & Hso & _)%wf_core_inv
         (skn & ? & ? & En & Hsn & _)%wf_core_inv.
  unfold dkey, get. rewrite Hso, Hsn, Eo, En. simpl.
  intros [= Hs _]. by destruct sko, skn.
Qed.

(** ** The lookup dictionary of a snapshot *)

Lemma build_dict_index (data : list pydict) (acc : keyed) :
  Forall wf_core data → build_dict data acc = Ok (index data acc).
Proof.
  intros Hwf. revert acc.
  induction Hwf as [|r data Hr _ IH]; intros acc; simpl; [done|].
  rewrite (wf_core_item_key r Hr). simpl. apply IH.
Qed.

Lemma index_NoDup (data : list pydict) (acc : keyed) :
  NoDup (map fst acc) → NoDup (map fst (index data acc)).
Proof.
  revert acc. induction data as [|r data IH]; intros acc Hnd; simpl; [done|].
  apply IH. by apply dict_set_NoDup.
Qed.

Lemma index_entries_ok P (data : list pydict) (acc : keyed) :
  Forall P data → entries_ok P acc → entries_ok P (index data acc).
Proof.
  intros HP. revert acc.
  induction HP as [|r data Hr _ IH]; intros acc Hacc; simpl; [done|].
  apply IH. intros k r' [[-> ->]|Hin]%dict_set_elem; [done|by apply Hacc].
Qed.

Lemma entries_ok_nil P : entries_ok P [].
Proof. intros k r Hin. by apply elem_of_nil in Hin. Qed.

(** The entries of the dictionary come from the snapshot. *)
Lemma index_elem (data : list pydict) (acc : keyed) k r :
  (k, r) ∈ index data acc → (k, r) ∈ acc ∨ (r ∈ data ∧ k = dkey r).
Proof.
  revert acc. induction data as [|r0 data IH]; intros acc; simpl; [auto|].
  intros [[[-> ->]|Hin]%dict_set_elem|[Hin ->]]%IH.
  - right. split; [apply elem_of_cons; auto|done].
  - by left.
  - right. split; [apply elem_of_cons; auto|done].
Qed.

(** With distinct identities the dictionary lists the records in order. *)
Lemma index_distinct (data : list pydict) (acc : keyed) :
  NoDup (map fst acc ++ map dkey data) →
  index data acc = acc ++ map (fun r => (dkey r, r)) data.
Proof.
  revert acc. induction data as [|r data IH]; intros acc Hnd; simpl.
  - by rewrite app_nil_r.
  - assert (dkey r ∉ map fst acc) as Hfresh.
    { apply NoDup_app in Hnd as (_ & Hdisj & _). intros Hin.
      apply (Hdisj _ Hin). apply elem_of_cons; auto. }
    rewrite (dict_set_fresh _ _ _ Hfresh).
    rewrite IH.
    + by rewrite <- app_assoc.
    + rewrite map_app. simpl. by rewrite <- app_assoc.
Qed.

Lemma index_snapshot (S : list pydict) :
  NoDup (map dkey S) → index S [] = map (fun r => (dkey r, r)) S.
Proof. intros Hnd. by rewrite index_distinct. Qed.

Lemma snapshot_keys (S : list pydict) :
  map fst (map (fun r => (dkey r, r)) S) = map dkey S.
Proof. induction S as [|r S IH]; simpl; by f_equal. Qed.

Lemma snapshot_values (S : list pydict) :
  map snd (map (fun r => (dkey r, r)) S) = S.
Proof. induction S as [|r S IH]; simpl; by f_equal. Qed.

(** The keys of the dictionary, in order, are picked from the identities of
    the snapshot, in order. *)
Lemma index_keys_sublist (data : list pydict) (acc : keyed) :
  ∃ ks, map fst (index data acc) = map fst acc ++ ks
        ∧ sublist ks (map dkey data).
Proof.
  revert acc. induction data as [|r data IH]; intros acc; simpl.
  - exists []. by rewrite app_nil_r.
  - destruct (IH (dict_set acc (dkey r) r)) as (ks & -> & Hsub).
    rewrite dict_set_keys. destruct (dict_mem (dkey r) acc).
    + exists ks. split; [done|by apply sublist_cons].
    + exists (dkey r :: ks). split; [by rewrite <- app_assoc|].
      by apply sublist_skip.
Qed.

(** ** The loops compute the specified diff *)

Lemma py_eq_true (a b : pyval) : py_eq a b = true ↔ a = b.
Proof. unfold py_eq. apply bool_decide_eq_true. Qed.

Lemma py_eq_refl (a : pyval) : py_eq a a = true.
Proof. by apply py_eq_true. Qed.

Lemma negb_py_eq (a b : pyval) :
  negb (py_eq a b) = if decide (a = b) then false else true.
Proof. unfold py_eq. by destruct (decide (a = b)); simplify_eq/=; case_bool_decide. Qed.

(** On a well-formed new record whose old counterparts are well-formed, the
    body of the first loop raises nothing and appends what [classify] says. *)
Lemma visit_new_classify (D : keyed) (n : pydict) :
  entries_ok wf_core D → wf_record n →
  visit_new D (dkey n) n = Ok (classify D n).
Proof.
  intros HD Hn.
  destruct (wf_record_checked_at n Hn) as [t Ht].
  pose proof (wf_record_core n Hn) as Hc.
  destruct (wf_core_inv n Hc) as (sk & nm & v & Esk & Hs & Hnm & Hv & Hov).
  unfold visit_new, classify, dict_mem.
  destruct (dict_lookup D (dkey n)) as [o|] eqn:E; cbn [negb].
  - unfold getitem_key. rewrite E, bind_Ok.
    destruct (HD _ _ (dict_lookup_Some_elem _ _ _ E)) as [Hk Ho].
    pose proof (dkey_source_of o n Ho Hc Hk) as Eso. rewrite Esk in Eso.
    destruct (wf_core_inv o Ho) as (sk' & nm' & vo & Esk' & _ & _ & Hvo & _).
    assert (sk' = sk) as -> by congruence.
    unfold updated_event, cmp_field, update_type. rewrite Esk, Eso.
    unfold getitem, get. rewrite Hs, Hnm, Ht.
    destruct sk; cbn [cmp_key source_name] in *; rewrite Hv, Hvo;
      rewrite !bind_Ok.
    + rewrite py_eq_refl, !bind_Ok, negb_py_eq.
      by destruct (decide (vo = v)).
    + replace (py_eq (VStr s_github) (VStr s_pypi)) with false by done.
      rewrite ?bind_Ok, py_eq_refl, ?bind_Ok, negb_py_eq.
      by destruct (decide (vo = v)).
  - unfold added_event, reported_value, getitem, get.
    by rewrite Hs, Hnm, Ht.
Qed.

Lemma update_loop_classify (D : keyed) (items : keyed) :
  entries_ok wf_core D → entries_ok wf_record items →
  update_loop D items = Ok (flat_map (classify D) (map snd items)).
Proof.
  intros HD. induction items as [|[k n] items IH]; intros Hit; simpl; [done|].
  destruct (Hit k n) as [<- Hn]; [apply elem_of_cons; auto|].
  rewrite (visit_new_classify D n HD Hn), bind_Ok, IH; [done|].
  intros k' r' Hin. apply Hit. apply elem_of_cons; auto.
Qed.

(** The second loop, over a run of entries of the old dictionary. *)
Lemma removed_loop_events now tick (D Dnew entries : keyed) :
  (∀ k o, (k, o) ∈ entries → dict_lookup D k = Some o ∧ wf_core o) →
  removed_loop now tick D Dnew (map fst entries)
  = Ok (removed_events now tick Dnew entries).
Proof.
  revert tick. induction entries as [|[k o] entries IH]; intros tick He;
    simpl; [done|].
  assert (∀ k o, (k, o) ∈ entries → dict_lookup D k = Some o ∧ wf_core o)
    as He' by (intros ???; apply He, elem_of_cons; auto).
  destruct (dict_mem k Dnew); cbn [negb]; [by apply IH|].
  destruct (He k o) as [Hl Ho]; [apply elem_of_cons; auto|].
  destruct (wf_core_inv o Ho) as (sk & nm & v & _ & Hs & Hnm & _).
  unfold getitem_key, getitem. rewrite Hl. cbn [mbind result_bind].
  rewrite Hs, Hnm. cbn [mbind result_bind].
  rewrite (IH (S tick) He'). cbn [mbind result_bind mret result_ret].
  unfold removed_event, reported_value, get. by rewrite Hs, Hnm.
Qed.

(** On well-formed input [compare_metadata] raises nothing and returns the
    specified diff. *)
Lemma compare_metadata_spec now (old_data new_data : list pydict) :
  Forall wf_core old_data → Forall wf_record new_data →
  compare_metadata now old_data new_data
  = Ok (diff_spec now old_data new_data).
Proof.
  intros Hold Hnew. unfold compare_metadata, diff_spec.
  rewrite (build_dict_index old_data [] Hold), bind_Ok.
  rewrite (build_dict_index new_data []), bind_Ok
    by (eapply Forall_impl; [exact Hnew|apply wf_record_core]).
  pose proof (index_entries_ok wf_core old_data [] Hold (entries_ok_nil _))
    as HD.
  pose proof (index_entries_ok wf_record new_data [] Hnew (entries_ok_nil _))
    as HN.
  rewrite (update_loop_classify _ _ HD HN), bind_Ok.
  rewrite (removed_loop_events now 0 (index old_data [])); [done|].
  intros k o Hin. split; [|by apply (HD k o)].
  apply dict_lookup_elem; [|done]. apply index_NoDup. simpl. apply NoDup_nil_2.
Qed.

(** ** Identities of events *)

Lemma dkey_mk_event s n ct o nv t : dkey (mk_event s n ct o nv t) = (s, n).
Proof. reflexivity. Qed.

Lemma dkey_added_event (n : pydict) : dkey (added_event n) = dkey n.
Proof. reflexivity. Qed.

Lemma dkey_updated_event (o n : pydict) : dkey (updated_event o n) = dkey n.
Proof. reflexivity. Qed.

Lemma dkey_removed_event t (o : pydict) : dkey (removed_event t o) = dkey o.
Proof. reflexivity. Qed.

Lemma classify_dkey (D : keyed) (n e : pydict) :
  e ∈ classify D n → dkey e = dkey n.
Proof.
  unfold classify. destruct (dict_lookup D (dkey n)) as [o|].
  - destruct (decide (cmp_field o = cmp_field n)).
    + intros Hin. by apply elem_of_nil in Hin.
    + intros Hin. by apply list_elem_of_singleton in Hin as ->.
  - intros Hin. by apply list_elem_of_singleton in Hin as ->.
Qed.

(** ** Facts about the two halves of the diff *)

Lemma flat_map_nil {A B} (f : A → list B) (l : list A) :
  (∀ x, x ∈ l → f x = []) → flat_map f l = [].
Proof.
  induction l as [|x l IH]; intros Hf; simpl; [done|].
  rewrite (Hf x), IH; [done| |apply elem_of_cons; auto].
  intros y Hy. apply Hf. apply elem_of_cons; auto.
Qed.

Lemma flat_map_singleton {A B} (f : A → list B) (g : A → B) (l : list A) :
  (∀ x, x ∈ l → f x = [g x]) → flat_map f l = map g l.
Proof.
  induction l as [|x l IH]; intros Hf; simpl; [done|].
  rewrite (Hf x), IH; [done| |apply elem_of_cons; auto].
  intros y Hy. apply Hf. apply elem_of_cons; auto.
Qed.

(** Nothing is removed when every old key is still there. *)
Lemma removed_events_all_kept now tick (Dnew entries : keyed) :
  (∀ k o, (k, o) ∈ entries → dict_mem k Dnew = true) →
  removed_events now tick Dnew entries = [].
Proof.
  induction entries as [|[k o] entries IH]; intros Hk; simpl; [done|].
  rewrite (Hk k o) by (apply elem_of_cons; auto).
  apply IH. intros k' o' Hin. apply (Hk k' o'). apply elem_of_cons; auto.
Qed.

(** Everything is removed when the new snapshot is empty; the i-th removal
    carries the i-th clock reading. *)
Lemma removed_events_all_gone now tick (S : list pydict) :
  removed_events now tick [] (map (fun r => (dkey r, r)) S)
  = imap (fun i r => removed_event (now (tick + i)%nat) r) S.
Proof.
  revert tick. induction S as [|r S IH]; intros tick; simpl; [done|].
  rewrite Nat.add_0_r. f_equal. rewrite IH. apply imap_ext.
  intros i x _. simpl. f_equal. f_equal. lia.
Qed.

(** A removal is only ever reported for a key that is not in the new
    snapshot. *)
Lemma removed_events_dkey now tick (Dnew entries : keyed) (e : pydict) :
  (∀ k o, (k, o) ∈ entries → dkey o = k) →
  e ∈ removed_events now tick Dnew entries →
  dkey e ∈ map fst entries ∧ (dkey e ∉ map fst Dnew)
  ∧ get e k_change_type = VStr ct_removed.
Proof.
  revert tick. induction entries as [|[k o] entries IH]; intros tick Hk; simpl.
  - intros Hin. by apply elem_of_nil in Hin.
  - assert (∀ k o, (k, o) ∈ entries → dkey o = k) as Hk'
      by (intros ???; apply Hk, elem_of_cons; auto).
    destruct (dict_mem k Dnew) eqn:Em.
    + intros Hin. destruct (IH _ Hk' Hin) as (? & ? & ?).
      split_and!; [apply elem_of_cons; auto|done..].
    + intros [->|Hin]%elem_of_cons.
      * rewrite dkey_removed_event, (Hk k o) by (apply elem_of_cons; auto).
        split_and!; [apply elem_of_cons; auto|by apply dict_mem_false|done].
      * destruct (IH _ Hk' Hin) as (? & ? & ?).
        split_and!; [apply elem_of_cons; auto|done..].
Qed.

Lemma filter_all {A} (P : A → Prop) `{∀ x, Decision (P x)} (l : list A) :
  Forall P l → filter P l = l.
Proof.
  induction 1 as [|x l Hx _ IH]; [done|].
  by rewrite filter_cons_True, IH.
Qed.

Lemma filter_none {A} (P : A → Prop) `{∀ x, Decision (P x)} (l : list A) :
  Forall (λ x, ¬ P x) l → filter P l = [].
Proof.
  induction 1 as [|x l Hx _ IH]; [done|].
  by rewrite filter_cons_False, IH.
Qed.

(** The events about one record of a duplicate-free list. *)
Lemma events_for_flat_map (f : list (list N * pyval) → list (list (list N * pyval)))
    (l : list pydict) (x : pydict) :
  NoDup (map dkey l) → x ∈ l →
  (∀ r e, e ∈ f r → dkey e = dkey r) →
  events_for (dkey x) (flat_map f l) = f x.
Proof.
  unfold events_for. intros Hnd Hx Hf.
  assert (∀ r, dkey r ≠ dkey x → filter (λ e, dkey e = dkey x) (f r) = [])
    as Hother.
  { intros r Hne. apply filter_none, Forall_forall.
    intros e He. by rewrite (Hf r e He). }
  assert (∀ r, filter (λ e, dkey e = dkey x) (f r)
               = if decide (dkey r = dkey x) then f r else []) as Hone.
  { intros r. destruct (decide (dkey r = dkey x)) as [Heq|Hne];
      [|by apply Hother].
    apply filter_all, Forall_forall.
    intros e He. by rewrite (Hf r e He). }
  induction l as [|r l IH]; simpl in *; [by apply elem_of_nil in Hx|].
  apply NoDup_cons in Hnd as [Hr Hnd].
  rewrite filter_app, Hone.
  apply elem_of_cons in Hx as [->|Hx].
  - rewrite decide_True by done.
    rewrite filter_none; [by rewrite app_nil_r|].
    apply Forall_forall. intros e (r' & Hr' & He)%list_elem_of_In%in_flat_map.
    rewrite (Hf r' e) by by apply list_elem_of_In.
    intros Heq. apply Hr. rewrite <- Heq. apply list_elem_of_fmap.
    exists r'. split; [done|by apply list_elem_of_In].
  - rewrite decide_False; [by apply IH|].
    intros Heq. apply Hr. rewrite Heq. apply list_elem_of_fmap. by exists x.
Qed.

(** The new value reported for an added record, and the old value reported
    for a removed one, is the comparison field, except for a PyPI record whose
    version is the empty string. *)
Lemma reported_value_cmp_field (r : pydict) :
  wf_core r →
  source_of r = Some GitHub ∨ cmp_field r ≠ VStr [] →
  reported_value r = cmp_field r.
Proof.
  intros Hwf Hcase. pose proof Hwf as Hb.
  destruct (wf_core_inv r Hwf) as (sk & nm & v & Esk & _ & _ & Hv & Hov).
  unfold wf_core, wf_coreb in Hb. rewrite Esk in Hb.
  destruct (dict_lookup r k_name) as [[| |]|]; try done.
  rewrite Hv, Hov in Hb.
  unfold reported_value, cmp_field, get. rewrite Esk in *.
  destruct sk; cbn [cmp_key other_key] in *; rewrite Hv, Hov.
  - destruct Hcase as [?|Hne]; [done|].
    unfold cmp_field, get in Hne. rewrite Esk in Hne.
    cbn [cmp_key] in Hne. rewrite Hv in Hne.
    destruct v as [|s'|]; try done.
    unfold py_or, truthy. rewrite bool_decide_eq_false_2; [done|congruence].
  - done.
Qed.

Lemma reported_value_empty_version (r : pydict) :
  wf_core r → source_of r = Some PyPI → cmp_field r = VStr [] →
  reported_value r = VNone.
Proof.
  intros Hwf Esk.
  destruct (wf_core_inv r Hwf) as (sk & nm & v & Esk' & _ & _ & Hv & Hov).
  assert (sk = PyPI) as -> by congruence.
  unfold reported_value, cmp_field, get. rewrite Esk.
  cbn [cmp_key other_key] in *. rewrite Hv, Hov. by intros ->.
Qed.

(** The events about a key of the current snapshot. *)
Lemma events_for_new now (old_data new_data : list pydict) (n : pydict) :
  NoDup (map dkey new_data) → n ∈ new_data →
  events_for (dkey n) (diff_spec now old_data new_data)
  = classify (index old_data []) n.
Proof.
  intros Hndn Hn. unfold diff_spec.
  rewrite (index_snapshot new_data Hndn).
  unfold events_for. rewrite filter_app, snapshot_values.
  fold (events_for (dkey n) (flat_map (classify (index old_data [])) new_data)).
  rewrite (events_for_flat_map _ new_data n Hndn Hn)
    by (intros r e; apply classify_dkey).
  rewrite filter_none; [by rewrite app_nil_r|].
  apply Forall_forall. intros e He Hke.
  apply removed_events_dkey in He as (_ & Hnotin & _).
  - apply Hnotin. rewrite Hke, snapshot_keys.
    apply list_elem_of_fmap. by exists n.
  - intros k r [Hin|[_ ->]]%index_elem; [by apply elem_of_nil in Hin|done].
Qed.

(** The events about a key that both snapshots hold. *)
Lemma events_for_common now (old_data new_data : list pydict) (o n : pydict) :
  NoDup (map dkey old_data) → NoDup (map dkey new_data) →
  o ∈ old_data → n ∈ new_data → dkey o = dkey n →
  events_for (dkey n) (diff_spec now old_data new_data)
  = if decide (cmp_field o = cmp_field n) then [] else [updated_event o n].
Proof.
  intros Hndo Hndn Ho Hn Hk.
  rewrite (events_for_new now old_data new_data n Hndn Hn).
  unfold classify. rewrite (index_snapshot old_data Hndo).
  rewrite (dict_lookup_elem _ (dkey n) o); [done| |].
  - by rewrite snapshot_keys.
  - rewrite <- Hk. apply list_elem_of_fmap. by exists o.
Qed.

(** The events about a key that only the current snapshot holds. *)
Lemma events_for_added now (old_data new_data : list pydict) (n : pydict) :
  NoDup (map dkey new_data) → n ∈ new_data → dkey n ∉ map dkey old_data →
  events_for (dkey n) (diff_spec now old_data new_data) = [added_event n].
Proof.
  intros Hndn Hn Hfresh.
  rewrite (events_for_new now old_data new_data n Hndn Hn).
  unfold classify.
  rewrite (proj2 (dict_lookup_None (index old_data []) (dkey n))); [done|].
  intros ([k r] & Hk & Hin)%list_elem_of_fmap. simpl in Hk. subst k.
  apply index_elem in Hin as [Hin|[Hr Hk]]; [by apply elem_of_nil in Hin|].
  apply Hfresh. rewrite Hk. apply list_elem_of_fmap. by exists r.
Qed.

(** ** A missing comparison field *)

(** A PyPI record stored without any [version] key makes the subscript
    [old_item["version"]] raise, whatever the clock. *)
Example compare_metadata_missing_version_key now :
  compare_metadata now
    [[(k_source, VStr s_pypi); (k_name, numpy); (k_checked_at, t0)]]
    [numpy_1_0]
  = Raise (KeyError k_version).
Proof. reflexivity. Qed.

(** ** Diffing a snapshot against itself *)

(** C3. A snapshot of well-formed records diffed against itself yields no
    event. *)
Theorem compare_metadata_self now (S : list pydict) :
  Forall wf_record S → compare_metadata now S S = Ok [].
Proof.
  intros HS.
  rewrite compare_metadata_spec;
    [|by eapply Forall_impl; [exact HS|apply wf_record_core]|done].
  f_equal. unfold diff_spec.
  pose proof (index_NoDup S [] (NoDup_nil_2 : NoDup (map fst []))) as Hnd.
  pose proof (index_entries_ok wf_record S [] HS (entries_ok_nil _)) as Hok.
  rewrite flat_map_nil, removed_events_all_kept; [done| |].
  - intros k o Hin. apply dict_mem_true, list_elem_of_fmap. by exists (k, o).
  - intros r ([k r'] & -> & Hin)%list_elem_of_fmap. simpl.
    destruct (Hok k r' Hin) as [Hk _]. unfold classify.
    rewrite Hk, (dict_lookup_elem _ k r' Hnd Hin).
    by rewrite decide_True.
Qed.

Lemma compare_metadata_self_witness :
  compare_metadata (fun _ => []) [numpy_1_0; linux_now] [numpy_1_0; linux_now]
  = Ok [].
Proof.
  apply (compare_metadata_self (fun _ => []) [numpy_1_0; linux_now]).
  by repeat constructor.
Defined.

(** ** Everything removed *)

(** Against an empty current snapshot every record is reported as removed,
    once, in order; the i-th removal is stamped with the i-th clock reading and
    carries [reported_value]. *)
Lemma compare_metadata_all_removed now (S : list pydict) :
  Forall wf_core S → NoDup (map dkey S) →
  compare_metadata now S [] = Ok (imap (fun i r => removed_event (now i) r) S).
Proof.
  intros HS Hnd.
  rewrite compare_metadata_spec; [|done..].
  f_equal. unfold diff_spec. simpl.
  by rewrite (index_snapshot S Hnd), removed_events_all_gone.
Qed.

(** ** Independence from the descriptive fields *)

Lemma same_cmp_read (r r' : pydict) k :
  same_cmp r r' →
  k ∈ [k_source; k_name; k_version; k_last_updated; k_checked_at] →
  dict_lookup r k = dict_lookup r' k.
Proof.
  intros Hs Hk. apply Hs. intros Hin.
  repeat (apply elem_of_cons in Hk as [->|Hk];
          [by repeat (apply elem_of_cons in Hin as [Hin|Hin]; [done|]);
              apply elem_of_nil in Hin|]).
  by apply elem_of_nil in Hk.
Qed.

Lemma same_cmp_getitem (r r' : pydict) k :
  same_cmp r r' →
  k ∈ [k_source; k_name; k_version; k_last_updated; k_checked_at] →
  getitem r k = getitem r' k ∧ get r k = get r' k.
Proof.
  intros Hs Hk. unfold getitem, get. by rewrite (same_cmp_read r r' k Hs Hk).
Qed.

Lemma keyed_rel_lookup (D D' : keyed) k :
  keyed_rel D D' →
  match dict_lookup D k, dict_lookup D' k with
  | Some r, Some r' => same_cmp r r'
  | None, None => True
  | _, _ => False
  end.
Proof.
  induction 1 as [|[k1 r1] [k2 r2] D D' [Hk Hr] _ IH]; simpl in *; [done|].
  subst k2. by destruct (decide (k = k1)).
Qed.

Lemma keyed_rel_mem (D D' : keyed) k :
  keyed_rel D D' → dict_mem k D = dict_mem k D'.
Proof.
  intros H. pose proof (keyed_rel_lookup D D' k H) as Hl. unfold dict_mem.
  by destruct (dict_lookup D k), (dict_lookup D' k).
Qed.

Lemma keyed_rel_nil : keyed_rel [] [].
Proof. constructor. Qed.

Lemma keyed_rel_set (D D' : keyed) k (r r' : pydict) :
  keyed_rel D D' → same_cmp r r' →
  keyed_rel (dict_set D k r) (dict_set D' k r').
Proof.
  intros HD Hr.
  induction HD as [|[k1 r1] [k2 r2] D D' [Hk Hr12] HD IH]; simpl in *.
  - by repeat constructor.
  - subst k2. destruct (decide (k = k1)); by constructor.
Qed.

Lemma keyed_rel_keys (D D' : keyed) : keyed_rel D D' → map fst D = map fst D'.
Proof.
  induction 1 as [|[k1 r1] [k2 r2] D D' [Hk _] _ IH]; simpl in *; by f_equal.
Qed.

Lemma item_key_rel (r r' : pydict) : same_cmp r r' → item_key r = item_key r'.
Proof.
  intros Hs. unfold item_key.
  destruct (same_cmp_getitem r r' k_source Hs) as [-> _];
    [repeat constructor|].
  by destruct (same_cmp_getitem r r' k_name Hs) as [-> _];
    [repeat constructor|].
Qed.

Lemma build_dict_rel (data data' : list pydict) (acc acc' : keyed) :
  Forall2 same_cmp data data' → keyed_rel acc acc' →
  match build_dict data acc, build_dict data' acc' with
  | Ok D, Ok D' => keyed_rel D D'
  | Raise e, Raise e' => e = e'
  | _, _ => False
  end.
Proof.
  intros Hd. revert acc acc'.
  induction Hd as [|r r' data data' Hr _ IH]; intros acc acc' Hacc; simpl;
    [done|].
  rewrite <- (item_key_rel r r' Hr).
  destruct (item_key r) as [k|e]; simpl; [|done].
  apply IH. by apply keyed_rel_set.
Qed.

Lemma visit_new_rel (D D' : keyed) k (n n' : pydict) :
  keyed_rel D D' → same_cmp n n' → visit_new D k n = visit_new D' k n'.
Proof.
  intros HD Hn. unfold visit_new, getitem_key.
  rewrite <- (keyed_rel_mem D D' k HD).
  pose proof (keyed_rel_lookup D D' k HD) as Hl.
  assert (∀ f, f ∈ [k_source; k_name; k_version; k_last_updated; k_checked_at]
               → getitem n' f = getitem n f ∧ get n' f = get n f) as Hrd.
  { intros f Hf. by destruct (same_cmp_getitem n n' f Hn Hf) as [-> ->]. }
  destruct (Hrd k_source) as [-> _]; [repeat constructor|].
  destruct (Hrd k_name) as [-> _]; [repeat constructor|].
  destruct (Hrd k_version) as [-> ->]; [repeat constructor|].
  destruct (Hrd k_last_updated) as [-> ->]; [repeat constructor|].
  destruct (Hrd k_checked_at) as [-> _]; [repeat constructor|].
  unfold dict_mem.
  destruct (dict_lookup D k) as [o|], (dict_lookup D' k) as [o'|];
    try done.
  cbn [negb mbind result_bind].
  destruct (same_cmp_getitem o o' k_version Hl) as [-> _];
    [repeat constructor|].
  by destruct (same_cmp_getitem o o' k_last_updated Hl) as [-> _];
    [repeat constructor|].
Qed.

Lemma update_loop_rel (D D' items items' : keyed) :
  keyed_rel D D' → keyed_rel items items' →
  update_loop D items = update_loop D' items'.
Proof.
  intros HD.
  induction 1 as [|[k1 r1] [k2 r2] items items' [Hk Hr] _ IH]; simpl in *;
    [done|].
  subst k2. by rewrite (visit_new_rel D D' k1 r1 r2 HD Hr), IH.
Qed.

Lemma removed_loop_rel now tick (D D' Dn Dn' : keyed) (keys : list key) :
  keyed_rel D D' → keyed_rel Dn Dn' →
  removed_loop now tick D Dn keys = removed_loop now tick D' Dn' keys.
Proof.
  intros HD HN. revert tick.
  induction keys as [|k keys IH]; intros tick; simpl; [done|].
  rewrite <- (keyed_rel_mem Dn Dn' k HN).
  destruct (dict_mem k Dn); cbn [negb]; [done|].
  pose proof (keyed_rel_lookup D D' k HD) as Hl. unfold getitem_key.
  destruct (dict_lookup D k) as [o|], (dict_lookup D' k) as [o'|];
    try done.
  cbn [mbind result_bind].
  destruct (same_cmp_getitem o o' k_source Hl) as [-> _];
    [repeat constructor|].
  destruct (same_cmp_getitem o o' k_name Hl) as [-> _];
    [repeat constructor|].
  destruct (same_cmp_getitem o o' k_version Hl) as [_ ->];
    [repeat constructor|].
  destruct (same_cmp_getitem o o' k_last_updated Hl) as [_ ->];
    [repeat constructor|].
  by rewrite IH.
Qed.

(** Two runs whose inputs agree up to descriptive fields behave alike. *)
Lemma compare_metadata_rel now (old_data old_data' new_data new_data'
    : list pydict) :
  Forall2 same_cmp old_data old_data' → Forall2 same_cmp new_data new_data' →
  compare_metadata now old_data new_data
  = compare_metadata now old_data' new_data'.
Proof.
  intros Ho Hn. unfold compare_metadata.
  pose proof (build_dict_rel old_data old_data' [] [] Ho keyed_rel_nil) as HD.
  pose proof (build_dict_rel new_data new_data' [] [] Hn keyed_rel_nil) as HN.
  destruct (build_dict old_data []) as [D|e],
           (build_dict old_data' []) as [D'|e']; try done; [|by subst].
  cbn [mbind result_bind].
  destruct (build_dict new_data []) as [Dn|e],
           (build_dict new_data' []) as [Dn'|e']; try done; [|by subst].
  cbn [mbind result_bind].
  rewrite (update_loop_rel D D' Dn Dn' HD HN).
  rewrite (removed_loop_rel now 0 D D' Dn Dn' _ HD HN).
  by rewrite (keyed_rel_keys D D' HD).
Qed.

(** ** Descriptive fields *)

Lemma same_cmp_github_record name stars forks last_updated license checked_at
    stars' forks' license' :
  same_cmp (github_record name stars forks last_updated license checked_at)
    (github_record name stars' forks' last_updated license' checked_at).
Proof.
  intros k Hk. unfold github_record. simpl.
  repeat match goal with
         | |- context [decide (k = ?x)] => destruct (decide (k = x)) as [->|?]
         end;
    try reflexivity; exfalso; apply Hk; unfold noncmp_fields;
    repeat first [apply list_elem_of_here|apply list_elem_of_further].
Qed.

(** C8. A GitHub record present in both snapshots with the same [last_updated]
    gives rise to no event, whatever its other fields hold; and two runs whose
    inputs differ only in the descriptive fields (stars, forks, license,
    author, home_page) return the same result, hence events for the same
    keys. *)
Theorem compare_metadata_ignores_descriptive_fields :
  (∀ now (old_data new_data : list pydict) (o n : pydict),
     wf_snapshot old_data → wf_snapshot new_data →
     o ∈ old_data → n ∈ new_data → dkey o = dkey n →
     source_of n = Some GitHub →
     get o k_last_updated = get n k_last_updated →
     ∃ evs, compare_metadata now old_data new_data = Ok evs
            ∧ events_for (dkey n) evs = []) ∧
  (∀ now (old_data old_data' new_data new_data' : list pydict),
     Forall2 same_cmp old_data old_data' →
     Forall2 same_cmp new_data new_data' →
     compare_metadata now old_data new_data
     = compare_metadata now old_data' new_data').
Proof.
  split; [|apply compare_metadata_rel].
  intros now old_data new_data o n [Hold Hndo] [Hnew Hndn] Ho Hn Hk Hsk Hlu.
  exists (diff_spec now old_data new_data).
  assert (Forall wf_core old_data) as Hold'
    by (eapply Forall_impl; [exact Hold|apply wf_record_core]).
  split; [by apply compare_metadata_spec|].
  rewrite (events_for_common now old_data new_data o n) by done.
  rewrite decide_True; [done|].
  assert (source_of o = Some GitHub) as Hsko.
  { rewrite <- Hsk. apply dkey_source_of; [| |done].
    - by apply (proj1 (Forall_forall _ _) Hold').
    - apply wf_record_core. by apply (proj1 (Forall_forall _ _) Hnew). }
  unfold cmp_field. by rewrite Hsk, Hsko.
Qed.

Lemma compare_metadata_ignores_descriptive_fields_witness :
  (∃ evs, compare_metadata (fun _ => []) [linux_then] [linux_now] = Ok evs
          ∧ events_for (dkey linux_now) evs = []) ∧
  compare_metadata (fun _ => []) [linux_then] [linux_now]
  = compare_metadata (fun _ => []) [linux_then] [linux_now'].
Proof.
  destruct compare_metadata_ignores_descriptive_fields as [Hsame Hrel].
  split.
  - apply (Hsame (fun _ => []) [linux_then] [linux_now] linux_then linux_now).
    + split; [by repeat constructor|apply NoDup_singleton].
    + split; [by repeat constructor|apply NoDup_singleton].
    + apply list_elem_of_singleton. reflexivity.
    + apply list_elem_of_singleton. reflexivity.
    + reflexivity.
    + reflexivity.
    + reflexivity.
  - apply (Hrel (fun _ => [])).
    + constructor; [apply same_cmp_github_record|constructor].
    + constructor; [apply same_cmp_github_record|constructor].
Defined.

(** ** The value reported for added and removed records *)

(** A record that only the current snapshot holds is reported as added, with
    its comparison field as new value, unless it is a PyPI record whose version
    is the empty string. *)
Lemma added_reports_cmp_field now (old_data new_data : list pydict)
    (n : pydict) :
  Forall wf_core old_data → wf_snapshot new_data →
  n ∈ new_data → dkey n ∉ map dkey old_data →
  source_of n = Some GitHub ∨ cmp_field n ≠ VStr [] →
  ∃ evs, compare_metadata now old_data new_data = Ok evs ∧
    events_for (dkey n) evs
    = [[ (k_source, (get n k_source)); (k_name, (get n k_name));
         (k_change_type, VStr ct_added);
         (k_old_value, VNone); (k_new_value, (cmp_field n));
         (k_check_time, (get n k_checked_at)) ]].
Proof.
  intros Hold [Hnew Hnd] Hn Hfresh Hcase.
  exists (diff_spec now old_data new_data).
  split; [by apply compare_metadata_spec|].
  rewrite (events_for_added now old_data new_data n Hnd Hn Hfresh).
  unfold added_event. rewrite reported_value_cmp_field; [done| |done].
  apply wf_record_core. by apply (proj1 (Forall_forall _ _) Hnew).
Qed.

(** C4. The new value of an added record is chosen by truthiness, not by
    source kind: a PyPI record absent from the previous snapshot whose version
    is the empty string is reported as added with new value [None], not with
    its version. *)
Theorem added_empty_version_reported_as_none now :
  wf_snapshot [numpy_empty_version] ∧
  source_of numpy_empty_version = Some PyPI ∧
  get numpy_empty_version k_version = VStr [] ∧
  compare_metadata now [] [numpy_empty_version]
  = Ok [[ (k_source, (VStr s_pypi)); (k_name, numpy);
          (k_change_type, VStr ct_added);
          (k_old_value, VNone); (k_new_value, VNone);
          (k_check_time, t1) ]].
Proof.
  split_and!; try reflexivity.
  split; [by repeat constructor|apply NoDup_singleton].
Qed.

(** The update path, for comparison, selects by source kind and reports an
    empty version as it is. *)
Example updated_to_empty_version now :
  compare_metadata now [numpy_1_0] [numpy_empty_version]
  = Ok [[ (k_source, (VStr s_pypi)); (k_name, numpy);
          (k_change_type, VStr ct_version_update);
          (k_old_value, (VStr (lit "1.0"))); (k_new_value, (VStr []));
          (k_check_time, t1) ]].
Proof. reflexivity. Qed.

(** Removed records carry their comparison field as old value, under the same
    proviso. *)
Lemma removed_reports_cmp_field now (S : list pydict) :
  Forall wf_core S → NoDup (map dkey S) →
  Forall (fun r => source_of r = Some GitHub ∨ cmp_field r ≠ VStr []) S →
  compare_metadata now S []
  = Ok (imap (fun i r => [ (k_source, (get r k_source)); (k_name, (get r k_name));
                           (k_change_type, VStr ct_removed);
                           (k_old_value, (cmp_field r)); (k_new_value, VNone);
                           (k_check_time, (VStr (now i))) ]) S).
Proof.
  intros HS Hnd Hcase.
  rewrite (compare_metadata_all_removed now S HS Hnd). f_equal.
  apply imap_ext. intros i r Hr. unfold removed_event.
  apply list_elem_of_lookup_2 in Hr.
  rewrite reported_value_cmp_field; [done|..].
  - by apply (proj1 (Forall_forall _ _) HS).
  - by apply (proj1 (Forall_forall _ _) Hcase).
Qed.

(** C6. Against an empty current snapshot, a PyPI record whose version is the
    empty string is reported as removed with old value [None], not with its
    version. *)
Theorem removed_empty_version_reported_as_none now :
  wf_snapshot [numpy_empty_version] ∧
  source_of numpy_empty_version = Some PyPI ∧
  get numpy_empty_version k_version = VStr [] ∧
  compare_metadata now [numpy_empty_version] []
  = Ok [[ (k_source, (VStr s_pypi)); (k_name, numpy);
          (k_change_type, VStr ct_removed);
          (k_old_value, VNone); (k_new_value, VNone);
          (k_check_time, (VStr (now 0%nat))) ]].
Proof.
  split_and!; try reflexivity.
  split; [by repeat constructor|apply NoDup_singleton].
Qed.

(** ** Order of the events *)

Lemma classify_cases (D : keyed) (n : pydict) :
  classify D n = []
  ∨ ∃ e, classify D n = [e] ∧ dkey e = dkey n
         ∧ get e k_change_type ≠ VStr ct_removed.
Proof.
  unfold classify. destruct (dict_lookup D (dkey n)) as [o|].
  - destruct (decide (cmp_field o = cmp_field n)); [by left|right].
    exists (updated_event o n). split_and!; [done..|].
    unfold updated_event, update_type.
    by destruct (source_of n) as [[|]|].
  - right. by exists (added_event n).
Qed.

Lemma flat_map_classify_order (D : keyed) (l : list pydict) :
  sublist (map dkey (flat_map (classify D) l)) (map dkey l)
  ∧ Forall (fun e => get e k_change_type ≠ VStr ct_removed)
      (flat_map (classify D) l).
Proof.
  induction l as [|r l [IH1 IH2]]; simpl; [by split; constructor|].
  destruct (classify_cases D r) as [->|(e & -> & He & Hct)]; simpl.
  - split; [by apply sublist_cons|done].
  - rewrite He. split; [by apply sublist_skip|by constructor].
Qed.

Lemma removed_events_order now tick (Dnew entries : keyed) :
  (∀ k o, (k, o) ∈ entries → dkey o = k) →
  sublist (map dkey (removed_events now tick Dnew entries)) (map fst entries)
  ∧ Forall (fun e => get e k_change_type = VStr ct_removed)
      (removed_events now tick Dnew entries).
Proof.
  revert tick. induction entries as [|[k o] entries IH]; intros tick Hk; simpl;
    [by split; constructor|].
  assert (∀ k o, (k, o) ∈ entries → dkey o = k) as Hk'
    by (intros ???; apply Hk, elem_of_cons; auto).
  destruct (dict_mem k Dnew).
  - destruct (IH tick Hk') as [IH1 IH2]. split; [by apply sublist_cons|done].
  - destruct (IH (S tick) Hk') as [IH1 IH2]. simpl.
    rewrite dkey_removed_event, (Hk k o) by (apply elem_of_cons; auto).
    split; [by apply sublist_skip|by constructor].
Qed.

Lemma entries_values_keys P (D : keyed) :
  entries_ok P D → map dkey (map snd D) = map fst D.
Proof.
  induction D as [|[k r] D IH]; intros Hok; simpl; [done|].
  destruct (Hok k r) as [-> _]; [apply elem_of_cons; auto|].
  f_equal. apply IH. intros k' r' Hin. apply Hok. apply elem_of_cons; auto.
Qed.

Lemma index_keys_order (data : list pydict) :
  sublist (map fst (index data [])) (map dkey data).
Proof. by destruct (index_keys_sublist data []) as (ks & -> & Hsub). Qed.

(** On well-formed input the events are the additions and updates, in the
    order of the current records, followed by the removals, in the order of
    the previous records. *)
Lemma diff_spec_order now (old_data new_data : list pydict) :
  Forall wf_core old_data → Forall wf_record new_data →
  ∃ ups rems,
    diff_spec now old_data new_data = ups ++ rems ∧
    sublist (map dkey ups) (map dkey new_data) ∧
    sublist (map dkey rems) (map dkey old_data) ∧
    Forall (fun e => get e k_change_type ≠ VStr ct_removed) ups ∧
    Forall (fun e => get e k_change_type = VStr ct_removed) rems.
Proof.
  intros Hold Hnew. eexists _, _. split; [reflexivity|].
  pose proof (index_entries_ok wf_core old_data [] Hold (entries_ok_nil _))
    as HD.
  pose proof (index_entries_ok wf_record new_data [] Hnew (entries_ok_nil _))
    as HN.
  destruct (flat_map_classify_order (index old_data [])
              (map snd (index new_data []))) as [Hu1 Hu2].
  destruct (removed_events_order now 0 (index new_data []) (index old_data []))
    as [Hr1 Hr2]; [by intros k o [? _]%HD|].
  split_and!; [| |done..].
  - etransitivity; [exact Hu1|].
    rewrite (entries_values_keys _ _ HN). apply index_keys_order.
  - etransitivity; [exact Hr1|]. apply index_keys_order.
Qed.

(** The clock only shows in the [check_time] of removals. *)
Lemma removed_loop_clock now now' tick tick' (D Dn : keyed) (keys : list key) :
  result_map (map without_check_time) (removed_loop now tick D Dn keys)
  = result_map (map without_check_time) (removed_loop now' tick' D Dn keys).
Proof.
  revert tick tick'. induction keys as [|k keys IH]; intros tick tick'; simpl;
    [done|].
  destruct (dict_mem k Dn); cbn [negb]; [by apply IH|].
  destruct (getitem_key D k) as [o|e]; cbn [mbind result_bind]; [|done].
  destruct (getitem o k_source) as [s|e]; cbn [mbind result_bind]; [|done].
  destruct (getitem o k_name) as [n|e]; cbn [mbind result_bind]; [|done].
  specialize (IH (S tick) (S tick')).
  destruct (removed_loop now (S tick) D Dn keys),
           (removed_loop now' (S tick') D Dn keys); simpl in *; try done.
  injection IH as IH. f_equal. simpl. by f_equal.
Qed.

Lemma compare_metadata_clock now now' (old_data new_data : list pydict) :
  result_map (map without_check_time) (compare_metadata now old_data new_data)
  = result_map (map without_check_time)
      (compare_metadata now' old_data new_data).
Proof.
  unfold compare_metadata.
  destruct (build_dict old_data []) as [D|e]; cbn [mbind result_bind]; [|done].
  destruct (build_dict new_data []) as [Dn|e]; cbn [mbind result_bind];
    [|done].
  destruct (update_loop D Dn) as [ups|e]; cbn [mbind result_bind]; [|done].
  pose proof (removed_loop_clock now now' 0 0 D Dn (map fst D)) as Hc.
  destruct (removed_loop now 0 D Dn (map fst D)),
           (removed_loop now' 0 D Dn (map fst D)); simpl in *; try done.
  injection Hc as Hc. f_equal. by rewrite !map_app, Hc.
Qed.

(** ** What [json.dump] does to non-ASCII characters *)

Lemma filter_non_ascii_ascii (s : pystr) :
  Forall (fun c => c < 128) s → filter non_ascii s = [].
Proof.
  intros Hs. apply filter_none. eapply Forall_impl; [exact Hs|].
  unfold non_ascii. intros c Hc. simpl in *. lia.
Qed.

Lemma hex_digit_ascii (n : N) : n < 16 → hex_digit n < 128.
Proof. unfold hex_digit. intros Hn. destruct (n <? 10); lia. Qed.

Lemma u_escape_ascii (n : N) : Forall (fun c => c < 128) (u_escape n).
Proof.
  unfold u_escape, hex4. simpl.
  repeat constructor; apply hex_digit_ascii; by apply N.mod_lt.
Qed.

Lemma short_escape_ascii (c : N) (e : pystr) :
  short_escape c = Some e → Forall (fun c => c < 128) e ∧ c < 128.
Proof.
  unfold short_escape.
  repeat (destruct (_ =? _) eqn:E;
          [apply N.eqb_eq in E as ->; intros [= <-];
           split; [by repeat constructor|done]|clear E]).
  done.
Qed.

Lemma encode_char_escaped (c : N) :
  Forall (fun c => c < 128) (encode_char true c).
Proof.
  unfold encode_char. destruct (short_escape c) as [e|] eqn:E.
  - by apply short_escape_ascii in E as [? _].
  - destruct ((32 <=? c) && (c <=? 126)) eqn:Er.
    + apply andb_prop in Er as [_ Hle%N.leb_le]. repeat constructor. lia.
    + destruct (c <? 0x10000); [apply u_escape_ascii|].
      apply Forall_app. split; apply u_escape_ascii.
Qed.

Lemma encode_char_literal (c : N) :
  filter non_ascii (encode_char false c) = filter non_ascii [c].
Proof.
  unfold encode_char. destruct (short_escape c) as [e|] eqn:E.
  - apply short_escape_ascii in E as [He Hc].
    rewrite (filter_non_ascii_ascii e He).
    symmetry. apply filter_non_ascii_ascii. by repeat constructor.
  - destruct (c <? 32) eqn:Ec; [|done].
    apply N.ltb_lt in Ec.
    rewrite (filter_non_ascii_ascii _ (u_escape_ascii c)).
    symmetry. apply filter_non_ascii_ascii. repeat constructor. lia.
Qed.

Lemma filter_flat_map {A B} (P : B → Prop) `{∀ x, Decision (P x)}
    (f : A → list B) (l : list A) :
  filter P (flat_map f l) = flat_map (fun x => filter P (f x)) l.
Proof.
  induction l as [|x l IH]; simpl; [done|]. by rewrite filter_app, IH.
Qed.

Lemma flat_map_ext_eq {A B} (f g : A → list B) (l : list A) :
  (∀ x, f x = g x) → flat_map f l = flat_map g l.
Proof. intros Hfg. induction l as [|x l IH]; simpl; by rewrite ?Hfg, ?IH. Qed.

Lemma flat_map_filter_singleton (s : pystr) :
  flat_map (fun c => filter non_ascii [c]) s = filter non_ascii s.
Proof.
  induction s as [|c s IH]; simpl; [done|].
  rewrite IH, (filter_cons _ c s), (filter_cons _ c []), filter_nil.
  by destruct (decide (non_ascii c)).
Qed.

Lemma encode_str_literal (s : pystr) :
  filter non_ascii (encode_str false s) = filter non_ascii s.
Proof.
  unfold encode_str. rewrite !filter_app, filter_flat_map.
  rewrite (flat_map_ext_eq _ (fun c => filter non_ascii [c]))
    by apply encode_char_literal.
  rewrite flat_map_filter_singleton.
  rewrite (filter_non_ascii_ascii [34]) by by repeat constructor.
  by rewrite app_nil_r.
Qed.

Lemma encode_str_escaped (s : pystr) :
  Forall (fun c => c < 128) (encode_str true s).
Proof.
  unfold encode_str. apply Forall_app. split; [by repeat constructor|].
  apply Forall_app. split; [|by repeat constructor].
  induction s as [|c s IH]; simpl; [constructor|].
  apply Forall_app. split; [apply encode_char_escaped|done].
Qed.

Lemma string_of_uint_ascii (d : Decimal.uint) :
  Forall (fun c => c < 128) (lit (NilEmpty.string_of_uint d)).
Proof. induction d; simpl; by repeat constructor. Qed.

Lemma repr_int_ascii (z : Z) : Forall (fun c => c < 128) (repr_int z).
Proof.
  unfold repr_int.
  assert (∀ d, Forall (fun c => c < 128) (lit (NilZero.string_of_uint d)))
    as Hu.
  { intros d. destruct d; try apply string_of_uint_ascii.
    by repeat constructor. }
  destruct (Z.to_int z) as [d|d]; simpl; [apply Hu|].
  constructor; [done|apply Hu].
Qed.

Lemma newline_indent_ascii (level : nat) :
  Forall (fun c => c < 128) (newline_indent level).
Proof.
  unfold newline_indent. constructor; [done|].
  apply Forall_forall. intros c Hc%list_elem_of_In%repeat_spec. by subst.
Qed.

Lemma filter_join (sep : pystr) (parts : list pystr) :
  Forall (fun c => c < 128) sep →
  filter non_ascii (join sep parts) = flat_map (filter non_ascii) parts.
Proof.
  intros Hsep. induction parts as [|p parts IH]; simpl; [done|].
  destruct parts as [|q parts]; [by rewrite app_nil_r|].
  rewrite !filter_app, IH, (filter_non_ascii_ascii sep Hsep). done.
Qed.

Lemma separator_ascii (level : nat) :
  Forall (fun c => c < 128) ([44] ++ newline_indent level).
Proof. constructor; [done|apply newline_indent_ascii]. Qed.

Lemma encode_value_literal (v : pyval) :
  filter non_ascii (encode_value false v) = filter non_ascii (text_of_value v).
Proof.
  destruct v as [|s|z]; simpl.
  - done.
  - apply encode_str_literal.
  - by rewrite (filter_non_ascii_ascii _ (repr_int_ascii z)).
Qed.

Lemma encode_value_escaped (v : pyval) :
  Forall (fun c => c < 128) (encode_value true v).
Proof.
  destruct v as [|s|z]; simpl.
  - by repeat constructor.
  - apply encode_str_escaped.
  - apply repr_int_ascii.
Qed.

Lemma encode_dict_literal (level : nat) (d : pydict) :
  filter non_ascii (encode_dict false level d)
  = filter non_ascii
      (flat_map (fun kv : list N * pyval => kv.1 ++ text_of_value kv.2) d).
Proof.
  unfold encode_dict. destruct d as [|kv d]; [done|].
  rewrite !filter_app, (filter_join _ _ (separator_ascii _)).
  rewrite !(filter_non_ascii_ascii _ (newline_indent_ascii _)).
  rewrite (filter_non_ascii_ascii [123]), (filter_non_ascii_ascii [125])
    by by repeat constructor.
  rewrite app_nil_r. cbn [app]. rewrite filter_flat_map.
  generalize (kv :: d). intros l.
  induction l as [|[k v] l IH]; cbn [flat_map map]; [done|].
  rewrite IH. f_equal. unfold encode_item. cbn [fst snd].
  rewrite !filter_app, encode_str_literal, encode_value_literal.
  by rewrite (filter_non_ascii_ascii key_separator) by by repeat constructor.
Qed.

Lemma encode_item_escaped (kv : list N * pyval) :
  Forall (fun c => c < 128) (encode_item true kv).
Proof.
  unfold encode_item. apply Forall_app. split; [apply encode_str_escaped|].
  apply Forall_app. split; [by repeat constructor|apply encode_value_escaped].
Qed.

Lemma join_ascii (sep : pystr) (parts : list pystr) :
  Forall (fun c => c < 128) sep →
  Forall (Forall (fun c => c < 128)) parts →
  Forall (fun c => c < 128) (join sep parts).
Proof.
  intros Hsep. induction 1 as [|p parts Hp Hparts IH]; simpl; [constructor|].
  destruct parts as [|q parts]; [done|].
  apply Forall_app. split; [done|]. apply Forall_app. by split.
Qed.

Lemma encode_dict_escaped (level : nat) (d : pydict) :
  Forall (fun c => c < 128) (encode_dict true level d).
Proof.
  unfold encode_dict. destruct d as [|kv d]; [by repeat constructor|].
  generalize (kv :: d). intros l.
  apply Forall_app. split; [by repeat constructor|].
  apply Forall_app. split; [apply newline_indent_ascii|].
  apply Forall_app. split.
  - apply join_ascii; [apply separator_ascii|].
    apply Forall_forall. intros p (x & -> & _)%list_elem_of_fmap.
    apply encode_item_escaped.
  - apply Forall_app. split; [apply newline_indent_ascii|].
    by repeat constructor.
Qed.

(** Without [ensure_ascii] the non-ASCII characters of the output are those
    of the keys and string values of the data, in order: each is written as it
    is and none is added. *)
Lemma json_dumps_literal (data : list pydict) :
  filter non_ascii (json_dumps false data) = filter non_ascii (text_of data).
Proof.
  unfold json_dumps, text_of. destruct data as [|d data]; [done|].
  rewrite !filter_app, (filter_join _ _ (separator_ascii _)).
  rewrite !(filter_non_ascii_ascii _ (newline_indent_ascii _)).
  rewrite (filter_non_ascii_ascii [91]), (filter_non_ascii_ascii [93])
    by by repeat constructor.
  rewrite app_nil_r. cbn [app]. rewrite filter_flat_map.
  generalize (d :: data). intros l.
  induction l as [|x l IH]; simpl; [done|].
  by rewrite IH, encode_dict_literal.
Qed.

(** With [ensure_ascii] the output holds no non-ASCII character at all. *)
Lemma json_dumps_escaped (data : list pydict) :
  filter non_ascii (json_dumps true data) = [].
Proof.
  apply filter_non_ascii_ascii.
  unfold json_dumps. destruct data as [|d data]; [by repeat constructor|].
  generalize (d :: data). intros l.
  apply Forall_app. split; [by repeat constructor|].
  apply Forall_app. split; [apply newline_indent_ascii|].
  apply Forall_app. split.
  - apply join_ascii; [apply separator_ascii|].
    apply Forall_forall. intros p (x & -> & _)%list_elem_of_fmap.
    apply encode_dict_escaped.
  - apply Forall_app. split; [apply newline_indent_ascii|].
    by repeat constructor.
Qed.

(** ** Persisting snapshots and reports *)

(** [save_to_json] of [test_data.py] writes the pretty-printed array with
    every non-ASCII character of the data as it is. *)
Lemma save_to_json_literal (openable : list N → bool) (data : list pydict)
    (path : pystr) (fs : filesystem) :
  openable path = true →
  save_to_json openable data path fs !! path = Some (json_dumps false data)
  ∧ filter non_ascii (json_dumps false data) = filter non_ascii (text_of data).
Proof.
  intros Hopen. unfold save_to_json, write_file. rewrite Hopen.
  split; [apply lookup_insert_eq|apply json_dumps_literal].
Qed.

(** The update report of the specification's scenario keeps its Chinese
    change types. *)
Example save_to_json_report (path : pystr) (fs : filesystem) :
  ∃ content,
    save_to_json (fun _ => true)
      [[ (k_source, (VStr s_pypi)); (k_name, numpy);
         (k_change_type, VStr ct_added);
         (k_old_value, VNone); (k_new_value, (VStr (lit "2.0")));
         (k_check_time, t1) ]]
      path fs !! path = Some content
    ∧ occurs ct_added content = true.
Proof.
  eexists. split.
  - unfold save_to_json, write_file. apply lookup_insert_eq.
  - vm_compute. reflexivity.
Qed.

(** [save_to_json] of [Get_Date.py] leaves no non-ASCII character in the
    file, whatever the data. *)
Lemma get_date_save_to_json_escaped (openable : list N → bool)
    (data : list pydict) (path : pystr) (fs : filesystem) :
  openable path = true →
  Get_Date.save_to_json openable data path fs !! path
  = Some (json_dumps true data)
  ∧ filter non_ascii (json_dumps true data) = [].
Proof.
  intros Hopen. unfold Get_Date.save_to_json, write_file. rewrite Hopen.
  split; [apply lookup_insert_eq|apply json_dumps_escaped].
Qed.

(** C9. [test_data.py] preserves non-ASCII characters, [Get_Date.py] does not:
    for a record whose author is "Jos" followed by code point 233, the file
    written by [Get_Date.save_to_json] holds the six characters \u00e9 and no
    non-ASCII character, while the file written by [save_to_json] of
    [test_data.py] holds the character itself. *)
Theorem get_date_save_to_json_escapes_non_ascii (path : pystr)
    (fs : filesystem) :
  filter non_ascii (text_of [jose]) = [233] ∧
  (∃ content,
     Get_Date.save_to_json (fun _ => true) [jose] path fs !! path
     = Some content
     ∧ filter non_ascii content = []
     ∧ occurs (lit "Jos\u00e9") content = true) ∧
  (∃ content,
     save_to_json (fun _ => true) [jose] path fs !! path = Some content
     ∧ filter non_ascii content = [233]
     ∧ occurs [74; 111; 115; 233] content = true).
Proof.
  split_and!.
  - vm_compute. reflexivity.
  - exists (json_dumps true [jose]). split_and!.
    + unfold Get_Date.save_to_json, write_file. apply lookup_insert_eq.
    + apply json_dumps_escaped.
    + vm_compute. reflexivity.
  - exists (json_dumps false [jose]). split_and!.
    + unfold save_to_json, write_file. apply lookup_insert_eq.
    + vm_compute. reflexivity.
    + vm_compute. reflexivity.
Qed.

(** ** A cycle that collects nothing *)

Lemma report_path_fresh (now_stamp : pystr) :
  report_path now_stamp ≠ metadata_json ∧ report_path now_stamp ≠ metadata_csv.
Proof. split; intros H; vm_compute in H; discriminate H. Qed.

(** Writing a file leaves the others as they are. *)
Lemma save_to_json_other (openable : list N → bool) (data : list pydict)
    (path other : pystr) (fs : filesystem) :
  path ≠ other → save_to_json openable data path fs !! other = fs !! other.
Proof.
  intros Hne. unfold save_to_json, write_file.
  destruct (openable path); [|done]. by apply lookup_insert_ne.
Qed.

Lemma collect_all_failed
    (get_pypi_metadata : pyval → option (list (list N * pyval)))
    (get_github_metadata : list N → list N → option (list (list N * pyval))) :
  (∀ name, get_pypi_metadata name = None) →
  (∀ owner repo, get_github_metadata owner repo = None) →
  collect get_pypi_metadata get_github_metadata None [] targets = [].
Proof.
  intros Hp Hg. vm_compute. rewrite !Hp. vm_compute. by rewrite !Hg.
Qed.

(** C10. When the fetch cycle collects no record, [main] leaves the contents
    of metadata.json and metadata.csv as they were; this is the case when
    every fetch fails; and [save_to_csv] of an empty list changes no file. *)
Theorem main_keeps_snapshot_when_nothing_collected :
  (∀ openable csv_text json_load get_pypi_metadata get_github_metadata
     makedirs_ok now_iso now_stamp (fs : filesystem),
     collect get_pypi_metadata get_github_metadata None [] targets = [] →
     (main openable csv_text json_load get_pypi_metadata get_github_metadata
        makedirs_ok now_iso now_stamp fs).1 !! metadata_json
     = fs !! metadata_json
     ∧ (main openable csv_text json_load get_pypi_metadata get_github_metadata
          makedirs_ok now_iso now_stamp fs).1 !! metadata_csv
       = fs !! metadata_csv) ∧
  (∀ get_pypi_metadata get_github_metadata,
     (∀ name, get_pypi_metadata name = None) →
     (∀ owner repo, get_github_metadata owner repo = None) →
     collect get_pypi_metadata get_github_metadata None [] targets = []) ∧
  (∀ openable csv_text (output_path : pystr) (fs : filesystem),
     save_to_csv openable csv_text [] output_path fs = fs).
Proof.
  split_and!; [|apply collect_all_failed|done].
  intros openable csv_text json_load gp gg mk now_iso now_stamp fs Hnone.
  unfold main. rewrite Hnone.
  destruct mk; cbn [negb]; [|done].
  destruct (compare_metadata _ _ _) as [[|e report]|e]; cbn [fst]; try done.
  destruct (report_path_fresh now_stamp) as [Hj Hc].
  by rewrite !save_to_json_other.
Qed.

Lemma main_keeps_snapshot_when_nothing_collected_witness :
  (main (fun _ => true) (fun _ _ => []) (fun _ => Some [numpy_1_0])
     (fun _ => None) (fun _ _ => None) true (fun _ => lit "2024-05-03T10:00")
     (lit "202405031000") {[ metadata_json := lit "[previous snapshot]" ]}).1
    !! metadata_json
  = ({[ metadata_json := lit "[previous snapshot]" ]} : gmap (list N) (list N))
      !! metadata_json
  ∧ (main (fun _ => true) (fun _ _ => []) (fun _ => Some [numpy_1_0])
       (fun _ => None) (fun _ _ => None) true (fun _ => lit "2024-05-03T10:00")
       (lit "202405031000") {[ metadata_json := lit "[previous snapshot]" ]}).1
      !! metadata_csv
    = ({[ metadata_json := lit "[previous snapshot]" ]}
         : gmap (list N) (list N)) !! metadata_csv.
Proof.
  apply (proj1 main_keeps_snapshot_when_nothing_collected).
  reflexivity.
Defined.

(** * Further properties *)

(** ** Readable records *)

Lemma readable_core_inv (r : pydict) :
  readable_core r →
  ∃ sk nm v,
    source_of r = Some sk ∧
    dict_lookup r k_source = Some (VStr (source_name sk)) ∧
    dict_lookup r k_name = Some nm ∧
    dict_lookup r (cmp_key sk) = Some v.
Proof.
  unfold readable_core, readable_coreb. intros Hr.
  destruct (source_of r) as [sk|] eqn:Esk; [|done].
  destruct (dict_lookup r k_name) as [nm|] eqn:En; [|done].
  destruct (dict_lookup r (cmp_key sk)) as [v|] eqn:Ec; [|done].
  exists sk, nm, v. split_and!; try done. by apply source_of_Some.
Qed.

Lemma readable_readable_core (r : pydict) : readable r → readable_core r.
Proof.
  unfold readable, readableb, readable_core. intros H.
  by apply andb_prop in H as [? _].
Qed.

Lemma readable_checked_at (r : pydict) :
  readable r → ∃ t, dict_lookup r k_checked_at = Some t.
Proof.
  unfold readable, readableb. intros H. apply andb_prop in H as [_ H].
  destruct (dict_lookup r k_checked_at) as [t|]; [by exists t|done].
Qed.

Lemma wf_core_readable (r : pydict) : wf_core r → readable_core r.
Proof.
  intros (sk & nm & v & Esk & _ & Hn & Hv & _)%wf_core_inv.
  unfold readable_core, readable_coreb. by rewrite Esk, Hn, Hv.
Qed.

Lemma wf_record_readable (r : pydict) : wf_record r → readable r.
Proof.
  intros Hwf. destruct (wf_record_checked_at r Hwf) as [t Ht].
  pose proof (wf_core_readable r (wf_record_core r Hwf)) as Hc.
  unfold readable, readableb. unfold readable_core in Hc.
  by rewrite Hc, Ht.
Qed.

Lemma readable_item_key (r : pydict) : readable_core r → item_key r = Ok (dkey r).
Proof.
  intros (sk & nm & v & _ & Hs & Hn & _)%readable_core_inv.
  unfold item_key, dkey.
  destruct (getitem_lookup _ _ _ Hs) as [-> ->].
  by destruct (getitem_lookup _ _ _ Hn) as [-> ->].
Qed.

Lemma readable_dkey_source_of (o n : pydict) :
  readable_core o → readable_core n → dkey o = dkey n →
  source_of o = source_of n.
Proof.
  intros (sko & ? & ? & Eo & Hso & _)%readable_core_inv
         (skn & ? & ? & En & Hsn & _)%readable_core_inv.
  unfold dkey, get. rewrite Hso, Hsn, Eo, En.
  intros [= Hs _]. by destruct sko, skn.
Qed.

Lemma build_dict_readable (data : list pydict) (acc : keyed) :
  Forall readable_core data → build_dict data acc = Ok (index data acc).
Proof.
  intros Hr. revert acc.
  induction Hr as [|r data Hr _ IH]; intros acc; simpl; [done|].
  rewrite (readable_item_key r Hr). simpl. apply IH.
Qed.

Lemma visit_new_readable (D : keyed) (n : pydict) :
  entries_ok readable_core D → readable n →
  visit_new D (dkey n) n = Ok (classify D n).
Proof.
  intros HD Hn.
  destruct (readable_checked_at n Hn) as [t Ht].
  pose proof (readable_readable_core n Hn) as Hc.
  destruct (readable_core_inv n Hc) as (sk & nm & v & Esk & Hs & Hnm & Hv).
  unfold visit_new, classify, dict_mem.
  destruct (dict_lookup D (dkey n)) as [o|] eqn:E; cbn [negb].
  - unfold getitem_key. rewrite E, bind_Ok.
    destruct (HD _ _ (dict_lookup_Some_elem _ _ _ E)) as [Hk Ho].
    pose proof (readable_dkey_source_of o n Ho Hc Hk) as Eso.
    rewrite Esk in Eso.
    destruct (readable_core_inv o Ho) as (sk' & nm' & vo & Esk' & _ & _ & Hvo).
    assert (sk' = sk) as -> by congruence.
    unfold updated_event, cmp_field, update_type. rewrite Esk, Eso.
    unfold getitem, get. rewrite Hs, Hnm, Ht.
    destruct sk; cbn [cmp_key source_name] in *; rewrite Hv, Hvo;
      rewrite !bind_Ok.
    + rewrite py_eq_refl, !bind_Ok, negb_py_eq.
      by destruct (decide (vo = v)).
    + replace (py_eq (VStr s_github) (VStr s_pypi)) with false by done.
      rewrite ?bind_Ok, py_eq_refl, ?bind_Ok, negb_py_eq.
      by destruct (decide (vo = v)).
  - unfold added_event, reported_value, getitem, get.
    by rewrite Hs, Hnm, Ht.
Qed.

Lemma update_loop_readable (D : keyed) (items : keyed) :
  entries_ok readable_core D → entries_ok readable items →
  update_loop D items = Ok (flat_map (classify D) (map snd items)).
Proof.
  intros HD. induction items as [|[k n] items IH]; intros Hit; simpl; [done|].
  destruct (Hit k n) as [<- Hn]; [apply elem_of_cons; auto|].
  rewrite (visit_new_readable D n HD Hn), bind_Ok, IH; [done|].
  intros k' r' Hin. apply Hit. apply elem_of_cons; auto.
Qed.

Lemma removed_loop_readable now tick (D Dnew entries : keyed) :
  (∀ k o, (k, o) ∈ entries → dict_lookup D k = Some o ∧ readable_core o) →
  removed_loop now tick D Dnew (map fst entries)
  = Ok (removed_events now tick Dnew entries).
Proof.
  revert tick. induction entries as [|[k o] entries IH]; intros tick He;
    simpl; [done|].
  assert (∀ k o, (k, o) ∈ entries →
                 dict_lookup D k = Some o ∧ readable_core o)
    as He' by (intros ???; apply He, elem_of_cons; auto).
  destruct (dict_mem k Dnew); cbn [negb]; [by apply IH|].
  destruct (He k o) as [Hl Ho]; [apply elem_of_cons; auto|].
  destruct (readable_core_inv o Ho) as (sk & nm & v & _ & Hs & Hnm & _).
  unfold getitem_key, getitem. rewrite Hl. cbn [mbind result_bind].
  rewrite Hs, Hnm. cbn [mbind result_bind].
  rewrite (IH (S tick) He'). cbn [mbind result_bind mret result_ret].
  unfold removed_event, reported_value, get. by rewrite Hs, Hnm.
Qed.

(** On readable records [compare_metadata] raises nothing and returns the
    specified diff, whatever the fields hold. *)
Lemma compare_metadata_readable now (old_data new_data : list pydict) :
  Forall readable_core old_data → Forall readable new_data →
  compare_metadata now old_data new_data
  = Ok (diff_spec now old_data new_data).
Proof.
  intros Hold Hnew. unfold compare_metadata, diff_spec.
  rewrite (build_dict_readable old_data [] Hold), bind_Ok.
  rewrite (build_dict_readable new_data []), bind_Ok
    by (eapply Forall_impl; [exact Hnew|apply readable_readable_core]).
  pose proof (index_entries_ok readable_core old_data [] Hold
                (entries_ok_nil _)) as HD.
  pose proof (index_entries_ok readable new_data [] Hnew (entries_ok_nil _))
    as HN.
  rewrite (update_loop_readable _ _ HD HN), bind_Ok.
  rewrite (removed_loop_readable now 0 (index old_data [])); [done|].
  intros k o Hin. split; [|by apply (HD k o)].
  apply dict_lookup_elem; [|done]. apply index_NoDup. simpl. apply NoDup_nil_2.
Qed.

(** ** The diff in closed form *)

Lemma dict_lookup_entries (S : list pydict) (k : key) :
  dict_lookup (map (fun r => (dkey r, r)) S) k
  = head (filter (fun o => dkey o = k) S).
Proof.
  induction S as [|r S IH]; simpl; [done|].
  rewrite filter_cons.
  destruct (decide (k = dkey r)) as [->|Hne].
  - by rewrite decide_True.
  - rewrite decide_False by done. apply IH.
Qed.

Lemma classify_diff_current (old_data : list pydict) (n : pydict) :
  classify (map (fun r => (dkey r, r)) old_data) n = diff_current old_data n.
Proof.
  unfold classify, diff_current, previous_record.
  by rewrite dict_lookup_entries.
Qed.

Lemma removed_events_closed now tick (Dnew : keyed) (old_data : list pydict) :
  removed_events now tick Dnew (map (fun r => (dkey r, r)) old_data)
  = imap (fun i o => removed_event (now (tick + i)%nat) o)
      (filter (fun o => dkey o ∉ map fst Dnew) old_data).
Proof.
  revert tick. induction old_data as [|o old_data IH]; intros tick; simpl;
    [done|].
  destruct (dict_mem (dkey o) Dnew) eqn:Em.
  - apply dict_mem_true in Em.
    rewrite filter_cons_False by (intros Hn; by apply Hn). apply IH.
  - apply dict_mem_false in Em. rewrite filter_cons_True by done.
    simpl. rewrite Nat.add_0_r, IH. f_equal.
    apply imap_ext. intros i x _. simpl. do 3 f_equal. lia.
Qed.

Lemma diff_spec_closed now (old_data new_data : list pydict) :
  NoDup (map dkey old_data) → NoDup (map dkey new_data) →
  diff_spec now old_data new_data = diff_closed now old_data new_data.
Proof.
  intros Hndo Hndn. unfold diff_spec, diff_closed, removed_records.
  rewrite (index_snapshot old_data Hndo), (index_snapshot new_data Hndn).
  rewrite snapshot_values, removed_events_closed, snapshot_keys. f_equal.
  apply flat_map_ext_eq. apply classify_diff_current.
Qed.

(** X1. On snapshots of readable records with distinct identities the result
    is, for every current record in order, an addition when no previous record
    has its identity, an update when the comparison fields differ, and nothing
    otherwise; followed by one removal per previous record whose identity the
    current snapshot lacks, in order, the i-th stamped with the i-th clock
    reading. *)
Theorem compare_metadata_closed_form now (old_data new_data : list pydict) :
  Forall readable_core old_data → Forall readable new_data →
  NoDup (map dkey old_data) → NoDup (map dkey new_data) →
  compare_metadata now old_data new_data
  = Ok (flat_map (diff_current old_data) new_data
        ++ imap (fun i o => removed_event (now i) o)
             (removed_records old_data new_data)).
Proof.
  intros Hold Hnew Hndo Hndn.
  rewrite (compare_metadata_readable now old_data new_data Hold Hnew).
  by rewrite (diff_spec_closed now old_data new_data Hndo Hndn).
Qed.

(** ** One event per identity *)

Lemma NoDup_dkey_inj (l : list pydict) (x y : pydict) :
  NoDup (map dkey l) → x ∈ l → y ∈ l → dkey x = dkey y → x = y.
Proof.
  induction l as [|r l IH]; simpl; intros Hnd Hx Hy Hk;
    [by apply elem_of_nil in Hx|].
  apply NoDup_cons in Hnd as [Hr Hnd].
  apply elem_of_cons in Hx as [->|Hx]; apply elem_of_cons in Hy as [->|Hy].
  - done.
  - exfalso. apply Hr. rewrite Hk. apply list_elem_of_fmap. by exists y.
  - exfalso. apply Hr. rewrite <- Hk. apply list_elem_of_fmap. by exists x.
  - by apply IH.
Qed.

Lemma events_for_removals_none (g : nat → pystr) (l : list pydict) (k : key) :
  k ∉ map dkey l →
  events_for k (imap (fun i o => removed_event (g i) o) l) = [].
Proof.
  revert g. induction l as [|r l IH]; intros g Hk; simpl; [done|].
  apply not_elem_of_cons in Hk as [Hne Hk].
  unfold events_for. rewrite filter_cons_False
    by (rewrite dkey_removed_event; congruence).
  apply (IH (g ∘ S) Hk).
Qed.

Lemma events_for_removals_one (g : nat → pystr) (l : list pydict)
    (o : pydict) :
  NoDup (map dkey l) → o ∈ l →
  ∃ i, (i < length l)%nat ∧
    events_for (dkey o) (imap (fun i o => removed_event (g i) o) l)
    = [removed_event (g i) o].
Proof.
  revert g. induction l as [|r l IH]; intros g Hnd Ho; simpl in *;
    [by apply elem_of_nil in Ho|].
  apply NoDup_cons in Hnd as [Hr Hnd].
  apply elem_of_cons in Ho as [->|Ho].
  - exists 0%nat. split; [lia|].
    unfold events_for. rewrite filter_cons_True by done. f_equal.
    apply (events_for_removals_none (g ∘ S) l (dkey r) Hr).
  - destruct (IH (g ∘ S) Hnd Ho) as (i & Hi & Heq).
    exists (S i). split; [lia|].
    unfold events_for. rewrite filter_cons_False; [exact Heq|].
    rewrite dkey_removed_event. intros Hk. apply Hr. rewrite Hk.
    apply list_elem_of_fmap. by exists o.
Qed.

Lemma diff_current_dkey (old_data : list pydict) (n e : pydict) :
  e ∈ diff_current old_data n → dkey e = dkey n.
Proof. rewrite <- classify_diff_current. apply classify_dkey. Qed.

Lemma diff_current_length (old_data : list pydict) (n : pydict) :
  (length (diff_current old_data n) ≤ 1)%nat.
Proof.
  unfold diff_current. destruct (previous_record old_data n) as [o|]; [|done].
  destruct (decide (cmp_field o = cmp_field n)); simpl; lia.
Qed.

Lemma events_for_foreign (f : list (list N * pyval) → list (list (list N * pyval)))
    (l : list pydict) (k : key) :
  (∀ r e, e ∈ f r → dkey e = dkey r) → k ∉ map dkey l →
  events_for k (flat_map f l) = [].
Proof.
  intros Hf Hk. apply filter_none, Forall_forall.
  intros e (r & Hr & He)%list_elem_of_In%in_flat_map Hke.
  apply Hk. rewrite <- Hke, (Hf r e) by by apply list_elem_of_In.
  apply list_elem_of_fmap. exists r. split; [done|by apply list_elem_of_In].
Qed.

Lemma removed_records_keys (old_data new_data : list pydict) (o : pydict) :
  o ∈ removed_records old_data new_data
  ↔ o ∈ old_data ∧ dkey o ∉ map dkey new_data.
Proof.
  unfold removed_records. rewrite list_elem_of_filter. tauto.
Qed.

Lemma removed_records_NoDup (old_data new_data : list pydict) :
  NoDup (map dkey old_data) →
  NoDup (map dkey (removed_records old_data new_data)).
Proof.
  intros Hnd.
  apply (sublist_NoDup (map dkey (removed_records old_data new_data))
           (map dkey old_data)); [exact Hnd|].
  unfold removed_records. apply fmap_sublist, sublist_filter.
Qed.

(** The events of the closed form about one identity, by the snapshots that
    hold it. *)
Lemma diff_closed_current now (old_data new_data : list pydict) (n : pydict) :
  NoDup (map dkey new_data) → n ∈ new_data →
  events_for (dkey n) (diff_closed now old_data new_data)
  = diff_current old_data n.
Proof.
  intros Hnd Hn. unfold diff_closed, events_for. rewrite filter_app.
  fold (events_for (dkey n) (flat_map (diff_current old_data) new_data)).
  rewrite (events_for_flat_map _ new_data n Hnd Hn)
    by (intros r e; apply diff_current_dkey).
  fold (events_for (dkey n)
          (imap (fun i o => removed_event (now i) o)
             (removed_records old_data new_data))).
  rewrite events_for_removals_none; [by rewrite app_nil_r|].
  intros (o & Hk & [_ Ho]%removed_records_keys)%list_elem_of_fmap.
  apply Ho. rewrite <- Hk. apply list_elem_of_fmap. by exists n.
Qed.

Lemma diff_closed_removed now (old_data new_data : list pydict) (o : pydict) :
  NoDup (map dkey old_data) → o ∈ old_data → dkey o ∉ map dkey new_data →
  ∃ i, (i < length (removed_records old_data new_data))%nat ∧
    events_for (dkey o) (diff_closed now old_data new_data)
    = [removed_event (now i) o].
Proof.
  intros Hnd Ho Hk.
  destruct (events_for_removals_one now (removed_records old_data new_data) o)
    as (i & Hi & Heq).
  - by apply removed_records_NoDup.
  - by apply removed_records_keys.
  - exists i. split; [done|].
    unfold diff_closed, events_for. rewrite filter_app.
    fold (events_for (dkey o) (flat_map (diff_current old_data) new_data)).
    rewrite (events_for_foreign _ new_data (dkey o)); [exact Heq| |done].
    intros r e. apply diff_current_dkey.
Qed.

Lemma diff_closed_foreign now (old_data new_data : list pydict) (k : key) :
  k ∉ map dkey old_data → k ∉ map dkey new_data →
  events_for k (diff_closed now old_data new_data) = [].
Proof.
  intros Hko Hkn. unfold diff_closed, events_for. rewrite filter_app.
  fold (events_for k (flat_map (diff_current old_data) new_data)).
  rewrite (events_for_foreign _ new_data k); [|apply diff_current_dkey|done].
  apply events_for_removals_none.
  intros (o & Hk & [Ho _]%removed_records_keys)%list_elem_of_fmap.
  apply Hko. rewrite Hk. apply list_elem_of_fmap. by exists o.
Qed.


(** X3. No identity is reported twice, and an identity that neither snapshot
    holds is not reported at all. *)
Theorem compare_metadata_one_event_per_key now
    (old_data new_data : list pydict) (k : key) :
  Forall readable_core old_data → Forall readable new_data →
  NoDup (map dkey old_data) → NoDup (map dkey new_data) →
  ∃ evs, compare_metadata now old_data new_data = Ok evs ∧
    (length (events_for k evs) ≤ 1)%nat ∧
    (k ∉ map dkey old_data → k ∉ map dkey new_data → events_for k evs = []).
Proof.
  intros Hold Hnew Hndo Hndn.
  exists (diff_closed now old_data new_data). split_and!.
  - rewrite (compare_metadata_readable now old_data new_data Hold Hnew).
    by rewrite (diff_spec_closed now old_data new_data Hndo Hndn).
  - destruct (decide (k ∈ map dkey new_data)) as [Hin|Hkn].
    + apply list_elem_of_fmap in Hin as (n & -> & Hn).
      rewrite (diff_closed_current now old_data new_data n Hndn Hn).
      apply diff_current_length.
    + destruct (decide (k ∈ map dkey old_data)) as [Hin|Hko].
      * apply list_elem_of_fmap in Hin as (o & -> & Ho).
        destruct (diff_closed_removed now old_data new_data o Hndo Ho Hkn)
          as (i & _ & ->). done.
      * rewrite diff_closed_foreign by done. simpl. lia.
  - apply diff_closed_foreign.
Qed.

(** Nothing is reported when nothing changed. *)
Lemma diff_closed_unchanged now (old_data new_data : list pydict) :
  NoDup (map dkey old_data) →
  (∀ n, n ∈ new_data → ∃ o, o ∈ old_data ∧ unchanged o n) →
  (∀ o, o ∈ old_data → dkey o ∈ map dkey new_data) →
  diff_closed now old_data new_data = [].
Proof.
  intros Hndo Hsame Hall. unfold diff_closed.
  rewrite flat_map_nil.
  - replace (removed_records old_data new_data)
      with (@nil (list (list N * pyval))); [done|].
    symmetry. apply filter_none, Forall_forall. intros o Ho Hn.
    by apply Hn, Hall.
  - intros n Hn. destruct (Hsame n Hn) as (o & Ho & Hk & Hc).
    unfold diff_current, previous_record.
    destruct (filter (λ o0, dkey o0 = dkey n) old_data) as [|o' rest] eqn:Ef.
    + exfalso. eapply (filter_nil_not_elem_of _ _ o Ef); done.
    + assert (o' ∈ filter (λ o0, dkey o0 = dkey n) old_data) as Ho'
        by (rewrite Ef; apply elem_of_cons; auto).
      apply list_elem_of_filter in Ho' as [Hk' Ho'].
      assert (o' = o) as ->
        by (apply (NoDup_dkey_inj old_data); [done..|congruence]).
      simpl. by rewrite decide_True.
Qed.


(** ** Duplicate identities *)

Lemma item_key_Ok (r : pydict) (k : key) : item_key r = Ok k → k = dkey r.
Proof.
  unfold item_key, dkey, getitem, get.
  destruct (dict_lookup r k_source); [|done].
  destruct (dict_lookup r k_name); [|done].
  by intros [= <-].
Qed.

Lemma build_dict_Ok (data : list pydict) (acc D : keyed) :
  build_dict data acc = Ok D → D = index data acc.
Proof.
  revert acc. induction data as [|r data IH]; intros acc; simpl.
  - by intros [= <-].
  - destruct (item_key r) as [k|e] eqn:Ek; [|done].
    apply item_key_Ok in Ek as ->. simpl. apply IH.
Qed.

Lemma dict_lookup_set (D : keyed) (k k' : key) (r : pydict) :
  dict_lookup (dict_set D k r) k'
  = if decide (k = k') then Some r else dict_lookup D k'.
Proof.
  destruct (decide (k = k')) as [->|Hne].
  - apply dict_lookup_set_eq.
  - by apply dict_lookup_set_ne.
Qed.

Lemma index_lookup_last (data : list pydict) (acc : keyed) (k : key) :
  dict_lookup (index data acc) k
  = match last (filter (fun r => dkey r = k) data) with
    | Some r => Some r
    | None => dict_lookup acc k
    end.
Proof.
  revert acc. induction data as [|r data IH]; intros acc; simpl; [done|].
  rewrite IH, dict_lookup_set, filter_cons.
  destruct (decide (dkey r = k)) as [Hk|Hk].
  - rewrite last_cons. by destruct (last (filter _ data)).
  - done.
Qed.

(** X5. When several records of a snapshot share an identity, the lookup
    dictionary holds the last of them, once. *)
Theorem build_dict_last_wins (data : list pydict) (D : keyed) :
  build_dict data [] = Ok D →
  NoDup (map fst D) ∧
  ∀ k, dict_lookup D k = last (filter (fun r => dkey r = k) data).
Proof.
  intros ->%build_dict_Ok. split.
  - apply index_NoDup. apply NoDup_nil_2.
  - intros k. rewrite index_lookup_last.
    by destruct (last (filter _ data)).
Qed.

(** ** The exceptions of the diff *)

Lemma bind_raise_inv {A B} (m : result A) (f : A → result B) (e : exn) :
  (m ≫= f) = Raise e → m = Raise e ∨ ∃ a, m = Ok a ∧ f a = Raise e.
Proof.
  destruct m as [a|e']; simpl.
  - intros H. right. by exists a.
  - intros [= ->]. by left.
Qed.

Lemma getitem_raise (r : pydict) (f : pystr) (e : exn) :
  getitem r f = Raise e → e = KeyError f.
Proof. unfold getitem. destruct (dict_lookup r f); [done|by intros [= <-]]. Qed.

Lemma missing_field_intro (f : pystr) :
  f ∈ read_fields → missing_field (KeyError f).
Proof. intros Hf. by exists f. Qed.

Ltac raise_cases H :=
  repeat match type of H with
    | (getitem ?r ?f ≫= _) = Raise _ =>
        let E := fresh "E" in
        apply bind_raise_inv in H as [E|(? & _ & H)];
        [apply getitem_raise in E as ->; apply missing_field_intro;
         unfold read_fields; repeat constructor|]
    | (_ ≫= _) = Raise _ =>
        let E := fresh "E" in
        apply bind_raise_inv in H as [E|(? & E & H)];
        [try discriminate E|]
    | (if ?c then _ else _) = Raise _ => destruct c
    | mret _ = Raise _ => discriminate H
    | Ok _ = Raise _ => discriminate H
    end.

Lemma item_key_raise (r : pydict) (e : exn) :
  item_key r = Raise e → missing_field e.
Proof. unfold item_key. intros H. raise_cases H. Qed.

Lemma build_dict_raise (data : list pydict) (acc : keyed) (e : exn) :
  build_dict data acc = Raise e → missing_field e.
Proof.
  revert acc. induction data as [|r data IH]; intros acc; simpl; [done|].
  intros [E|(k & _ & H)]%bind_raise_inv; [by apply item_key_raise in E|].
  by apply IH in H.
Qed.

Lemma visit_new_raise (D : keyed) (k : key) (n : pydict) (e : exn) :
  visit_new D k n = Raise e → missing_field e.
Proof.
  unfold visit_new, dict_mem, getitem_key.
  destruct (dict_lookup D k) as [o|]; cbn [negb]; intros H.
  - rewrite bind_Ok in H. raise_cases H.
    all: try (raise_cases E); try (raise_cases E0).
  - raise_cases H.
Qed.

Lemma update_loop_raise (D items : keyed) (e : exn) :
  update_loop D items = Raise e → missing_field e.
Proof.
  induction items as [|[k n] items IH]; simpl; [done|].
  intros [E|(evs & _ & H)]%bind_raise_inv; [by apply visit_new_raise in E|].
  apply bind_raise_inv in H as [E|(more & _ & H)]; [by apply IH|done].
Qed.

Lemma removed_loop_raise now tick (D Dnew : keyed) (keys : list key)
    (e : exn) :
  (∀ k, k ∈ keys → k ∈ map fst D) →
  removed_loop now tick D Dnew keys = Raise e → missing_field e.
Proof.
  revert tick. induction keys as [|k keys IH]; intros tick Hk; simpl; [done|].
  assert (∀ k, k ∈ keys → k ∈ map fst D) as Hk'
    by (intros ??; apply Hk, elem_of_cons; auto).
  destruct (dict_mem k Dnew); cbn [negb]; [by apply IH|].
  unfold getitem_key.
  destruct (dict_lookup D k) as [o|] eqn:El.
  - rewrite !bind_Ok. intros H. raise_cases H.
    match goal with
    | E : removed_loop _ _ _ _ _ = Raise _ |- _ => by apply IH in E
    end.
  - exfalso. apply dict_lookup_None in El. apply El, Hk, elem_of_cons; auto.
Qed.

(** X6. On lists of dictionaries whose fields hold [None], strings or
    integers, the only exceptions [compare_metadata] raises are key errors for
    one of the five fields it subscripts: the lookups [old_dict[key]] never
    raise. *)
Theorem compare_metadata_raises_only_missing_fields now
    (old_data new_data : list pydict) (e : exn) :
  compare_metadata now old_data new_data = Raise e →
  ∃ f, f ∈ [k_source; k_name; k_version; k_last_updated; k_checked_at]
       ∧ e = KeyError f.
Proof.
  unfold compare_metadata. intros H.
  apply bind_raise_inv in H as [E|(D & _ & H)];
    [by apply build_dict_raise in E|].
  apply bind_raise_inv in H as [E|(Dn & _ & H)];
    [by apply build_dict_raise in E|].
  apply bind_raise_inv in H as [E|(ups & _ & H)];
    [by apply update_loop_raise in E|].
  apply bind_raise_inv in H as [E|(rems & _ & H)]; [|done].
  by apply removed_loop_raise in E.
Qed.

(** ** What the fetchers return *)

Lemma caught_Some {A} (m : result A) (a : A) : caught m = Some a → m = Ok a.
Proof. destruct m; simpl; [by intros [= ->]|done]. Qed.

Lemma bind_ok_inv {A B} (m : result A) (f : A → result B) (b : B) :
  (m ≫= f) = Ok b → ∃ a, m = Ok a ∧ f a = Ok b.
Proof. destruct m as [a|e]; simpl; [by exists a|done]. Qed.

Lemma get_pypi_metadata_Some requests_pypi clock package_name (r : pydict) :
  get_pypi_metadata requests_pypi clock package_name = Some r →
  ∃ name version author home_page,
    r = pypi_record name version author home_page
          (VStr (clock (pypi_url package_name))).
Proof.
  unfold get_pypi_metadata.
  destruct (requests_pypi (pypi_url package_name)) as [data|]; [|done].
  intros H%caught_Some.
  apply bind_ok_inv in H as (name & _ & H).
  apply bind_ok_inv in H as (version & _ & H).
  injection H as <-. by eexists _, _, _, _.
Qed.

Lemma get_github_metadata_Some requests_github clock owner repo token
    (r : pydict) :
  get_github_metadata requests_github clock owner repo token = Some r →
  ∃ stars forks updated spdx,
    r = github_record (VStr (owner ++ [47] ++ repo)) stars forks updated spdx
          (VStr (clock (github_url owner repo))).
Proof.
  unfold get_github_metadata.
  destruct (requests_github _ _) as [data|]; [|done].
  intros H%caught_Some.
  apply bind_ok_inv in H as (stars & _ & H).
  apply bind_ok_inv in H as (forks & _ & H).
  apply bind_ok_inv in H as (updated & _ & H).
  apply bind_ok_inv in H as (spdx & _ & H).
  injection H as <-. by eexists _, _, _, _.
Qed.

Lemma fetched_readable (r : pydict) : fetched r → readable r.
Proof.
  intros [(rp & clock & n & H)|(rg & clock & o & p & tok & H)].
  - by apply get_pypi_metadata_Some in H as (? & ? & ? & ? & ->).
  - by apply get_github_metadata_Some in H as (? & ? & ? & ? & ->).
Qed.

Lemma fetched_by_get_date_readable (r : pydict) :
  fetched_by_get_date r → readable_core r.
Proof.
  intros [(rp & n & H)|(rg & o & p & tok & H)].
  - unfold Get_Date_py.get_pypi_metadata in H.
    destruct (rp _) as [data|]; [|done].
    apply caught_Some in H.
    apply bind_ok_inv in H as (name & _ & H).
    apply bind_ok_inv in H as (version & _ & H).
    by injection H as <-.
  - unfold Get_Date_py.get_github_metadata in H.
    destruct (rg _ _) as [data|]; [|done].
    apply caught_Some in H.
    apply bind_ok_inv in H as (stars & _ & H).
    apply bind_ok_inv in H as (forks & _ & H).
    apply bind_ok_inv in H as (updated & _ & H).
    apply bind_ok_inv in H as (spdx & _ & H).
    by injection H as <-.
Qed.

(** X7. Snapshots made of records the fetchers return never make
    [compare_metadata] raise, whichever scalars ([None], strings, integers)
    the two services answered in the fields the fetchers read; the previous
    snapshot may also come from the fetchers of [Get_Date.py], whose records
    have no [checked_at]. *)
Theorem compare_metadata_on_fetched now (old_data new_data : list pydict) :
  Forall (fun r => fetched r ∨ fetched_by_get_date r) old_data →
  Forall fetched new_data →
  ∃ evs, compare_metadata now old_data new_data = Ok evs.
Proof.
  intros Hold Hnew. eexists. apply compare_metadata_readable.
  - eapply Forall_impl; [exact Hold|]. intros r [Hr|Hr].
    + by apply readable_readable_core, fetched_readable.
    + by apply fetched_by_get_date_readable.
  - eapply Forall_impl; [exact Hnew|]. apply fetched_readable.
Qed.

(** X9. A repository whose answer holds [null] (or any scalar) as license is
    dropped: the fetcher returns [None] although every other field is there.
    Without a license member the record is returned with license [None]; with
    a license object, with the [spdx_id] of the object. *)
Theorem get_github_metadata_license requests_github clock owner repo token
    (data : github_response) (stars forks updated : pyval) :
  requests_github (github_url owner repo) (auth_headers token) = Some data →
  dict_lookup (repo_fields data) k_stargazers_count = Some stars →
  dict_lookup (repo_fields data) k_forks_count = Some forks →
  dict_lookup (repo_fields data) k_updated_at = Some updated →
  (∀ v, repo_license data = Some (JScalar v) →
        get_github_metadata requests_github clock owner repo token = None) ∧
  (repo_license data = None →
   get_github_metadata requests_github clock owner repo token
   = Some (github_record (VStr (owner ++ [47] ++ repo)) stars forks updated
             VNone (VStr (clock (github_url owner repo))))) ∧
  (∀ d, repo_license data = Some (JObject d) →
        get_github_metadata requests_github clock owner repo token
        = Some (github_record (VStr (owner ++ [47] ++ repo)) stars forks
                  updated (get d k_spdx_id)
                  (VStr (clock (github_url owner repo))))).
Proof.
  intros Hreq Hs Hf Hu. unfold get_github_metadata, license_spdx_id, getitem.
  rewrite Hreq, Hs, Hf, Hu. cbn [mbind result_bind].
  split_and!.
  - by intros v ->.
  - by intros ->.
  - by intros d ->.
Qed.

(** ** The collecting loop *)

(** Closed decidable goals, by evaluation. *)
Ltac by_decide :=
  match goal with
  | |- ?P => apply (@bool_decide_unpack P _); vm_compute; exact I
  end.

Lemma split_on_no_sep (sep : N) (s : pystr) :
  sep ∉ s → split_on sep s = [s].
Proof.
  induction s as [|c s IH]; simpl; [done|].
  intros [Hne Hs]%not_elem_of_cons.
  rewrite (proj2 (N.eqb_neq c sep)) by congruence.
  by rewrite (IH Hs).
Qed.

Lemma split_on_app (sep : N) (a b : pystr) :
  sep ∉ a → split_on sep (a ++ sep :: b) = a :: split_on sep b.
Proof.
  induction a as [|c a IH]; simpl.
  - intros _. by rewrite N.eqb_refl.
  - intros [Hne Ha]%not_elem_of_cons.
    rewrite (proj2 (N.eqb_neq c sep)) by congruence.
    by rewrite (IH Ha).
Qed.

(** Splitting [owner/repo] at the slash gives the two back. *)
Lemma split_owner_repo (owner repo : pystr) :
  47 ∉ owner → 47 ∉ repo → split_on 47 (owner ++ [47] ++ repo) = [owner; repo].
Proof.
  intros Ho Hr. simpl. by rewrite (split_on_app 47 owner repo Ho),
    (split_on_no_sep 47 repo Hr).
Qed.

Lemma fetch_target_served get_pypi get_github metadata (t : pydict)
    (m : option (list (list N * pyval))) :
  target_fetch get_pypi get_github t m →
  fetch_target get_pypi get_github metadata t = Ok m.
Proof.
  intros [name|owner repo Ho Hr]; unfold fetch_target.
  - reflexivity.
  - unfold github_target, getitem. simpl dict_lookup.
    cbn [mbind result_bind].
    replace (py_eq (VStr s_github) (VStr s_pypi)) with false by done.
    rewrite py_eq_refl. cbn [mbind result_bind].
    change (owner ++ 47 :: repo) with (owner ++ [47] ++ repo).
    by rewrite (split_owner_repo owner repo Ho Hr).
Qed.

Lemma collect_served get_pypi get_github metadata (current_data : list pydict)
    (ts : list pydict) (ms : list (option (list (list N * pyval)))) :
  Forall2 (target_fetch get_pypi get_github) ts ms →
  collect get_pypi get_github metadata current_data ts
  = current_data ++ flat_map kept ms.
Proof.
  intros H. revert metadata current_data.
  induction H as [|t m ts ms Ht _ IH]; intros metadata current_data; simpl.
  - by rewrite app_nil_r.
  - rewrite (fetch_target_served _ _ metadata t m Ht), IH.
    unfold kept. destruct (truthy_metadata m); [|done].
    by rewrite <- app_assoc.
Qed.


(** ** The orchestrator of [test_data.py] *)

Lemma snapshot_paths_distinct : metadata_json ≠ metadata_csv.
Proof. intros H. vm_compute in H. discriminate H. Qed.

Lemma save_to_csv_other (openable : list N → bool)
    (csv_text : list (list N) → list (list (list N * pyval)) → list N)
    (data : list pydict) (path other : pystr) (fs : filesystem) :
  path ≠ other →
  save_to_csv openable csv_text data path fs !! other = fs !! other.
Proof.
  intros Hne. unfold save_to_csv, write_file.
  destruct data as [|first rest]; [done|].
  destruct (openable path); [|done]. by apply lookup_insert_ne.
Qed.

Section orchestrator.
Variable openable : list N → bool.
Variable csv_text : list (list N) → list (list (list N * pyval)) → list N.
Variable json_load : list N → option (list (list (list N * pyval))).
Variable get_pypi : pyval → option (list (list N * pyval)).
Variable get_github : list N → list N → option (list (list N * pyval)).
Variable now_iso : nat → list N.
Variable now_stamp : list N.

(** X13. [main] changes no file other than metadata.json, metadata.csv and
    the update report of the minute. *)
Theorem main_touches_three_files (makedirs_ok : bool) (fs : filesystem)
    (p : pystr) :
  p ≠ metadata_json → p ≠ metadata_csv → p ≠ report_path now_stamp →
  (main openable csv_text json_load get_pypi get_github makedirs_ok now_iso
     now_stamp fs).1 !! p
  = fs !! p.
Proof.
  intros Hj Hc Hr. unfold main.
  destruct makedirs_ok; cbn [negb]; [|done].
  set (cur := collect get_pypi get_github None [] targets).
  set (fs1 := match cur with
              | [] => fs
              | _ :: _ =>
                  save_to_csv openable csv_text cur metadata_csv
                    (save_to_json openable cur metadata_json fs)
              end).
  assert (fs1 !! p = fs !! p) as Hfs1.
  { unfold fs1. destruct cur; [done|].
    by rewrite save_to_csv_other, save_to_json_other. }
  destruct (compare_metadata _ _ _) as [[|e report]|e]; cbn [fst];
    rewrite ?save_to_json_other by done; exact Hfs1.
Qed.

Lemma build_dict_raises (data : list pydict) (acc : keyed) (r : pydict)
    (e0 : exn) :
  r ∈ data → item_key r = Raise e0 → ∃ e, build_dict data acc = Raise e.
Proof.
  revert acc. induction data as [|x data IH]; intros acc Hr He;
    [by apply elem_of_nil in Hr|].
  simpl. destruct (item_key x) as [k|e] eqn:Ex; [|by exists e].
  apply elem_of_cons in Hr as [->|Hr]; [congruence|].
  simpl. by apply IH.
Qed.

End orchestrator.

(** ** The loop with the fetchers of the script *)

Lemma kept_elem (m : option (list (list N * pyval))) (r : pydict) :
  r ∈ kept m → m = Some r.
Proof.
  unfold kept. destruct (truthy_metadata m); [|by intros ?%elem_of_nil].
  destruct m as [x|]; simpl; [|by intros ?%elem_of_nil].
  by intros ->%list_elem_of_singleton.
Qed.

Lemma collect_fetched requests_pypi requests_github clock :
  Forall fetched
    (collect (get_pypi_metadata requests_pypi clock)
       (fun owner repo =>
          get_github_metadata requests_github clock owner repo VNone)
       None [] targets).
Proof.
  set (gp := get_pypi_metadata requests_pypi clock).
  set (gg := fun owner repo =>
               get_github_metadata requests_github clock owner repo VNone).
  rewrite (collect_served gp gg None [] targets
             [gp (VStr (lit "numpy")); gp (VStr (lit "pandas"));
              gg (lit "torvalds") (lit "linux");
              gg (lit "python") (lit "cpython")]).
  - apply Forall_forall. intros r Hr. simpl in Hr.
    rewrite !elem_of_app in Hr.
    destruct Hr as [Hr|[Hr|[Hr|[Hr|Hr]]]]; try apply kept_elem in Hr.
    + left. by eexists _, _, _.
    + left. by eexists _, _, _.
    + right. by eexists _, _, _, _, _.
    + right. by eexists _, _, _, _, _.
    + by apply elem_of_nil in Hr.
  - unfold targets. repeat constructor.
    + apply (fetch_github gp gg (lit "torvalds") (lit "linux")); by_decide.
    + apply (fetch_github gp gg (lit "python") (lit "cpython")); by_decide.
Qed.

(** ** The orchestrator of [Get_Date.py] *)

Lemma get_date_collect_all_failed
    (get_pypi : pyval → option (list (list N * pyval)))
    (get_github : list N → list N → option (list (list N * pyval))) :
  (∀ name, get_pypi name = None) →
  (∀ owner repo, get_github owner repo = None) →
  Get_Date_py.collect get_pypi get_github None [] targets = Ok [].
Proof.
  intros Hp Hg. vm_compute. rewrite !Hp. vm_compute. by rewrite !Hg.
Qed.

(** X17. When every fetch fails, [main] of [Get_Date.py] still saves: it
    replaces metadata.json by the empty array and leaves metadata.csv as it
    was. *)
Theorem get_date_main_erases_snapshot (openable : list N → bool)
    (csv_text : list (list N) → list (list (list N * pyval)) → list N)
    (get_pypi : pyval → option (list (list N * pyval)))
    (get_github : list N → list N → option (list (list N * pyval)))
    (fs : filesystem) :
  (∀ name, get_pypi name = None) →
  (∀ owner repo, get_github owner repo = None) →
  openable metadata_json = true →
  Get_Date_py.main openable csv_text get_pypi get_github true fs
  = (<[metadata_json := empty_array]> fs, Ok tt).
Proof.
  intros Hp Hg Hopen. unfold Get_Date_py.main.
  rewrite (get_date_collect_all_failed get_pypi get_github Hp Hg).
  cbn [negb]. unfold save_to_csv, Get_Date.save_to_json, write_file.
  by rewrite Hopen.
Qed.

(** ** The two encoders side by side *)

Lemma encode_char_plain (c : N) :
  c < 127 → encode_char true c = encode_char false c.
Proof.
  intros Hc. unfold encode_char. destruct (short_escape c); [done|].
  destruct (c <? 32) eqn:Ec.
  - apply N.ltb_lt in Ec.
    rewrite (proj2 (N.leb_gt 32 c)) by lia. cbn [andb].
    by rewrite (proj2 (N.ltb_lt c 0x10000)) by lia.
  - apply N.ltb_ge in Ec.
    rewrite (proj2 (N.leb_le 32 c)), (proj2 (N.leb_le c 126)) by lia. done.
Qed.

Lemma encode_str_plain (s : pystr) :
  Forall (fun c => c < 127) s → encode_str true s = encode_str false s.
Proof.
  intros Hs. unfold encode_str. do 2 f_equal.
  induction Hs as [|c s Hc _ IH]; simpl; [done|].
  by rewrite (encode_char_plain c Hc), IH.
Qed.

Lemma encode_item_plain (kv : list N * pyval) :
  Forall (fun c => c < 127) (kv.1 ++ text_of_value kv.2) →
  encode_item true kv = encode_item false kv.
Proof.
  intros [Hk Hv]%Forall_app. unfold encode_item.
  rewrite (encode_str_plain _ Hk). do 2 f_equal.
  destruct kv as [k [|s|z]]; simpl in *; [done| |done].
  by apply encode_str_plain.
Qed.

Lemma encode_dict_plain (level : nat) (d : pydict) :
  Forall (fun c => c < 127)
    (flat_map (fun kv : list N * pyval => kv.1 ++ text_of_value kv.2) d) →
  encode_dict true level d = encode_dict false level d.
Proof.
  intros Hd.
  assert (map (encode_item true) d = map (encode_item false) d) as Hmap.
  { induction d as [|x l IH]; cbn [map flat_map] in *; [done|].
    apply Forall_app in Hd as [Hx Hl].
    by rewrite (encode_item_plain x Hx), (IH Hl). }
  unfold encode_dict. by rewrite Hmap.
Qed.

Lemma json_dumps_plain (data : list pydict) :
  Forall (fun c => c < 127) (text_of data) →
  json_dumps true data = json_dumps false data.
Proof.
  intros Hd.
  assert (map (encode_dict true 1) data = map (encode_dict false 1) data)
    as Hmap.
  { unfold text_of in Hd.
    induction data as [|x l IH]; cbn [map flat_map] in *; [done|].
    apply Forall_app in Hd as [Hx Hl].
    by rewrite (encode_dict_plain 1 x Hx), (IH Hl). }
  unfold json_dumps. by rewrite Hmap.
Qed.

(** X21. On data whose keys and strings hold only code points below 127, the
    [save_to_json] of the two scripts write the same file. *)
Theorem save_to_json_scripts_agree (openable : list N → bool)
    (data : list pydict) (path : pystr) (fs : filesystem) :
  Forall (fun c => c < 127) (text_of data) →
  Get_Date.save_to_json openable data path fs
  = save_to_json openable data path fs.
Proof.
  intros Hd. unfold Get_Date.save_to_json, save_to_json.
  by rewrite (json_dumps_plain data Hd).
Qed.

(** X20. Where the file can be opened, [save_to_json] of [Get_Date.py] stores
    a file without any non-ASCII character, whatever the data. *)
Theorem get_date_save_to_json_ascii (openable : list N → bool)
    (data : list pydict) (path : pystr) (fs : filesystem) :
  openable path = true →
  ∃ content,
    Get_Date.save_to_json openable data path fs !! path = Some content
    ∧ Forall (fun c => c < 128) content.
Proof.
  intros Hopen. exists (json_dumps true data). split.
  - unfold Get_Date.save_to_json, write_file. rewrite Hopen.
    apply lookup_insert_eq.
  - apply Forall_forall. intros c Hc.
    destruct (decide (c < 128)) as [|Hge]; [done|].
    assert (c ∈ filter non_ascii (json_dumps true data)) as Hin
      by (apply list_elem_of_filter; split; [unfold non_ascii; lia|done]).
    rewrite json_dumps_escaped in Hin. by apply elem_of_nil in Hin.
Qed.

(** ** The value reported for additions and removals *)

(** X22. For a well-formed record, [x.get("version") or x.get("last_updated")]
    is the comparison field of the record, except for a PyPI record whose
    version is the empty string, where it is [None]. *)
Theorem reported_value_characterised (r : pydict) :
  wf_core r →
  reported_value r
  = if decide (source_of r = Some PyPI ∧ cmp_field r = VStr [])
    then VNone else cmp_field r.
Proof.
  intros Hwf.
  destruct (decide (source_of r = Some PyPI ∧ cmp_field r = VStr []))
    as [[Hs Hc]|Hn].
  - by apply reported_value_empty_version.
  - apply reported_value_cmp_field; [done|].
    destruct (wf_core_inv r Hwf) as (sk & _ & _ & Esk & _).
    destruct sk; [|by left]. right. intros Hc. by apply Hn.
Qed.

(** ** The shape of the events *)

Lemma visit_new_events (D : keyed) (k : key) (n : pydict)
    (evs : list pydict) :
  visit_new D k n = Ok evs →
  Forall (fun e => event_ok e ∧ get e k_change_type ≠ VStr ct_removed) evs.
Proof.
  unfold visit_new.
  destruct (negb (dict_mem k D)).
  - intros H.
    apply bind_ok_inv in H as (s & _ & H).
    apply bind_ok_inv in H as (nm & _ & H).
    apply bind_ok_inv in H as (t & _ & H).
    injection H as <-. repeat constructor; [|done].
    eexists _, _, _, _, _, _. split; [reflexivity|]. by left.
  - intros H.
    apply bind_ok_inv in H as (o & _ & H).
    apply bind_ok_inv in H as (s & _ & H).
    apply bind_ok_inv in H as (c & Hc & H).
    destruct c.
    + apply bind_ok_inv in H as (nm & _ & H).
      apply bind_ok_inv in H as (ov & Hov & H).
      apply bind_ok_inv in H as (nv & Hnv & H).
      apply bind_ok_inv in H as (t & _ & H).
      injection H as <-. repeat constructor; [|done].
      eexists _, _, _, _, _, _. split; [reflexivity|].
      right. left. split_and!; [done..|].
      destruct (py_eq s (VStr s_pypi)); [|done].
      rewrite Hov, Hnv in Hc. simpl in Hc. injection Hc as Hc.
      apply negb_true_iff in Hc. unfold py_eq in Hc.
      by apply bool_decide_eq_false in Hc.
    + apply bind_ok_inv in H as (s' & _ & H).
      apply bind_ok_inv in H as (c' & Hc' & H).
      destruct c'; [|by injection H as <-].
      apply bind_ok_inv in H as (nm & _ & H).
      apply bind_ok_inv in H as (ov & Hov & H).
      apply bind_ok_inv in H as (nv & Hnv & H).
      apply bind_ok_inv in H as (t & _ & H).
      injection H as <-. repeat constructor; [|done].
      eexists _, _, _, _, _, _. split; [reflexivity|].
      right. right. left. split_and!; [done..|].
      destruct (py_eq s' (VStr s_github)); [|done].
      rewrite Hov, Hnv in Hc'. simpl in Hc'. injection Hc' as Hc'.
      apply negb_true_iff in Hc'. unfold py_eq in Hc'.
      by apply bool_decide_eq_false in Hc'.
Qed.

Lemma update_loop_events (D items : keyed) (evs : list pydict) :
  update_loop D items = Ok evs →
  Forall (fun e => event_ok e ∧ get e k_change_type ≠ VStr ct_removed) evs.
Proof.
  revert evs. induction items as [|[k n] items IH]; intros evs; simpl.
  - by intros [= <-].
  - intros H.
    apply bind_ok_inv in H as (e1 & H1 & H).
    apply bind_ok_inv in H as (e2 & H2 & H).
    injection H as <-. apply Forall_app. split.
    + by apply visit_new_events in H1.
    + by apply IH.
Qed.

Lemma removed_loop_ok_events now tick (D Dnew : keyed) (keys : list key)
    (evs : list pydict) :
  removed_loop now tick D Dnew keys = Ok evs →
  Forall (fun e => event_ok e ∧ get e k_change_type = VStr ct_removed) evs.
Proof.
  revert tick evs. induction keys as [|k keys IH]; intros tick evs; simpl.
  - by intros [= <-].
  - destruct (negb (dict_mem k Dnew)); [|by apply IH].
    intros H.
    apply bind_ok_inv in H as (i1 & _ & H).
    apply bind_ok_inv in H as (s & _ & H).
    apply bind_ok_inv in H as (i2 & _ & H).
    apply bind_ok_inv in H as (nm & _ & H).
    apply bind_ok_inv in H as (i3 & _ & H).
    apply bind_ok_inv in H as (i4 & _ & H).
    apply bind_ok_inv in H as (more & Hmore & H).
    injection H as <-. constructor; [|by apply IH in Hmore].
    split; [|done].
    eexists _, _, _, _, _, _. split; [reflexivity|]. by repeat right.
Qed.

(** X23. Whatever the input, every event of a result has the six fields of
    the docstring, in its order, and one of the four labels; an addition has
    no old value, a removal no new value, and an update two different values
    and the source its label names. *)
Theorem compare_metadata_events_ok now (old_data new_data evs : list pydict) :
  compare_metadata now old_data new_data = Ok evs → Forall event_ok evs.
Proof.
  unfold compare_metadata. intros H.
  apply bind_ok_inv in H as (D & _ & H).
  apply bind_ok_inv in H as (Dn & _ & H).
  apply bind_ok_inv in H as (ups & Hups & H).
  apply bind_ok_inv in H as (rems & Hrems & H).
  injection H as <-. apply Forall_app. split.
  - apply update_loop_events in Hups.
    eapply Forall_impl; [exact Hups|]. by intros e [? _].
  - apply removed_loop_ok_events in Hrems.
    eapply Forall_impl; [exact Hrems|]. by intros e [? _].
Qed.

(** ** Additions and removals are dual *)

Lemma with_type_app (ct : pystr) (a b : list pydict) :
  with_type ct (a ++ b) = with_type ct a ++ with_type ct b.
Proof. apply filter_app. Qed.

Lemma with_type_removals (g : nat → pystr) (l : list pydict) :
  with_type ct_removed (imap (fun i o => removed_event (g i) o) l)
  = imap (fun i o => removed_event (g i) o) l
  ∧ with_type ct_added (imap (fun i o => removed_event (g i) o) l) = [].
Proof.
  revert g. induction l as [|o l IH]; intros g; simpl; [done|].
  destruct (IH (g ∘ S)) as [IH1 IH2]. unfold with_type in *. split.
  - rewrite filter_cons_True by done. f_equal. exact IH1.
  - rewrite filter_cons_False by done. exact IH2.
Qed.

Lemma map_dkey_removals (g : nat → pystr) (l : list pydict) :
  map dkey (imap (fun i o => removed_event (g i) o) l) = map dkey l.
Proof.
  revert g. induction l as [|o l IH]; intros g; simpl; [done|].
  f_equal. apply (IH (g ∘ S)).
Qed.

Lemma previous_record_None (old_data : list pydict) (n : pydict) :
  previous_record old_data n = None ↔ dkey n ∉ map dkey old_data.
Proof.
  unfold previous_record. rewrite <- dict_lookup_entries.
  by rewrite dict_lookup_None, snapshot_keys.
Qed.

Lemma with_type_current (old_data new_data : list pydict) :
  map dkey (with_type ct_added (flat_map (diff_current old_data) new_data))
  = map dkey (filter (fun n => dkey n ∉ map dkey old_data) new_data)
  ∧ with_type ct_removed (flat_map (diff_current old_data) new_data) = [].
Proof.
  induction new_data as [|n new_data [IH1 IH2]]; simpl; [done|].
  rewrite !with_type_app, map_app, IH1, IH2, app_nil_r.
  unfold diff_current.
  destruct (previous_record old_data n) as [o|] eqn:Ep.
  - assert (¬ (dkey n ∉ map dkey old_data)) as Hin.
    { intros Hn. apply previous_record_None in Hn. congruence. }
    rewrite filter_cons_False by done.
    destruct (decide (cmp_field o = cmp_field n)); [done|].
    unfold with_type. rewrite !filter_cons_False; [done| |].
    + unfold updated_event, update_type.
      by destruct (source_of n) as [[|]|].
    + unfold updated_event, update_type.
      by destruct (source_of n) as [[|]|].
  - apply previous_record_None in Ep.
    rewrite filter_cons_True by done.
    unfold with_type. rewrite filter_cons_True by done.
    by rewrite filter_cons_False by done.
Qed.

(** X10. The identities reported as added when going from one snapshot to
    another are, in the same order, the identities reported as removed when
    going back. *)
Theorem compare_metadata_duality now now' (a b : list pydict) :
  Forall readable a → Forall readable b →
  NoDup (map dkey a) → NoDup (map dkey b) →
  ∃ forth back,
    compare_metadata now a b = Ok forth ∧
    compare_metadata now' b a = Ok back ∧
    map dkey (with_type ct_added forth) = map dkey (with_type ct_removed back).
Proof.
  intros Ha Hb Hnda Hndb.
  assert (Forall readable_core a) as Ha'
    by (eapply Forall_impl; [exact Ha|apply readable_readable_core]).
  assert (Forall readable_core b) as Hb'
    by (eapply Forall_impl; [exact Hb|apply readable_readable_core]).
  exists (diff_closed now a b), (diff_closed now' b a). split_and!.
  - rewrite (compare_metadata_readable now a b Ha' Hb).
    by rewrite (diff_spec_closed now a b Hnda Hndb).
  - rewrite (compare_metadata_readable now' b a Hb' Ha).
    by rewrite (diff_spec_closed now' b a Hndb Hnda).
  - unfold diff_closed. rewrite !with_type_app, !map_app.
    destruct (with_type_current a b) as [-> _].
    destruct (with_type_current b a) as [_ ->].
    destruct (with_type_removals now (removed_records a b)) as [_ ->].
    destruct (with_type_removals now' (removed_records b a)) as [-> _].
    rewrite map_dkey_removals. simpl. by rewrite app_nil_r.
Qed.

(** ** What [get_pypi_metadata] returns *)

(** X8. [get_pypi_metadata] returns a record exactly when the request
    succeeds and the answer holds a name and a version; the record then has
    the name and the version of the answer, its author and home page or
    [None], and the reading of the clock. A missing name or version gives
    [None], not a record without the field. *)
Theorem get_pypi_metadata_spec
    (requests_pypi : list N → option (list (list N * pyval)))
    (clock : list N → list N) (package_name : pyval) (r : pydict) :
  get_pypi_metadata requests_pypi clock package_name = Some r
  ↔ ∃ data name version,
      requests_pypi (pypi_url package_name) = Some data ∧
      dict_lookup data k_name = Some name ∧
      dict_lookup data k_version = Some version ∧
      r = pypi_record name version (get data k_author) (get data k_home_page)
            (VStr (clock (pypi_url package_name))).
Proof.
  unfold get_pypi_metadata, getitem. split.
  - intros H.
    destruct (requests_pypi (pypi_url package_name)) as [data|] eqn:Ed;
      [|done].
    destruct (dict_lookup data k_name) as [name|] eqn:En; [|done].
    destruct (dict_lookup data k_version) as [version|] eqn:Ev; [|done].
    simpl in H. injection H as <-. by exists data, name, version.
  - intros (data & name & version & -> & -> & -> & ->). done.
Qed.

(** * The diff beyond well-formed records *)

(** ** Missing comparison fields *)





(** ** Everything added *)

Lemma stamped_inv (r : pydict) :
  stamped r →
  ∃ s nm t, dict_lookup r k_source = Some s ∧ dict_lookup r k_name = Some nm
            ∧ dict_lookup r k_checked_at = Some t.
Proof.
  unfold stamped, stampedb. intros H.
  destruct (dict_lookup r k_source) as [s|]; [|done].
  destruct (dict_lookup r k_name) as [nm|]; [|done].
  destruct (dict_lookup r k_checked_at) as [t|]; [|done].
  by exists s, nm, t.
Qed.

Lemma build_dict_stamped (data : list pydict) (acc : keyed) :
  Forall stamped data → build_dict data acc = Ok (index data acc).
Proof.
  intros Hs. revert acc.
  induction Hs as [|r data Hr _ IH]; intros acc; simpl; [done|].
  destruct (stamped_inv r Hr) as (s & nm & t & Hsrc & Hnm & _).
  assert (item_key r = Ok (dkey r)) as ->
    by (unfold item_key, dkey, getitem, get; by rewrite Hsrc, Hnm).
  simpl. apply IH.
Qed.

(** [a or b], by cases on [a]. *)
Lemma py_or_cases (a b : pyval) :
  py_or a b = match a with
              | VNone | VStr [] | VInt 0%Z => b
              | v => v
              end.
Proof. by destruct a as [|[|c s]|[|z|z]]. Qed.

Lemma update_loop_first_run (S : list pydict) :
  Forall stamped S →
  update_loop [] (map (fun r => (dkey r, r)) S)
  = Ok (map (fun r =>
               [ (k_source, get r k_source); (k_name, get r k_name);
                 (k_change_type, VStr ct_added); (k_old_value, VNone);
                 (k_new_value,
                  match get r k_version with
                  | VNone | VStr [] | VInt 0%Z => get r k_last_updated
                  | v => v
                  end);
                 (k_check_time, get r k_checked_at) ]) S).
Proof.
  induction 1 as [|r S Hr _ IH]; simpl; [done|].
  destruct (stamped_inv r Hr) as (s & nm & t & Hsrc & Hnm & Ht).
  rewrite IH. unfold visit_new, getitem. cbn [dict_mem dict_lookup negb].
  rewrite Hsrc, Hnm, Ht. cbn [mbind result_bind mret result_ret].
  unfold mk_event.
  replace s with (get r k_source) by (unfold get; by rewrite Hsrc).
  replace nm with (get r k_name) by (unfold get; by rewrite Hnm).
  replace t with (get r k_checked_at) by (unfold get; by rewrite Ht).
  rewrite py_or_cases. by destruct (get r k_version) as [|[|c v]|[|z|z]].
Qed.

(** C5. For a snapshot whose records carry [source], [name] and [checked_at]
    and have distinct identities, [compare_metadata([], S)] returns one event
    per record of [S], in the order of [S]: the event has the source and the
    name of the record, the label of an addition, no old value, the value
    [version or last_updated] of the record as new value (its [version]
    unless that is [None], empty or zero) and its [checked_at] as check
    time. *)
Theorem compare_metadata_all_added now (S : list pydict) :
  Forall stamped S → NoDup (map dkey S) →
  compare_metadata now [] S
  = Ok (map (fun r =>
               [ (k_source, get r k_source); (k_name, get r k_name);
                 (k_change_type, VStr ct_added); (k_old_value, VNone);
                 (k_new_value,
                  match get r k_version with
                  | VNone | VStr [] | VInt 0%Z => get r k_last_updated
                  | v => v
                  end);
                 (k_check_time, get r k_checked_at) ]) S).
Proof.
  intros HS Hnd. unfold compare_metadata. simpl.
  rewrite (build_dict_stamped S [] HS). simpl.
  rewrite (index_snapshot S Hnd), (update_loop_first_run S HS). simpl.
  by rewrite app_nil_r.
Qed.

(** ** The order of the events, whatever the records *)

Lemma getitem_get (d : pydict) (k : pystr) (v : pyval) :
  getitem d k = Ok v → get d k = v.
Proof.
  unfold getitem, get. destruct (dict_lookup d k); [by intros [= ->]|done].
Qed.

Lemma guard_true (s t : pyval) (m : result bool) :
  (if py_eq s t then m else mret false) = Ok true → s = t.
Proof. destruct (py_eq s t) eqn:E; [by apply py_eq_true in E|done]. Qed.

(** One visit appends nothing, or one event under the identity of the
    record, which is not a removal. *)
Lemma visit_new_order (D : keyed) (k : key) (n : pydict)
    (evs : list pydict) :
  visit_new D k n = Ok evs →
  evs = [] ∨
  ∃ e, evs = [e] ∧ dkey e = dkey n ∧ get e k_change_type ≠ VStr ct_removed.
Proof.
  unfold visit_new.
  destruct (negb (dict_mem k D)).
  - intros H.
    apply bind_ok_inv in H as (s & Hs%getitem_get & H).
    apply bind_ok_inv in H as (nm & Hnm%getitem_get & H).
    apply bind_ok_inv in H as (t & _ & H).
    injection H as <-. right. eexists. split; [reflexivity|].
    rewrite dkey_mk_event. unfold dkey. by rewrite Hs, Hnm.
  - intros H.
    apply bind_ok_inv in H as (o & _ & H).
    apply bind_ok_inv in H as (s & Hs%getitem_get & H).
    apply bind_ok_inv in H as (c & Hc & H).
    destruct c.
    + apply guard_true in Hc.
      apply bind_ok_inv in H as (nm & Hnm%getitem_get & H).
      apply bind_ok_inv in H as (ov & _ & H).
      apply bind_ok_inv in H as (nv & _ & H).
      apply bind_ok_inv in H as (t & _ & H).
      injection H as <-. right. eexists. split; [reflexivity|].
      rewrite dkey_mk_event. unfold dkey. by rewrite Hs, Hnm, Hc.
    + apply bind_ok_inv in H as (s' & Hs'%getitem_get & H).
      apply bind_ok_inv in H as (c' & Hc' & H).
      destruct c'; [|left; by injection H as <-].
      apply guard_true in Hc'.
      apply bind_ok_inv in H as (nm & Hnm%getitem_get & H).
      apply bind_ok_inv in H as (ov & _ & H).
      apply bind_ok_inv in H as (nv & _ & H).
      apply bind_ok_inv in H as (t & _ & H).
      injection H as <-. right. eexists. split; [reflexivity|].
      rewrite dkey_mk_event. unfold dkey. by rewrite Hs', Hnm, Hc'.
Qed.

Lemma update_loop_order (D items : keyed) (evs : list pydict) :
  (∀ k r, (k, r) ∈ items → dkey r = k) →
  update_loop D items = Ok evs →
  sublist (map dkey evs) (map fst items)
  ∧ Forall (fun e => get e k_change_type ≠ VStr ct_removed) evs.
Proof.
  revert evs. induction items as [|[k n] items IH]; intros evs Hk; simpl.
  - by intros [= <-].
  - intros H.
    apply bind_ok_inv in H as (e1 & H1 & H).
    apply bind_ok_inv in H as (e2 & H2 & H).
    injection H as <-.
    destruct (IH e2) as [Hsub Hall]; [|done|].
    { intros k' r' Hin. apply Hk, elem_of_cons. auto. }
    apply visit_new_order in H1 as [->|(e & -> & He & Hct)]; simpl.
    + split; [by apply sublist_cons|done].
    + rewrite He, (Hk k n) by (apply elem_of_cons; auto).
      split; [by apply sublist_skip|by constructor].
Qed.

Lemma removed_loop_order now tick (D Dn : keyed) (keys : list key)
    (evs : list pydict) :
  (∀ k o, dict_lookup D k = Some o → dkey o = k) →
  removed_loop now tick D Dn keys = Ok evs →
  sublist (map dkey evs) keys
  ∧ Forall (fun e => get e k_change_type = VStr ct_removed) evs.
Proof.
  intros HD. revert tick evs.
  induction keys as [|k keys IH]; intros tick evs; simpl.
  - by intros [= <-].
  - destruct (negb (dict_mem k Dn)).
    + intros H.
      apply bind_ok_inv in H as (i1 & Hi1 & H).
      apply bind_ok_inv in H as (s & Hs%getitem_get & H).
      apply bind_ok_inv in H as (i2 & Hi2 & H).
      apply bind_ok_inv in H as (nm & Hnm%getitem_get & H).
      apply bind_ok_inv in H as (i3 & _ & H).
      apply bind_ok_inv in H as (i4 & _ & H).
      apply bind_ok_inv in H as (more & Hmore & H).
      injection H as <-.
      destruct (IH _ _ Hmore) as [Hsub Hall].
      assert (i2 = i1) as -> by congruence.
      assert (dkey i1 = k) as Hk.
      { apply HD. unfold getitem_key in Hi1.
        destruct (dict_lookup D k); [by injection Hi1 as ->|done]. }
      simpl. rewrite dkey_mk_event.
      replace (s, nm) with k
        by (rewrite <- Hk; unfold dkey; by rewrite Hs, Hnm).
      split; [by apply sublist_skip|by constructor].
    + intros H. destruct (IH _ _ H) as [Hsub Hall].
      split; [by apply sublist_cons|done].
Qed.

Lemma index_lookup_dkey (data : list pydict) (k : key) (o : pydict) :
  dict_lookup (index data []) k = Some o → dkey o = k.
Proof.
  intros H%dict_lookup_Some_elem.
  by apply index_elem in H as [?%elem_of_nil|[_ ->]].
Qed.

(** Every result is the additions and updates, picked in the order of the
    current records, followed by the removals, picked in the order of the
    previous records. *)
Lemma compare_metadata_order now (old_data new_data evs : list pydict) :
  compare_metadata now old_data new_data = Ok evs →
  ∃ ups rems,
    evs = ups ++ rems ∧
    sublist (map dkey ups) (map dkey new_data) ∧
    sublist (map dkey rems) (map dkey old_data) ∧
    Forall (fun e => get e k_change_type ≠ VStr ct_removed) ups ∧
    Forall (fun e => get e k_change_type = VStr ct_removed) rems.
Proof.
  unfold compare_metadata. intros H.
  apply bind_ok_inv in H as (D & ->%build_dict_Ok & H).
  apply bind_ok_inv in H as (Dn & ->%build_dict_Ok & H).
  apply bind_ok_inv in H as (ups & Hups & H).
  apply bind_ok_inv in H as (rems & Hrems & H).
  injection H as <-. exists ups, rems.
  apply update_loop_order in Hups as [Hu1 Hu2].
  - apply removed_loop_order in Hrems as [Hr1 Hr2];
      [|apply index_lookup_dkey].
    split_and!; [done| | |done..].
    + etransitivity; [exact Hu1|apply index_keys_order].
    + etransitivity; [exact Hr1|apply index_keys_order].
  - intros k r Hin.
    by apply index_elem in Hin as [?%elem_of_nil|[_ ->]].
Qed.

(** C2. On the scenario of the specification, whatever the fields it leaves
    open hold, [compare_metadata] returns exactly three events in this order:
    the version update of numpy from 1.0 to 1.1, the addition of pandas with
    new value 2.0, the removal of torvalds/linux with old value 2023-01-01,
    stamped with the first clock reading. For every pair of inputs the result
    depends on the clock only through the [check_time] of the events, and
    whenever the call returns, the result consists of the additions and
    updates, in the order of the current records, followed by the removals,
    in the order of the previous records. *)
Theorem compare_metadata_scenario_and_order :
  (∀ now author home_page stars forks license ta tb
     author1 home_page1 author2 home_page2 tc td,
     compare_metadata now
       (scenario_previous author home_page stars forks license ta tb)
       (scenario_current author1 home_page1 author2 home_page2 tc td)
     = Ok [ [ (k_source, VStr s_pypi); (k_name, VStr (lit "numpy"));
              (k_change_type, VStr ct_version_update);
              (k_old_value, VStr (lit "1.0"));
              (k_new_value, VStr (lit "1.1"));
              (k_check_time, tc) ];
            [ (k_source, VStr s_pypi); (k_name, VStr (lit "pandas"));
              (k_change_type, VStr ct_added);
              (k_old_value, VNone);
              (k_new_value, VStr (lit "2.0"));
              (k_check_time, td) ];
            [ (k_source, VStr s_github);
              (k_name, VStr (lit "torvalds/linux"));
              (k_change_type, VStr ct_removed);
              (k_old_value, VStr (lit "2023-01-01"));
              (k_new_value, VNone);
              (k_check_time, VStr (now 0%nat)) ] ]) ∧
  (∀ now now' (old_data new_data : list pydict),
     result_map (map without_check_time)
       (compare_metadata now old_data new_data)
     = result_map (map without_check_time)
         (compare_metadata now' old_data new_data)) ∧
  (∀ now (old_data new_data evs : list pydict),
     compare_metadata now old_data new_data = Ok evs →
     ∃ ups rems,
       evs = ups ++ rems ∧
       sublist (map dkey ups) (map dkey new_data) ∧
       sublist (map dkey rems) (map dkey old_data) ∧
       Forall (fun e => get e k_change_type ≠ VStr ct_removed) ups ∧
       Forall (fun e => get e k_change_type = VStr ct_removed) rems).
Proof.
  split_and!.
  - intros. reflexivity.
  - apply compare_metadata_clock.
  - apply compare_metadata_order.
Qed.

(** ** Targets of an unknown kind *)

(** X12. A target that carries a name and whose source is neither of the two
    kinds is not fetched: the loop appends the answer of the target before it
    once more, or nothing when there is none yet. *)
Theorem collect_unknown_source get_pypi get_github
    (m : option (list (list N * pyval))) (current_data : list pydict)
    (t : pydict) (ts : list pydict) (s nm : pyval) :
  dict_lookup t k_source = Some s →
  dict_lookup t k_name = Some nm →
  s ≠ VStr s_pypi → s ≠ VStr s_github →
  collect get_pypi get_github (Some m) current_data (t :: ts)
  = collect get_pypi get_github (Some m) (current_data ++ kept m) ts
  ∧ collect get_pypi get_github None current_data (t :: ts)
    = collect get_pypi get_github None current_data ts.
Proof.
  intros Hs _ Hp Hg.
  assert (∀ md, fetch_target get_pypi get_github md t
                = match md with
                  | Some x => Ok x
                  | None => Raise UnboundLocalError
                  end) as Hf.
  { intros md. unfold fetch_target, getitem. rewrite Hs.
    cbn [mbind result_bind]. unfold py_eq.
    rewrite !bool_decide_eq_false_2 by done.
    cbn [mbind result_bind].
    rewrite ?bool_decide_eq_false_2 by done. done. }
  split; simpl; rewrite Hf; [|done].
  unfold kept. destruct (truthy_metadata m); [done|by rewrite app_nil_r].
Qed.

(** ** What a cycle leaves of the update report *)

Section reports.
Variable openable : list N → bool.
Variable csv_text : list (list N) → list (list (list N * pyval)) → list N.
Variable json_load : list N → option (list (list (list N * pyval))).
Variable get_pypi : pyval → option (list (list N * pyval)).
Variable get_github : list N → list N → option (list (list N * pyval)).
Variable now_iso : nat → list N.
Variable now_stamp : list N.

(** X15. When the stored snapshot parses to readable records with distinct
    identities, and the new cycle collects readable records with distinct
    identities that carry the same identities and the same comparison fields,
    the diff [main] computes is empty and the update report of the minute is
    left as it was. *)
Theorem main_reports_nothing_when_unchanged (fs : filesystem)
    (content : pystr) (previous_data : list pydict) :
  fs !! metadata_json = Some content →
  json_load content = Some previous_data →
  Forall readable_core previous_data →
  NoDup (map dkey previous_data) →
  Forall readable (collect get_pypi get_github None [] targets) →
  NoDup (map dkey (collect get_pypi get_github None [] targets)) →
  (∀ n, n ∈ collect get_pypi get_github None [] targets →
        ∃ o, o ∈ previous_data ∧ unchanged o n) →
  (∀ o, o ∈ previous_data →
        dkey o ∈ map dkey (collect get_pypi get_github None [] targets)) →
  compare_metadata now_iso
    (load_previous_metadata json_load fs metadata_json)
    (collect get_pypi get_github None [] targets) = Ok []
  ∧ (main openable csv_text json_load get_pypi get_github true now_iso
       now_stamp fs).1 !! report_path now_stamp
    = fs !! report_path now_stamp.
Proof.
  intros Hfs Hload Hold Hndo Hnew Hndn Hsame Hall.
  unfold main, load_previous_metadata. rewrite Hfs, Hload. cbn [negb].
  rewrite (compare_metadata_readable now_iso previous_data _ Hold Hnew).
  rewrite (diff_spec_closed now_iso previous_data _ Hndo Hndn).
  rewrite (diff_closed_unchanged now_iso previous_data _ Hndo Hsame Hall).
  split; [done|].
  destruct (report_path_fresh now_stamp) as [Hj Hc].
  destruct (collect get_pypi get_github None [] targets) as [|r cur];
    cbn [fst snd]; [done|].
  by rewrite save_to_csv_other, save_to_json_other.
Qed.

(** X16. A stored snapshot that parses to a list with a record lacking its
    source or its name makes the diff of [main] raise a key error for a
    missing field, with which [main] ends; the update report of the minute
    is left as it was. *)
Theorem main_malformed_previous (fs : filesystem) (content : pystr)
    (previous_data : list pydict) (r : pydict) (e0 : exn) :
  fs !! metadata_json = Some content →
  json_load content = Some previous_data →
  r ∈ previous_data → item_key r = Raise e0 →
  (∃ e, (main openable csv_text json_load get_pypi get_github true now_iso
           now_stamp fs).2 = Raise e
        ∧ missing_field e)
  ∧ (main openable csv_text json_load get_pypi get_github true now_iso
       now_stamp fs).1 !! report_path now_stamp
    = fs !! report_path now_stamp.
Proof.
  intros Hfs Hload Hr He.
  unfold main, load_previous_metadata. rewrite Hfs, Hload. cbn [negb].
  destruct (build_dict_raises previous_data [] r e0 Hr He) as [e Hb].
  assert (compare_metadata now_iso previous_data
            (collect get_pypi get_github None [] targets) = Raise e) as ->
    by (unfold compare_metadata; by rewrite Hb).
  destruct (report_path_fresh now_stamp) as [Hj Hc].
  apply build_dict_raise in Hb.
  destruct (collect get_pypi get_github None [] targets) as [|x cur];
    cbn [fst snd].
  - split; [by exists e|done].
  - split; [by exists e|].
    by rewrite save_to_csv_other, save_to_json_other.
Qed.
End reports.

(** ** The snapshot the loop collects *)

(** X18. With the fetchers of the script, the loop over the four targets
    keeps only records a fetcher returned, and diffing them against a
    previous snapshot of records the fetchers of either script return never
    raises, whichever scalars ([None], strings, integers) the two services
    answer in the fields the fetchers read. *)
Theorem collected_snapshot_diff
    (requests_pypi : list N → option (list (list N * pyval)))
    (requests_github :
       list N → list (list N * pyval) → option github_response)
    (clock : list N → list N) (now : nat → list N)
    (previous_data : list pydict) :
  Forall (fun r => fetched r ∨ fetched_by_get_date r) previous_data →
  Forall fetched
    (collect (get_pypi_metadata requests_pypi clock)
       (fun owner repo =>
          get_github_metadata requests_github clock owner repo VNone)
       None [] targets)
  ∧ ∃ evs,
      compare_metadata now previous_data
        (collect (get_pypi_metadata requests_pypi clock)
           (fun owner repo =>
              get_github_metadata requests_github clock owner repo VNone)
           None [] targets)
      = Ok evs.
Proof.
  intros Hprev.
  pose proof (collect_fetched requests_pypi requests_github clock) as Hcur.
  split; [done|]. eexists. apply compare_metadata_readable.
  - eapply Forall_impl; [exact Hprev|]. intros r [Hr|Hr].
    + by apply readable_readable_core, fetched_readable.
    + by apply fetched_by_get_date_readable.
  - eapply Forall_impl; [exact Hcur|]. apply fetched_readable.
Qed.

(** ** The encoder of [test_data.py] *)


(** * Instances *)

Lemma compare_metadata_closed_form_witness :
  compare_metadata (fun _ => []) sample_previous sample_current
  = Ok (flat_map (diff_current sample_previous) sample_current
        ++ imap (fun i o => removed_event ((fun _ => []) i) o)
             (removed_records sample_previous sample_current)).
Proof.
  apply (compare_metadata_closed_form (fun _ => [])
           sample_previous sample_current).
  - by repeat constructor.
  - by repeat constructor.
  - by_decide.
  - by_decide.
Defined.


Lemma compare_metadata_one_event_per_key_witness :
  ∃ evs,
    compare_metadata (fun _ => []) sample_previous sample_current = Ok evs ∧
    (length (events_for (dkey linux_then) evs) ≤ 1)%nat ∧
    (dkey linux_then ∉ map dkey sample_previous →
     dkey linux_then ∉ map dkey sample_current →
     events_for (dkey linux_then) evs = []).
Proof.
  apply (compare_metadata_one_event_per_key (fun _ => [])
           sample_previous sample_current (dkey linux_then)).
  - by repeat constructor.
  - by repeat constructor.
  - by_decide.
  - by_decide.
Defined.


Lemma build_dict_last_wins_witness :
  NoDup (map fst [(dkey numpy_1_0, numpy_1_0)]) ∧
  ∀ k, dict_lookup [(dkey numpy_1_0, numpy_1_0)] k
       = last (filter (fun r => dkey r = k) [numpy_unversioned; numpy_1_0]).
Proof.
  apply (build_dict_last_wins [numpy_unversioned; numpy_1_0]
           [(dkey numpy_1_0, numpy_1_0)]).
  reflexivity.
Defined.

Lemma compare_metadata_raises_only_missing_fields_witness :
  ∃ f, f ∈ [k_source; k_name; k_version; k_last_updated; k_checked_at]
       ∧ KeyError k_version = KeyError f.
Proof.
  apply (compare_metadata_raises_only_missing_fields (fun _ => [])
           [[(k_source, VStr s_pypi); (k_name, numpy); (k_checked_at, t0)]]
           [numpy_1_0] (KeyError k_version)).
  reflexivity.
Defined.

Lemma compare_metadata_on_fetched_witness :
  ∃ evs,
    compare_metadata (fun _ => []) []
      [pypi_record numpy (VStr (lit "1.0")) (VStr (lit "NumPy Developers"))
         VNone t1]
    = Ok evs.
Proof.
  apply (compare_metadata_on_fetched (fun _ => []) []
           [pypi_record numpy (VStr (lit "1.0"))
              (VStr (lit "NumPy Developers")) VNone t1]).
  - constructor.
  - constructor; [|constructor].
    left. exists (fun _ => Some sample_info), sample_clock, numpy.
    reflexivity.
Defined.

Lemma get_pypi_metadata_spec_witness :
  get_pypi_metadata (fun _ => Some sample_info) sample_clock numpy
  = Some (pypi_record numpy (VStr (lit "1.0"))
            (VStr (lit "NumPy Developers")) VNone t1).
Proof.
  apply (proj2 (get_pypi_metadata_spec (fun _ => Some sample_info)
                  sample_clock numpy
                  (pypi_record numpy (VStr (lit "1.0"))
                     (VStr (lit "NumPy Developers")) VNone t1))).
  exists sample_info, numpy, (VStr (lit "1.0")).
  split_and!; reflexivity.
Defined.

Lemma get_github_metadata_license_witness :
  (∀ v, repo_license sample_repo = Some (JScalar v) →
        get_github_metadata (fun _ _ => Some sample_repo) sample_clock
          (lit "torvalds") (lit "linux") VNone = None) ∧
  (repo_license sample_repo = None →
   get_github_metadata (fun _ _ => Some sample_repo) sample_clock
     (lit "torvalds") (lit "linux") VNone
   = Some (github_record (VStr (lit "torvalds" ++ [47] ++ lit "linux"))
             (VInt 100) (VInt 10) (VStr (lit "2023-01-01")) VNone
             (VStr (sample_clock
                      (github_url (lit "torvalds") (lit "linux")))))) ∧
  (∀ d, repo_license sample_repo = Some (JObject d) →
        get_github_metadata (fun _ _ => Some sample_repo) sample_clock
          (lit "torvalds") (lit "linux") VNone
        = Some (github_record (VStr (lit "torvalds" ++ [47] ++ lit "linux"))
                  (VInt 100) (VInt 10) (VStr (lit "2023-01-01"))
                  (get d k_spdx_id)
                  (VStr (sample_clock
                           (github_url (lit "torvalds") (lit "linux")))))).
Proof.
  apply (get_github_metadata_license (fun _ _ => Some sample_repo)
           sample_clock (lit "torvalds") (lit "linux") VNone sample_repo
           (VInt 100) (VInt 10) (VStr (lit "2023-01-01"))); reflexivity.
Defined.


Lemma main_touches_three_files_witness :
  (main sample_openable sample_csv_text sample_json_load sample_get_pypi
     sample_get_github true sample_now sample_stamp stored_fs).1
    !! lit "./output/notes.txt"
  = stored_fs !! lit "./output/notes.txt".
Proof.
  apply (main_touches_three_files sample_openable sample_csv_text
           sample_json_load sample_get_pypi sample_get_github sample_now
           sample_stamp true stored_fs (lit "./output/notes.txt")).
  - by_decide.
  - by_decide.
  - by_decide.
Defined.

Lemma get_date_main_erases_snapshot_witness :
  Get_Date_py.main sample_openable sample_csv_text (fun _ => None)
    (fun _ _ => None) true stored_fs
  = (<[metadata_json := empty_array]> stored_fs, Ok tt).
Proof.
  apply (get_date_main_erases_snapshot sample_openable sample_csv_text
           (fun _ => None) (fun _ _ => None) stored_fs); reflexivity.
Defined.

Lemma get_date_save_to_json_ascii_witness :
  ∃ content,
    Get_Date.save_to_json sample_openable [jose] metadata_json ∅
      !! metadata_json = Some content
    ∧ Forall (fun c => c < 128) content.
Proof.
  apply (get_date_save_to_json_ascii sample_openable [jose] metadata_json ∅).
  reflexivity.
Defined.

Lemma save_to_json_scripts_agree_witness :
  Get_Date.save_to_json sample_openable [numpy_1_0] metadata_json ∅
  = save_to_json sample_openable [numpy_1_0] metadata_json ∅.
Proof.
  apply (save_to_json_scripts_agree sample_openable [numpy_1_0]
           metadata_json ∅).
  vm_compute. repeat constructor.
Defined.

Lemma reported_value_characterised_witness :
  reported_value numpy_empty_version
  = if decide (source_of numpy_empty_version = Some PyPI
               ∧ cmp_field numpy_empty_version = VStr [])
    then VNone else cmp_field numpy_empty_version.
Proof.
  apply (reported_value_characterised numpy_empty_version). reflexivity.
Defined.

Lemma compare_metadata_events_ok_witness :
  Forall event_ok (diff_closed (fun _ => []) sample_previous sample_current).
Proof.
  apply (compare_metadata_events_ok (fun _ => []) sample_previous
           sample_current).
  reflexivity.
Defined.

Lemma compare_metadata_duality_witness :
  ∃ forth back,
    compare_metadata (fun _ => []) sample_previous sample_current = Ok forth ∧
    compare_metadata (fun _ => []) sample_current sample_previous = Ok back ∧
    map dkey (with_type ct_added forth) = map dkey (with_type ct_removed back).
Proof.
  apply (compare_metadata_duality (fun _ => []) (fun _ => [])
           sample_previous sample_current).
  - by repeat constructor.
  - by repeat constructor.
  - by_decide.
  - by_decide.
Defined.


Lemma compare_metadata_all_added_witness :
  compare_metadata sample_now [] [numpy_1_0; linux_now]
  = Ok [ [ (k_source, VStr s_pypi); (k_name, VStr (lit "numpy"));
           (k_change_type, VStr ct_added); (k_old_value, VNone);
           (k_new_value, VStr (lit "1.0"));
           (k_check_time, VStr (lit "2024-05-02T10:00:00")) ];
         [ (k_source, VStr s_github); (k_name, VStr (lit "torvalds/linux"));
           (k_change_type, VStr ct_added); (k_old_value, VNone);
           (k_new_value, VStr (lit "2023-01-01"));
           (k_check_time, VStr (lit "2024-05-02T10:00:00")) ] ].
Proof.
  apply (compare_metadata_all_added sample_now [numpy_1_0; linux_now]).
  - by repeat constructor.
  - by_decide.
Defined.


Lemma compare_metadata_scenario_and_order_witness :
  ∃ ups rems,
    [ [ (k_source, VStr s_pypi); (k_name, VStr (lit "numpy"));
        (k_change_type, VStr ct_version_update);
        (k_old_value, VStr (lit "1.0"));
        (k_new_value, VStr (lit "1.1"));
        (k_check_time, t1) ];
      [ (k_source, VStr s_pypi); (k_name, VStr (lit "pandas"));
        (k_change_type, VStr ct_added);
        (k_old_value, VNone);
        (k_new_value, VStr (lit "2.0"));
        (k_check_time, t1) ];
      [ (k_source, VStr s_github); (k_name, VStr (lit "torvalds/linux"));
        (k_change_type, VStr ct_removed);
        (k_old_value, VStr (lit "2023-01-01"));
        (k_new_value, VNone);
        (k_check_time, VStr (sample_now 0%nat)) ] ]
    = ups ++ rems ∧
    sublist (map dkey ups) (map dkey sample_current) ∧
    sublist (map dkey rems) (map dkey sample_previous) ∧
    Forall (fun e => get e k_change_type ≠ VStr ct_removed) ups ∧
    Forall (fun e => get e k_change_type = VStr ct_removed) rems.
Proof.
  apply (proj2 (proj2 compare_metadata_scenario_and_order) sample_now
           sample_previous sample_current).
  reflexivity.
Defined.

Lemma collect_unknown_source_witness :
  collect sample_get_pypi sample_get_github (Some (Some numpy_1_0)) []
    (npm_target :: [])
  = collect sample_get_pypi sample_get_github (Some (Some numpy_1_0))
      ([] ++ kept (Some numpy_1_0)) []
  ∧ collect sample_get_pypi sample_get_github None [] (npm_target :: [])
    = collect sample_get_pypi sample_get_github None [] [].
Proof.
  apply (collect_unknown_source sample_get_pypi sample_get_github
           (Some numpy_1_0) [] npm_target [] (VStr (lit "npm"))
           (VStr (lit "left-pad"))).
  - reflexivity.
  - reflexivity.
  - by_decide.
  - by_decide.
Defined.

Lemma main_reports_nothing_when_unchanged_witness :
  compare_metadata sample_now
    (load_previous_metadata sample_json_load stored_fs metadata_json)
    (collect sample_get_pypi sample_get_github None [] targets) = Ok []
  ∧ (main sample_openable sample_csv_text sample_json_load sample_get_pypi
       sample_get_github true sample_now sample_stamp stored_fs).1
      !! report_path sample_stamp
    = stored_fs !! report_path sample_stamp.
Proof.
  assert (collect sample_get_pypi sample_get_github None [] targets
          = [numpy_1_0]) as Ecur by reflexivity.
  apply (main_reports_nothing_when_unchanged sample_openable sample_csv_text
           sample_json_load sample_get_pypi sample_get_github sample_now
           sample_stamp stored_fs (lit "[stored snapshot]") [numpy_1_0]).
  - reflexivity.
  - reflexivity.
  - by repeat constructor.
  - by_decide.
  - rewrite Ecur. by repeat constructor.
  - by_decide.
  - rewrite Ecur. intros n ->%list_elem_of_singleton. exists numpy_1_0.
    split; [by_decide|]. split; reflexivity.
  - rewrite Ecur. intros o ->%list_elem_of_singleton. by_decide.
Defined.

Lemma main_malformed_previous_witness :
  (∃ e, (main sample_openable sample_csv_text malformed_json_load
           sample_get_pypi sample_get_github true sample_now sample_stamp
           stored_fs).2 = Raise e
        ∧ missing_field e)
  ∧ (main sample_openable sample_csv_text malformed_json_load sample_get_pypi
       sample_get_github true sample_now sample_stamp stored_fs).1
      !! report_path sample_stamp
    = stored_fs !! report_path sample_stamp.
Proof.
  apply (main_malformed_previous sample_openable sample_csv_text
           malformed_json_load sample_get_pypi sample_get_github sample_now
           sample_stamp stored_fs (lit "[stored snapshot]") [nameless]
           nameless (KeyError k_source)).
  - reflexivity.
  - reflexivity.
  - by_decide.
  - reflexivity.
Defined.

Lemma collected_snapshot_diff_witness :
  Forall fetched
    (collect (get_pypi_metadata (fun _ => Some sample_info) sample_clock)
       (fun owner repo =>
          get_github_metadata (fun _ _ => Some sample_repo) sample_clock
            owner repo VNone)
       None [] targets)
  ∧ ∃ evs,
      compare_metadata sample_now
        [pypi_record numpy (VStr (lit "1.0"))
           (VStr (lit "NumPy Developers")) VNone t1]
        (collect (get_pypi_metadata (fun _ => Some sample_info) sample_clock)
           (fun owner repo =>
              get_github_metadata (fun _ _ => Some sample_repo) sample_clock
                owner repo VNone)
           None [] targets)
      = Ok evs.
Proof.
  apply (collected_snapshot_diff (fun _ => Some sample_info)
           (fun _ _ => Some sample_repo) sample_clock sample_now
           [pypi_record numpy (VStr (lit "1.0"))
              (VStr (lit "NumPy Developers")) VNone t1]).
  constructor; [|constructor].
  left. left. exists (fun _ => Some sample_info), sample_clock, numpy.
  reflexivity.
Defined.
